(** * Colour-based object tracking: detector, recorder and renderer

    A shallow embedding of the three scripts of the repository

    - [detect_ball.py]              (module [DetectBall]),
    - [ball_trajectory_video.py]    (module [BallTrajectoryVideo]),
    - [universal_object_tracker.py] (module [UniversalTracker]),

    followed by the properties of the detector, the recorder and the
    renderer.

    Conventions of the embedding.

    - A Python float is a finite IEEE-754 double, modelled by the
      rational [Q] it denotes.  An arithmetic operation on floats returns
      the exact result rounded to the nearest double, ties to even
      ([round_double]); results beyond the largest double, which Python
      turns into infinities, are outside the model.  The only float that
      is "not a number" in these scripts, the maximum of an empty pandas
      column, is modelled by [None] in [option Z].
    - Python exceptions are modelled by the error monad [result]; the only
      operations of the scripts' own code that can raise are modelled as
      raising ([py_truediv], [iloc], [py_int_nan], dictionary lookup,
      [read_csv], [open_read]).
    - The configuration of a tracker is a Python dictionary read from
      a JSON document.  [UniversalTracker.json_value] are the values
      [json.load] builds; [UniversalTracker.Config] is the shape every
      method of the class reads the dictionary with, and a tracker whose
      configuration does not have this shape is kept as the value it
      holds ([UniversalTracker.Unshaped]).  The text of a document is
      left to the interface [UniversalTracker.JsonCodec].
    - OpenCV's image-processing primitives are not part of the
      repository.  They are the fields of the interface [OpenCV] and every
      theorem holds for every implementation of it; the interface takes
      them as total functions.  The two primitives whose meaning is a
      per-pixel formula, [inRange] and [bitwise_or], are defined. *)

From Stdlib Require Import QArith Qround Qpower Lqa.
From stdpp Require Import gmap strings list pretty sorting.

Open Scope Z_scope.

(** ** Python values and exceptions *)

Inductive exn :=
  | KeyError | IndexError | ZeroDivisionError | ValueError
  | FileNotFoundError | JSONDecodeError | UnboundLocalError.

Inductive result (A : Type) :=
  | Ok (a : A)
  | Raise (e : exn).
Arguments Ok {A} a.
Arguments Raise {A} e.

#[global] Instance result_ret : MRet result := fun A a => Ok a.
#[global] Instance result_bind : MBind result := fun A B f m =>
  match m with
  | Ok a => f a
  | Raise e => Raise e
  end.

(** [a > b] on floats. *)
Definition Qgtb (a b : Q) : bool := negb (Qle_bool a b).

(** The nearest integer, ties to even. *)
Definition round_half_even (q : Q) : Z :=
  let f := Qfloor q in
  match (q - inject_Z f ?= 1 # 2)%Q with
  | Lt => f
  | Eq => if Z.even f then f else f + 1
  | Gt => f + 1
  end.

(** The binary exponent of a positive rational: the largest [e] with
    [2 ^ e <= q]. *)
Definition Qlog2 (q : Q) : Z :=
  let e0 := Z.log2 (Qnum q) - Z.log2 (Zpos (Qden q)) in
  if Qle_bool (2 ^ e0)%Q q then e0 else e0 - 1.

(** The double nearest to a positive rational: a multiple of
    [2 ^ (e - 52)], where [e] is the binary exponent, and of [2 ^ -1074]
    in the subnormal range. *)
Definition round_positive (q : Q) : Q :=
  let ex := Z.max (Qlog2 q - 52) (-1074) in
  (inject_Z (round_half_even (q / 2 ^ ex)) * 2 ^ ex)%Q.

(** The double nearest to a rational, ties to even. *)
Definition round_double (q : Q) : Q :=
  match Qnum q with
  | Z0 => 0%Q
  | Zpos _ => round_positive q
  | Zneg _ => (- round_positive (- q))%Q
  end.

(** [float(n)] of an integer, as in [n * x] with [x] a float. *)
Definition float_of_int (n : Z) : Q := round_double (inject_Z n).

(** [a * b] on floats. *)
Definition float_mul (a b : Q) : Q := round_double (a * b).

(** [a / b] on floats: raises [ZeroDivisionError] when [b] is zero. *)
Definition py_truediv (a b : Q) : result Q :=
  if Qeq_bool b 0 then Raise ZeroDivisionError
  else Ok (round_double (a / b)).

(** [int(q)]: truncation towards zero. *)
Definition py_int (q : Q) : Z := Z.quot (Qnum q) (Zpos (Qden q)).

(** [round(q, 1)]: the decimal with one digit after the point nearest to
    the exact value of the double [q], ties to even; the float Python
    returns is the double nearest to this decimal, and is written to the
    coordinate file as this decimal. *)
Definition py_round1 (q : Q) : Q := (round_half_even (q * 10)%Q # 10).

(** [max(first :: rest, key=key)]: the first element whose key is maximal. *)
Fixpoint py_max_by {A} (key : A → Q) (best : A) (rest : list A) : A :=
  match rest with
  | [] => best
  | x :: rest' =>
      if Qgtb (key x) (key best) then py_max_by key x rest'
      else py_max_by key best rest'
  end.

(** [d[k]] on a dictionary. *)
Definition getitem {V} (d : gmap string V) (k : string) : result V :=
  match d !! k with
  | Some v => Ok v
  | None => Raise KeyError
  end.

(** [a or b] where [a] is [None] or an integer: zero is falsy. *)
Definition py_or (a : option Z) (b : Z) : Z :=
  match a with
  | Some v => if v =? 0 then b else v
  | None => b
  end.

(** Truthiness of an optional path: [None] and the empty string are falsy. *)
Definition truthy_path (p : option string) : bool :=
  match p with
  | Some s => negb (String.eqb s EmptyString)
  | None => false
  end.

(** ** Images, masks and the per-pixel OpenCV primitives *)

Abbreviation Scalar3 := (Z * Z * Z)%type (only parsing).
Abbreviation Image := (list (list (Z * Z * Z))) (only parsing).
Abbreviation Mask := (list (list Z)) (only parsing).
Abbreviation Point := (Z * Z)%type (only parsing).
Abbreviation Contour := (list (Z * Z)) (only parsing).

Record Moments := { m00 : Q; m10 : Q; m01 : Q }.

(** One pixel of [cv2.inRange]: all three channels inside the closed
    interval. *)
Definition in_range (lower upper px : Scalar3) : bool :=
  let '(l0, l1, l2) := lower in
  let '(u0, u1, u2) := upper in
  let '(p0, p1, p2) := px in
  (l0 <=? p0) && (p0 <=? u0) && (l1 <=? p1) && (p1 <=? u1)
  && (l2 <=? p2) && (p2 <=? u2).

Definition inRange (src : Image) (lower upper : Scalar3) : Mask :=
  (fun row : list Scalar3 =>
     (fun px => if in_range lower upper px then 255 else 0) <$> row) <$> src.

Definition bitwise_or (a b : Mask) : Mask := zip_with (zip_with Z.lor) a b.

(** [np.zeros((height, width, 3), dtype=np.uint8)]. *)
Definition np_zeros (height width : Z) : Image :=
  replicate (Z.to_nat height) (replicate (Z.to_nat width) (0, 0, 0)).

Definition pixel_at {A} (img : list (list A)) (r c : nat) : option A :=
  img !! r ≫= (.!! c).

Inductive MorphOp := MORPH_OPEN | MORPH_CLOSE.

(** The OpenCV primitives the scripts call and do not define. *)
Class OpenCV := {
  cvtColor_BGR2HSV : Image → Image;
  GaussianBlur : Image → Z → Image;
  (** [morphologyEx mask op k] uses the square kernel [np.ones((k, k))]. *)
  morphologyEx : Mask → MorphOp → Z → Mask;
  (** [findContours mask RETR_EXTERNAL CHAIN_APPROX_SIMPLE]. *)
  findContours : Mask → list Contour;
  contourArea : Contour → Q;
  moments : Contour → Moments;
  (** [polylines img pts False color thickness]. *)
  polylines : Image → list Point → Scalar3 → Z → Image;
  (** [circle img center radius color thickness]. *)
  circle : Image → Point → Z → Scalar3 → Z → Image;
  (** [putText img text org FONT_HERSHEY_SIMPLEX 1 color 2]. *)
  putText : Image → string → Point → Scalar3 → Image;
}.

(** ** Videos, coordinate tables and the outside world *)

Record Row := { frame : Z; timestamp_ms : Q; x : Z; y : Z }.

Abbreviation DataFrame := (list Row) (only parsing).

(** A video file: its frames in decode order and the properties
    [cap.get] reports.  The same record describes a written video. *)
Record Video := {
  frames : list Image;
  CAP_PROP_FPS : Q;
  CAP_PROP_FRAME_WIDTH : Z;
  CAP_PROP_FRAME_HEIGHT : Z;
}.

(** A capture that could not be opened: no frame, every property zero. *)
Definition closed_capture : Video :=
  {| frames := []; CAP_PROP_FPS := 0; CAP_PROP_FRAME_WIDTH := 0;
     CAP_PROP_FRAME_HEIGHT := 0 |}.

Record World := {
  text_files : gmap string string;
  csv_files : gmap string DataFrame;
  video_files : gmap string Video;
  (** the key code [cv2.waitKey] returns while frame [n] is previewed *)
  waitKey : Z → Z;
}.

Definition VideoCapture (w : World) (path : string) : Video :=
  default closed_capture (video_files w !! path).

(** [os.path.exists] on the path of a video. *)
Definition path_exists (w : World) (path : string) : bool :=
  bool_decide (is_Some (video_files w !! path)).

(** [original_video_path and os.path.exists(original_video_path)]. *)
Definition usable_source (w : World) (original_video_path : option string)
  : option string :=
  match original_video_path with
  | Some p =>
      if truthy_path original_video_path && path_exists w p then Some p
      else None
  | None => None
  end.

(** [open(path, 'r')] followed by reading the text. *)
Definition open_read (w : World) (path : string) : result string :=
  match text_files w !! path with
  | Some s => Ok s
  | None => Raise FileNotFoundError
  end.

Definition write_text (w : World) (path text : string) : World :=
  {| text_files := <[path := text]> (text_files w); csv_files := csv_files w;
     video_files := video_files w; waitKey := waitKey w |}.

Definition read_csv (w : World) (path : string) : result DataFrame :=
  match csv_files w !! path with
  | Some df => Ok df
  | None => Raise FileNotFoundError
  end.

Definition to_csv (w : World) (path : string) (df : DataFrame) : World :=
  {| text_files := text_files w; csv_files := <[path := df]> (csv_files w);
     video_files := video_files w; waitKey := waitKey w |}.

(** [df.iloc[j]]. *)
Definition iloc (df : DataFrame) (j : nat) : result Row :=
  match df !! j with
  | Some r => Ok r
  | None => Raise IndexError
  end.

(** [df[col].max()] and [df[col].min()]: [None] is the NaN of an empty
    column. *)
Definition series_max (col : list Z) : option Z :=
  match col with
  | [] => None
  | v :: col' => Some (foldl Z.max v col')
  end.

Definition series_min (col : list Z) : option Z :=
  match col with
  | [] => None
  | v :: col' => Some (foldl Z.min v col')
  end.

(** Subtraction of floats: NaN is absorbing. *)
Definition nan_sub (a b : option Z) : option Z :=
  a' ← a; b' ← b; Some (a' - b').

(** The builtin [max(a, b)]: [b] only when [b > a], which NaN never is. *)
Definition py_max2 (a b : option Z) : option Z :=
  match a, b with
  | Some a', Some b' => if a' <? b' then b else a
  | _, _ => a
  end.

(** [int(v)] of a float that may be NaN. *)
Definition py_int_nan (v : option Z) : result Z :=
  match v with
  | Some z => Ok z
  | None => Raise ValueError
  end.

(** [cv2.waitKey(1) & 0xFF == ord('q')]. *)
Definition quit_pressed (w : World) (frame_number : Z) : bool :=
  Z.land (waitKey w frame_number) 255 =? 113.

(** ** Code shared by the scripts

    [detect_ball.py] and [universal_object_tracker.py] repeat the same
    text for the choice of the centroid and for the read loop, and the
    three renderers repeat the same point loop; the repeated text is
    embedded once, with what differs between the copies as a parameter. *)

Section Shared.
Context {cv : OpenCV}.

(** [if contours: ... return None] (detect_ball.py 41-55 with
    [min_area = 50], universal_object_tracker.py 156-172). *)
Definition largest_centroid (min_area : Q) (contours : list Contour)
  : result (option Point) :=
  match contours with
  | [] => Ok None
  | c :: cs =>
      let largest_contour := py_max_by contourArea c cs in
      let area := contourArea largest_contour in
      if Qgtb area min_area then
        let M := moments largest_contour in
        if negb (Qeq_bool (m00 M) 0) then
          qx ← py_truediv (m10 M) (m00 M);
          let cx := py_int qx in
          qy ← py_truediv (m01 M) (m00 M);
          let cy := py_int qy in
          Ok (Some (cx, cy))
        else Ok None
      else Ok None
  end.

(** [while True: ret, frame = cap.read() ...] (detect_ball.py 76-111,
    universal_object_tracker.py 204-240).  [pending] are the frames the
    capture has not yet delivered; the preview only draws on the frame
    and shows it, and is kept for the key press that ends the loop. *)
Fixpoint read_loop (detect : Image → result (option Point))
    (show_preview : bool) (w : World) (fps : Q) (pending : list Image)
    (frame_number : Z) (results : list Row) : result (list Row) :=
  match pending with
  | [] => Ok results
  | img :: pending' =>
      let frame_number := frame_number + 1 in
      per_frame ← py_truediv 1000 fps;
      let timestamp := float_mul (float_of_int (frame_number - 1)) per_frame in
      obj_pos ← detect img;
      let results :=
        match obj_pos with
        | Some (px, py) =>
            results ++ [{| frame := frame_number;
                           timestamp_ms := py_round1 timestamp;
                           x := px; y := py |}]
        | None => results
        end in
      if show_preview && quit_pressed w frame_number then Ok results
      else read_loop detect show_preview w fps pending' frame_number results
  end.

Definition in_canvas (width height : Z) (p : Point) : bool :=
  (0 <=? p.1) && (p.1 <? width) && (0 <=? p.2) && (p.2 <? height).

(** [points = []; for j in range(i + 1): ...] over the indices [js]
    (ball_trajectory_video.py 35-39 with [keep] always true, 103-108;
    universal_object_tracker.py 319-324). *)
Fixpoint points_loop (keep : Point → bool) (df : DataFrame)
    (js : list nat) (points : list Point) : result (list Point) :=
  match js with
  | [] => Ok points
  | j :: js' =>
      row ← iloc df j;
      let p := (x row, y row) in
      points_loop keep df js' (if keep p then points ++ [p] else points)
  end.

Definition trajectory_points (keep : Point → bool) (df : DataFrame)
    (i : nat) : result (list Point) :=
  points_loop keep df (seq 0 (i + 1)) [].

(** [ret, frame = cap.read()] on a capture with [pending] frames left. *)
Definition cap_read (pending : list Image)
  : option Image * list Image :=
  match pending with
  | img :: pending' => (Some img, pending')
  | [] => (None, [])
  end.

(** [for i in range(len(df)): ...] of the two overlay renderers
    (ball_trajectory_video.py 94-122 with the colours, thickness and
    radius written in the text; universal_object_tracker.py 310-338).
    [cap] is [None] without a source video and otherwise holds the
    frames the capture has not yet delivered; [written] are the frames
    given to [out.write]. *)
Fixpoint overlay_loop (df : DataFrame) (width height : Z)
    (track_color : Scalar3) (line_thickness : Z)
    (highlight_color : Scalar3) (circle_size : Z)
    (cap : option (list Image)) (steps : list nat) (written : list Image)
    : result (list Image) :=
  match steps with
  | [] => Ok written
  | i :: steps' =>
      let '(img, cap) :=
        match cap with
        | Some pending =>
            let '(ret, pending') := cap_read pending in
            (default (np_zeros height width) ret, Some pending')
        | None => (np_zeros height width, None)
        end in
      points ← trajectory_points (in_canvas width height) df i;
      let img :=
        if (1 <? length points)%nat
        then polylines img points track_color line_thickness
        else img in
      row ← iloc df i;
      let current := (x row, y row) in
      let img :=
        if in_canvas width height current
        then circle img current circle_size highlight_color (-1)
        else img in
      overlay_loop df width height track_color line_thickness
        highlight_color circle_size cap steps' (written ++ [img])
  end.
End Shared.

(** ** detect_ball.py *)

Module DetectBall.
Section Script.
Context {cv : OpenCV}.

Definition lower_yellow1 : Scalar3 := (20, 100, 100).
Definition upper_yellow1 : Scalar3 := (30, 255, 255).
Definition lower_yellow2 : Scalar3 := (15, 50, 50).
Definition upper_yellow2 : Scalar3 := (35, 255, 255).

(** Lines 29-31: the colour mask before noise removal. *)
Definition yellow_mask (hsv : Image) : Mask :=
  let mask1 := inRange hsv lower_yellow1 upper_yellow1 in
  let mask2 := inRange hsv lower_yellow2 upper_yellow2 in
  bitwise_or mask1 mask2.

(** Lines 17-39: the contours of the cleaned mask. *)
Definition contours_of (img : Image) : list Contour :=
  let hsv := cvtColor_BGR2HSV img in
  let mask := yellow_mask hsv in
  let mask := morphologyEx mask MORPH_OPEN 5 in
  let mask := morphologyEx mask MORPH_CLOSE 5 in
  findContours mask.

Definition detect_yellow_ball (img : Image) : result (option Point) :=
  let contours := contours_of img in
  largest_centroid 50 contours.

(** Lines 73-111: the rows accumulated by the read loop. *)
Definition recorded_rows (w : World) (video_path : string)
  : result (list Row) :=
  let cap := VideoCapture w video_path in
  read_loop detect_yellow_ball true w (CAP_PROP_FPS cap) (frames cap) 0 [].

(** The function returns nothing; its effect is the coordinate file. *)
Definition extract_ball_coordinates (w : World)
    (video_path output_csv : string) : result World :=
  results ← recorded_rows w video_path;
  match results with
  | _ :: _ => Ok (to_csv w output_csv results)
  | [] => Ok w
  end.
End Script.
End DetectBall.

(** ** ball_trajectory_video.py

    The script is embedded as it runs as a program: its [import os] is
    executed before either function is called. *)

Module BallTrajectoryVideo.
Section Script.
Context {cv : OpenCV}.

(** Lines 30-55. *)
Fixpoint plain_loop (df : DataFrame) (width height : Z)
    (steps : list nat) (written : list Image) : result (list Image) :=
  match steps with
  | [] => Ok written
  | i :: steps' =>
      let img := np_zeros height width in
      points ← trajectory_points (fun _ => true) df i;
      let img :=
        if (1 <? length points)%nat
        then polylines img points (0, 255, 0) 8
        else img in
      row ← iloc df i;
      let img := circle img (x row, y row) 8 (0, 255, 255) (-1) in
      let label := ("Frame: " +:+ pretty (Z.of_nat i + 1) +:+ "/"
                    +:+ pretty (length df))%string in
      let img := putText img label (10, 30) (255, 255, 255) in
      plain_loop df width height steps' (written ++ [img])
  end.

Definition create_trajectory_video (w : World) (csv_path : string)
    (output_path : string) (fps : Q) : result (string * Video) :=
  df ← read_csv w csv_path;
  width ← py_int_nan (py_max2 (series_max (x <$> df))
                              (series_max (y <$> df)));
  let width := width + 100 in
  height ← py_int_nan (py_max2 (series_max (x <$> df))
                               (series_max (y <$> df)));
  let height := height + 100 in
  written ← plain_loop df width height (seq 0 (length df)) [];
  Ok (output_path,
      {| frames := written; CAP_PROP_FPS := fps;
         CAP_PROP_FRAME_WIDTH := width; CAP_PROP_FRAME_HEIGHT := height |}).

(** The last statement releases [cap] whenever a path was given, also
    when the path does not exist and [cap] was never bound. *)
Definition create_trajectory_overlay_video (w : World) (csv_path : string)
    (original_video_path : option string) (output_path : string)
    : result (string * Video) :=
  df ← read_csv w csv_path;
  '(cap, width, height, fps) ←
    match usable_source w original_video_path with
    | Some p =>
        let cap := VideoCapture w p in
        Ok (Some (frames cap), CAP_PROP_FRAME_WIDTH cap,
            CAP_PROP_FRAME_HEIGHT cap, CAP_PROP_FPS cap)
    | None =>
        width ← py_int_nan (nan_sub (series_max (x <$> df))
                                    (series_min (x <$> df)));
        height ← py_int_nan (nan_sub (series_max (y <$> df))
                                     (series_min (y <$> df)));
        Ok (None, width + 200, height + 200, 60%Q)
    end;
  written ← overlay_loop df width height (0, 255, 0) 6 (0, 255, 255) 8
              cap (seq 0 (length df)) [];
  if truthy_path original_video_path
     && negb (bool_decide (is_Some cap))
  then Raise UnboundLocalError
  else
    Ok (output_path,
        {| frames := written; CAP_PROP_FPS := fps;
           CAP_PROP_FRAME_WIDTH := width;
           CAP_PROP_FRAME_HEIGHT := height |}).
End Script.
End BallTrajectoryVideo.

(** ** universal_object_tracker.py *)

Module UniversalTracker.

Record ColorConfig := {
  hsv_range : Scalar3 * Scalar3;
  track_color : Scalar3;
  highlight_color : Scalar3;
  name : string;
}.

Record DetectionConfig := {
  min_area : Q;
  morphology_kernel_size : Z;
  blur_kernel_size : Z;
}.

Record TrajectoryConfig := {
  line_thickness : Z;
  highlight_circle_size : Z;
  fps : Q;
}.

(** The configuration dictionary with the shape every access of the
    class relies on. *)
Record Config := {
  colors : gmap string ColorConfig;
  detection : DetectionConfig;
  trajectory : TrajectoryConfig;
}.

(** A tracker whose configuration has that shape. *)
Record ColorTracker := { config : Config }.

(** The values [json.load] builds and [json.dump] writes: [None], a
    bool, an int, a float, a string, a list, or a dictionary with
    strings as keys. *)
#[warnings="-register-all"] Inductive json_value :=
  | JNull
  | JBool (b : bool)
  | JInt (n : Z)
  | JFloat (q : Q)
  | JString (s : string)
  | JArray (items : list json_value)
  | JObject (fields : gmap string json_value).

(** [json.load] and [json.dump] of the standard library.  [json_load]
    raises on a text that is not a JSON document and returns the value
    of a text that is one, whatever its shape. *)
Class JsonCodec := {
  json_load : string → result json_value;
  json_dump : json_value → string;
}.

(** The dictionary of a configuration.  A number with denominator 1
    stands for a Python int, any other for a float. *)
Definition scalar_json (c : Scalar3) : json_value :=
  JArray [JInt c.1.1; JInt c.1.2; JInt c.2].

Definition number_json (q : Q) : json_value :=
  if Zpos (Qden q) =? 1 then JInt (Qnum q) else JFloat q.

Definition color_json (c : ColorConfig) : json_value :=
  JObject {[ "hsv_range"%string :=
               JArray [scalar_json (hsv_range c).1;
                       scalar_json (hsv_range c).2];
             "track_color"%string := scalar_json (track_color c);
             "highlight_color"%string := scalar_json (highlight_color c);
             "name"%string := JString (name c) ]}.

Definition detection_json (d : DetectionConfig) : json_value :=
  JObject {[ "min_area"%string := number_json (min_area d);
             "morphology_kernel_size"%string :=
               JInt (morphology_kernel_size d);
             "blur_kernel_size"%string := JInt (blur_kernel_size d) ]}.

Definition trajectory_json (t : TrajectoryConfig) : json_value :=
  JObject {[ "line_thickness"%string := JInt (line_thickness t);
             "highlight_circle_size"%string :=
               JInt (highlight_circle_size t);
             "fps"%string := number_json (fps t) ]}.

Definition to_json (cfg : Config) : json_value :=
  JObject {[ "colors"%string := JObject (color_json <$> colors cfg);
             "detection"%string := detection_json (detection cfg);
             "trajectory"%string := trajectory_json (trajectory cfg) ]}.

(** The reading of a value as a configuration: the values [to_json]
    writes, and no other, are read. *)
Definition scalar_of_json (v : json_value) : option Scalar3 :=
  match v with
  | JArray [JInt a; JInt b; JInt c] => Some (a, b, c)
  | _ => None
  end.

Definition number_of_json (v : json_value) : option Q :=
  match v with
  | JInt n => Some (inject_Z n)
  | JFloat q => if Zpos (Qden q) =? 1 then None else Some q
  | _ => None
  end.

Definition int_of_json (v : json_value) : option Z :=
  match v with
  | JInt n => Some n
  | _ => None
  end.

(** The entries of a dictionary with exactly [n] keys. *)
Definition entries (n : nat) (v : json_value)
  : option (gmap string json_value) :=
  match v with
  | JObject m => if decide (size m = n) then Some m else None
  | _ => None
  end.

Definition color_of_json (v : json_value) : option ColorConfig :=
  m ← entries 4 v;
  range ← m !! "hsv_range"%string;
  range ← match range with
          | JArray [lower; upper] =>
              lower ← scalar_of_json lower;
              upper ← scalar_of_json upper;
              Some (lower, upper)
          | _ => None
          end;
  track ← m !! "track_color"%string ≫= scalar_of_json;
  highlight ← m !! "highlight_color"%string ≫= scalar_of_json;
  shown ← m !! "name"%string;
  match shown with
  | JString s =>
      Some {| hsv_range := range; track_color := track;
              highlight_color := highlight; name := s |}
  | _ => None
  end.

Definition colors_of_json (v : json_value)
  : option (gmap string ColorConfig) :=
  match v with
  | JObject m =>
      if decide (map_Forall (fun _ c => is_Some (color_of_json c)) m)
      then Some (omap color_of_json m) else None
  | _ => None
  end.

Definition detection_of_json (v : json_value) : option DetectionConfig :=
  m ← entries 3 v;
  area ← m !! "min_area"%string ≫= number_of_json;
  kernel ← m !! "morphology_kernel_size"%string ≫= int_of_json;
  blur ← m !! "blur_kernel_size"%string ≫= int_of_json;
  Some {| min_area := area; morphology_kernel_size := kernel;
          blur_kernel_size := blur |}.

Definition trajectory_of_json (v : json_value) : option TrajectoryConfig :=
  m ← entries 3 v;
  thickness ← m !! "line_thickness"%string ≫= int_of_json;
  radius ← m !! "highlight_circle_size"%string ≫= int_of_json;
  rate ← m !! "fps"%string ≫= number_of_json;
  Some {| line_thickness := thickness; highlight_circle_size := radius;
          fps := rate |}.

Definition of_json (v : json_value) : option Config :=
  m ← entries 3 v;
  cs ← m !! "colors"%string ≫= colors_of_json;
  d ← m !! "detection"%string ≫= detection_of_json;
  t ← m !! "trajectory"%string ≫= trajectory_of_json;
  Some {| colors := cs; detection := d; trajectory := t |}.

(** A tracker object is its [config] attribute: a configuration of
    the shape the methods read, or any other value. *)
Inductive Tracker :=
  | Shaped (self : ColorTracker)
  | Unshaped (value : json_value).

Definition tracker_of (value : json_value) : Tracker :=
  match of_json value with
  | Some cfg => Shaped {| config := cfg |}
  | None => Unshaped value
  end.

Definition default_colors : list (string * ColorConfig) :=
  [ ("yellow"%string,
     {| hsv_range := ((15, 50, 50), (35, 255, 255));
        track_color := (0, 255, 0); highlight_color := (0, 255, 255);
        name := "黄色" |});
    ("red"%string,
     {| hsv_range := ((0, 100, 100), (10, 255, 255));
        track_color := (255, 0, 0); highlight_color := (0, 0, 255);
        name := "赤色" |});
    ("blue"%string,
     {| hsv_range := ((100, 100, 100), (130, 255, 255));
        track_color := (0, 255, 255); highlight_color := (255, 0, 0);
        name := "青色" |});
    ("green"%string,
     {| hsv_range := ((40, 100, 100), (80, 255, 255));
        track_color := (255, 0, 255); highlight_color := (0, 255, 0);
        name := "緑色" |});
    ("orange"%string,
     {| hsv_range := ((10, 100, 100), (25, 255, 255));
        track_color := (0, 128, 255); highlight_color := (0, 165, 255);
        name := "オレンジ色" |});
    ("purple"%string,
     {| hsv_range := ((130, 100, 100), (160, 255, 255));
        track_color := (255, 255, 0); highlight_color := (128, 0, 128);
        name := "紫色" |}) ].

Definition default_config : Config :=
  {| colors := list_to_map default_colors;
     detection := {| min_area := 50; morphology_kernel_size := 5;
                     blur_kernel_size := 5 |};
     trajectory := {| line_thickness := 6; highlight_circle_size := 8;
                      fps := 60 |} |}.

Section Class.
Context {cv : OpenCV} {json : JsonCodec}.

(** The value of [json.load] is returned as it is; the bare [except]
    turns every exception of the [try] block into the default
    configuration. *)
Definition load_config (w : World) (config_file : string)
  : result json_value :=
  match (text ← open_read w config_file; json_load text) with
  | Ok value => Ok value
  | Raise _ => Ok (to_json default_config)
  end.

(** [ColorTracker(config_file)]. *)
Definition init (w : World) (config_file : option string)
  : result Tracker :=
  value ← match config_file with
          | Some path =>
              if truthy_path config_file then load_config w path
              else Ok (to_json default_config)
          | None => Ok (to_json default_config)
          end;
  Ok (tracker_of value).

Definition save_config (self : ColorTracker) (w : World)
    (config_file : string) : World :=
  write_text w config_file (json_dump (to_json (config self))).

Definition add_custom_color (self : ColorTracker) (color_name : string)
    (range : Scalar3 * Scalar3) (track highlight : Scalar3)
    (display_name : option string) : ColorTracker :=
  let shown :=
    match display_name with
    | Some s => if String.eqb s EmptyString then color_name else s
    | None => color_name
    end in
  {| config :=
       {| colors :=
            <[color_name := {| hsv_range := range; track_color := track;
                               highlight_color := highlight;
                               name := shown |}]>
              (colors (config self));
          detection := detection (config self);
          trajectory := trajectory (config self) |} |}.

(** Lines 127-133: the image the colour ranges are tested on. *)
Definition blurred_hsv (self : ColorTracker) (img : Image) : Image :=
  let hsv := cvtColor_BGR2HSV img in
  let blur_size := blur_kernel_size (detection (config self)) in
  if 1 <? blur_size then GaussianBlur hsv blur_size else hsv.

(** Lines 135-145: the colour mask before noise removal. *)
Definition color_mask (hsv : Image) (color_name : string)
    (color_config : ColorConfig) : Mask :=
  let lower := (hsv_range color_config).1 in
  let upper := (hsv_range color_config).2 in
  let mask := inRange hsv lower upper in
  if String.eqb color_name "red" then
    let lower_red2 := (170, 100, 100) in
    let upper_red2 := (180, 255, 255) in
    let mask2 := inRange hsv lower_red2 upper_red2 in
    bitwise_or mask mask2
  else mask.

(** Lines 127-154: the contours of the cleaned mask. *)
Definition contours_of (self : ColorTracker) (img : Image)
    (color_name : string) (color_config : ColorConfig) : list Contour :=
  let hsv := blurred_hsv self img in
  let mask := color_mask hsv color_name color_config in
  let kernel_size := morphology_kernel_size (detection (config self)) in
  let mask := morphologyEx mask MORPH_OPEN kernel_size in
  let mask := morphologyEx mask MORPH_CLOSE kernel_size in
  findContours mask.

Definition detect_colored_object (self : ColorTracker) (img : Image)
    (color_name : string) : result (option Point) :=
  if negb (bool_decide (is_Some (colors (config self) !! color_name)))
  then Ok None
  else
    color_config ← getitem (colors (config self)) color_name;
    let contours := contours_of self img color_name color_config in
    largest_centroid (min_area (detection (config self))) contours.

(** Lines 191-240: the rows accumulated by the read loop. *)
Definition recorded_rows (self : ColorTracker) (w : World)
    (video_path color_name : string) (show_preview : bool)
  : result (list Row) :=
  let cap := VideoCapture w video_path in
  color_config ← getitem (colors (config self)) color_name;
  read_loop (fun img => detect_colored_object self img color_name)
    show_preview w (CAP_PROP_FPS cap) (frames cap) 0 [].

(** Returns the world with the coordinate file, if one was written,
    and the value the method returns. *)
Definition extract_object_coordinates (self : ColorTracker) (w : World)
    (video_path color_name : string) (output_csv : option string)
    (show_preview : bool) : result (World * option string) :=
  let output_csv :=
    default ("detected_" +:+ color_name +:+ "_coordinates.csv")%string
            output_csv in
  results ← recorded_rows self w video_path color_name show_preview;
  match results with
  | _ :: _ => Ok (to_csv w output_csv results, Some output_csv)
  | [] => Ok (w, None)
  end.

Definition create_trajectory_video (self : ColorTracker) (w : World)
    (csv_path color_name : string) (original_video_path : option string)
    (output_path : option string)
    (custom_line_thickness custom_circle_size : option Z)
  : result (string * Video) :=
  let output_path :=
    match output_path with
    | Some p => p
    | None =>
        if truthy_path original_video_path
        then (color_name +:+ "_trajectory_overlay.mp4")%string
        else (color_name +:+ "_trajectory.mp4")%string
    end in
  df ← read_csv w csv_path;
  color_config ← getitem (colors (config self)) color_name;
  '(cap, width, height, rate) ←
    match usable_source w original_video_path with
    | Some p =>
        let cap := VideoCapture w p in
        Ok (Some (frames cap), CAP_PROP_FRAME_WIDTH cap,
            CAP_PROP_FRAME_HEIGHT cap, CAP_PROP_FPS cap)
    | None =>
        width ← py_int_nan (nan_sub (series_max (x <$> df))
                                    (series_min (x <$> df)));
        height ← py_int_nan (nan_sub (series_max (y <$> df))
                                     (series_min (y <$> df)));
        Ok (None, width + 200, height + 200,
            fps (trajectory (config self)))
    end;
  let thickness :=
    py_or custom_line_thickness (line_thickness (trajectory (config self))) in
  let circle_size :=
    py_or custom_circle_size
          (highlight_circle_size (trajectory (config self))) in
  written ← overlay_loop df width height (track_color color_config)
              thickness (highlight_color color_config) circle_size
              cap (seq 0 (length df)) [];
  Ok (output_path,
      {| frames := written; CAP_PROP_FPS := rate;
         CAP_PROP_FRAME_WIDTH := width; CAP_PROP_FRAME_HEIGHT := height |}).

Definition video_file : string :=
  "/Users/kashiwabaisamuto/Documents/ロトスコープ/黄色いボールを投げる.mp4".

(** [demo_usage]: the end-to-end run.  Returns the world it leaves
    and the trajectory video, when one was made.  The tracker is made
    without a configuration file, so its configuration is the default
    one and has the shape the methods read. *)
Definition demo_usage (w : World)
  : result (World * option (string * Video)) :=
  tracker ← init w None;
  match tracker with
  | Unshaped _ => Raise KeyError
  | Shaped tracker =>
      let w := save_config tracker w "tracker_config.json" in
      let tracker :=
        add_custom_color tracker "pink" ((160, 100, 100), (180, 255, 255))
          (255, 192, 203) (255, 20, 147) (Some "ピンク色"%string) in
      if path_exists w video_file then
        let color_to_track := "yellow"%string in
        '(w, csv_file) ← extract_object_coordinates tracker w video_file
                            color_to_track None false;
        match csv_file with
        | Some csv =>
            if String.eqb csv EmptyString then Ok (w, None)
            else
              out ← create_trajectory_video tracker w csv color_to_track
                      (Some video_file) None (Some 10) (Some 12);
              Ok (w, Some out)
        | None => Ok (w, None)
        end
      else Ok (w, None)
  end.
End Class.
End UniversalTracker.

(** ** Definitions the statements compare the code with *)

Module Reading.
Section Reading.
Context {cv : OpenCV}.

(** A detector that tests only the second yellow range and is
    otherwise [DetectBall.detect_yellow_ball]. *)
Definition detect_second_range_only (img : Image) : result (option Point) :=
  let hsv := cvtColor_BGR2HSV img in
  let mask := inRange hsv DetectBall.lower_yellow2 DetectBall.upper_yellow2 in
  let mask := morphologyEx mask MORPH_OPEN 5 in
  let mask := morphologyEx mask MORPH_CLOSE 5 in
  largest_centroid 50 (findContours mask).

(** The region the detector measures: the first contour of largest
    area. *)
Definition largest_region (contours : list Contour) : option Contour :=
  match contours with
  | [] => None
  | c :: cs => Some (py_max_by contourArea c cs)
  end.

(** Truncated centroid of a contour from its moments: the quotients
    are quotients of doubles. *)
Definition centroid (c : Contour) : Point :=
  (py_int (round_double (m10 (moments c) / m00 (moments c))),
   py_int (round_double (m01 (moments c) / m00 (moments c)))).

(** The background of output frame number [offset] counted from the
    current position of the capture. *)
Definition background (cap : option (list Image)) (height width : Z)
    (offset : nat) : Image :=
  match cap with
  | Some pending => default (np_zeros height width) (pending !! offset)
  | None => np_zeros height width
  end.

(** The point list as the specification words it: the entries whose
    frame index is at most [i + 1], inside the canvas. *)
Definition points_by_frame_index (width height : Z) (df : DataFrame)
    (i : nat) : list Point :=
  filter (fun p => in_canvas width height p = true)
    ((fun row => (x row, y row)) <$>
       filter (fun row => frame row ≤ Z.of_nat i + 1) df).

(** The point list by position: the first [i + 1] entries that [keep]
    accepts. *)
Definition points_by_position (keep : Point → bool) (df : DataFrame)
    (i : nat) : list Point :=
  filter (fun p => keep p = true)
    ((fun row => (x row, y row)) <$> take (S i) df).

(** The frames the read loop decodes: all of them, or, with the
    preview on, those up to the first one during which [q] is pressed.
    [n] is the number of frames decoded before. *)
Fixpoint decoded (show_preview : bool) (w : World) (pending : list Image)
    (n : Z) : list Image :=
  match pending with
  | [] => []
  | img :: pending' =>
      img :: (if show_preview && quit_pressed w (n + 1) then []
              else decoded show_preview w pending' (n + 1))
  end.

(** The time of frame number [k] at [rate] frames per second as the
    recorders compute it: the double product of [k - 1] and the double
    quotient [1000 / rate]. *)
Definition double_timestamp (rate : Q) (k : Z) : Q :=
  float_mul (float_of_int (k - 1)) (round_double (1000 / rate)).

(** The row of frame number [k], if the detector finds the object. *)
Definition row_of (detect : Image → result (option Point)) (rate : Q)
    (k : Z) (img : Image) : option Row :=
  match detect img with
  | Ok (Some (px, py)) =>
      Some {| frame := k;
              timestamp_ms := py_round1 (double_timestamp rate k);
              x := px; y := py |}
  | _ => None
  end.

(** One row per frame with a detection, frames numbered from
    [n + 1]. *)
Fixpoint rows_of (detect : Image → result (option Point)) (rate : Q)
    (n : Z) (imgs : list Image) : list Row :=
  match imgs with
  | [] => []
  | img :: imgs' =>
      match row_of detect rate (n + 1) img with
      | Some r => r :: rows_of detect rate (n + 1) imgs'
      | None => rows_of detect rate (n + 1) imgs'
      end
  end.

(** What one step of the overlay loop draws on the background [bg]. *)
Definition overlay_frame (df : DataFrame) (width height : Z)
    (track_color : Scalar3) (line_thickness : Z)
    (highlight_color : Scalar3) (circle_size : Z)
    (bg : Image) (i : nat) (row : Row) : Image :=
  let points := points_by_position (in_canvas width height) df i in
  let img :=
    if (1 <? length points)%nat
    then polylines bg points track_color line_thickness
    else bg in
  if in_canvas width height (x row, y row)
  then circle img (x row, y row) circle_size highlight_color (-1)
  else img.
End Reading.
End Reading.

(** ** A small implementation of the OpenCV interface

    Used to run the scripts on concrete frames.  [cvtColor_BGR2HSV] is
    the documented 8-bit formula.  [GaussianBlur] is OpenCV's blur of
    8-bit images for the kernel sizes 1, 3, 5 and 7, for which the
    kernel is a fixed table: the two passes are exact, the result is
    rounded once, and the image is continued by reflection at its
    border; other sizes are not used and leave the image unchanged.
    [morphologyEx] is the opening and closing with the square kernel of
    ones anchored at its centre; pixels outside the image do not take
    part in an erosion or a dilation.  [contourArea] and [moments] are
    OpenCV's Green formulas for a polygon with integer vertices, the
    first moments being products of doubles.  [findContours] is exact
    for the masks of the examples below, whose foreground is one filled
    axis-aligned rectangle: the only outer contour is then the
    rectangle's four corners.  Drawing is kept coarse: [polylines] and
    [circle] colour the vertices and the centre only. *)

Module Bench.

Definition bgr2hsv (px : Scalar3) : Scalar3 :=
  let '(b, g, r) := px in
  let v := Z.max b (Z.max g r) in
  let lo := Z.min b (Z.min g r) in
  let d := v - lo in
  let s := if v =? 0 then 0 else round_half_even (255 * d # Z.to_pos v) in
  let deg : Q :=
    if d =? 0 then 0%Q
    else if v =? r then (60 * (g - b) # Z.to_pos d)
    else if v =? g then (120 + (60 * (b - r) # Z.to_pos d))%Q
    else (240 + (60 * (r - g) # Z.to_pos d))%Q in
  let deg := if Qle_bool 0 deg then deg else (deg + 360)%Q in
  (round_half_even (deg / 2)%Q, s, v).

Definition set_pixel (img : Image) (p : Point) (color : Scalar3) : Image :=
  if (0 <=? p.1) && (0 <=? p.2) then
    alter (fun row => <[Z.to_nat p.1 := color]> row) (Z.to_nat p.2) img
  else img.

(** Column and row numbers of the foreground pixels. *)
Definition foreground (mask : Mask) : list Point :=
  concat (imap (fun r row =>
    omap id (imap (fun c v =>
      if v =? 0 then None else Some (Z.of_nat c, Z.of_nat r)) row)) mask).

Definition bounding_contour (mask : Mask) : list Contour :=
  match series_min (fst <$> foreground mask),
        series_max (fst <$> foreground mask),
        series_min (snd <$> foreground mask),
        series_max (snd <$> foreground mask) with
  | Some x0, Some x1, Some y0, Some y1 =>
      [[(x0, y0); (x0, y1); (x1, y1); (x1, y0)]]
  | _, _, _, _ => []
  end.

(** The sums of Green's formula over the edges [prev -> p]. *)
Fixpoint green (prev : Point) (c : Contour) (acc : Z * Z * Z) : Z * Z * Z :=
  match c with
  | [] => acc
  | p :: c' =>
      let '(a00, a10, a01) := acc in
      let dxy := prev.1 * p.2 - p.1 * prev.2 in
      green p c' (a00 + dxy, a10 + dxy * (prev.1 + p.1),
                  a01 + dxy * (prev.2 + p.2))
  end.

Definition green_sums (c : Contour) : Z * Z * Z :=
  match last c with
  | Some p => green p c (0, 0, 0)
  | None => (0, 0, 0)
  end.

Definition polygon_area (c : Contour) : Q :=
  (Z.abs (green_sums c).1.1 # 2).

(** [m00 = a00 * 0.5], [m10 = a10 * db1_6], [m01 = a01 * db1_6], the
    sign of the constants following the orientation of the contour. *)
Definition polygon_moments (c : Contour) : Moments :=
  let '(a00, a10, a01) := green_sums c in
  let sign := Z.sgn a00 in
  let db1_6 := round_double (1 # 6) in
  {| m00 := (sign * a00 # 2);
     m10 := float_mul (inject_Z (sign * a10)) db1_6;
     m01 := float_mul (inject_Z (sign * a01)) db1_6 |}.

(** The position an index outside [0 .. n - 1] is read from
    (BORDER_REFLECT_101). *)
Definition reflect_101 (n i : Z) : Z :=
  if i <? 0 then - i else if n <=? i then 2 * (n - 1) - i else i.

(** One pass of a filter with the weights [kernel], centred. *)
Definition convolve {A} (add : A → A → A) (zero : A) (scale : Z → A → A)
    (kernel : list Z) (l : list A) : list A :=
  let n := Z.of_nat (length l) in
  let r := Z.of_nat (length kernel) / 2 in
  imap (fun i _ =>
    foldr add zero
      (imap (fun j weight =>
         scale weight
           (default zero
              (l !! Z.to_nat (reflect_101 n (Z.of_nat i + Z.of_nat j - r)))))
         kernel)) l.

(** The weights of the fixed Gaussian kernels, in sixty-fourths. *)
Definition gaussian_kernel (ksize : Z) : option (list Z) :=
  if ksize =? 1 then Some [64]
  else if ksize =? 3 then Some [16; 32; 16]
  else if ksize =? 5 then Some [4; 16; 24; 16; 4]
  else if ksize =? 7 then Some [2; 7; 14; 18; 14; 7; 2]
  else None.

(** The blur of one channel: rows, then columns, then rounding to the
    nearest integer. *)
Definition blur_plane (kernel : list Z) (plane : list (list Z))
  : list (list Z) :=
  let width := length (default [] (head plane)) in
  let rows := convolve Z.add 0 Z.mul kernel <$> plane in
  let cols :=
    convolve (zip_with Z.add) (replicate width 0)
      (fun weight row => Z.mul weight <$> row) kernel rows in
  (fun row : list Z => (fun v => (v + 2048) / 4096) <$> row) <$> cols.

Definition gaussian_blur (img : Image) (ksize : Z) : Image :=
  match gaussian_kernel ksize with
  | Some kernel =>
      let plane (f : Scalar3 → Z) :=
        blur_plane kernel ((fun row : list Scalar3 => f <$> row) <$> img) in
      zip_with (fun c0 c12 =>
                  zip_with (fun v0 v12 => (v0, v12.1, v12.2)) c0 c12)
        (plane (fun px => px.1.1))
        (zip_with zip (plane (fun px => px.1.2)) (plane (fun px => px.2)))
  | None => img
  end.

(** The minimum or maximum over the window of [before] positions before
    and [after] positions after each position; positions outside the
    list are left out. *)
Definition window_fold {A} (op : A → A → A) (unit : A)
    (before after : nat) (l : list A) : list A :=
  imap (fun i _ =>
    foldr op unit
      (take (i + after + 1 - (i - before)) (drop (i - before) l))) l.

Definition morph (op : Z → Z → Z) (unit : Z) (k : Z) (mask : Mask) : Mask :=
  let before := Z.to_nat (k / 2) in
  let after := Z.to_nat (k - 1 - k / 2) in
  let width := length (default [] (head mask)) in
  window_fold (zip_with op) (replicate width unit) before after
    (window_fold op unit before after <$> mask).

Definition erode : Z → Mask → Mask := morph Z.min 255.
Definition dilate : Z → Mask → Mask := morph Z.max 0.

Definition morphology (mask : Mask) (op : MorphOp) (k : Z) : Mask :=
  match op with
  | MORPH_OPEN => dilate k (erode k mask)
  | MORPH_CLOSE => erode k (dilate k mask)
  end.

#[global] Instance cv : OpenCV := {|
  cvtColor_BGR2HSV := fun img =>
    (fun row : list Scalar3 => bgr2hsv <$> row) <$> img;
  GaussianBlur := gaussian_blur;
  morphologyEx := morphology;
  findContours := bounding_contour;
  contourArea := polygon_area;
  moments := polygon_moments;
  polylines := fun img pts color _ =>
    foldl (fun acc p => set_pixel acc p color) img pts;
  circle := fun img center _ color _ => set_pixel img center color;
  putText := fun img _ _ _ => img;
|}.

(** [json.dumps(value, indent=2, ensure_ascii=False)], but for two
    points: the keys of a dictionary are written in the order of the
    map, where Python keeps the order of insertion, and a float is
    written with all its decimal digits, where Python writes the
    shortest decimal that reads back as the same double.  Both texts
    denote the same value. *)
Definition char (n : nat) : string :=
  String (Ascii.ascii_of_nat n) EmptyString.
Definition quote_mark : string := char 34.
Definition backslash : string := char 92.
Definition newline : string := char 10.

Definition hex_digit (n : nat) : string :=
  char (if (n <? 10)%nat then 48 + n else 87 + n).

(** The escapes of [json.dumps(..., ensure_ascii=False)]. *)
Definition escape_char (c : Ascii.ascii) : string :=
  let n := Ascii.nat_of_ascii c in
  if (n =? 34)%nat then backslash +:+ quote_mark
  else if (n =? 92)%nat then backslash +:+ backslash
  else if (n =? 10)%nat then backslash +:+ "n"
  else if (n =? 13)%nat then backslash +:+ "r"
  else if (n =? 9)%nat then backslash +:+ "t"
  else if (n =? 8)%nat then backslash +:+ "b"
  else if (n =? 12)%nat then backslash +:+ "f"
  else if (n <? 32)%nat
  then backslash +:+ "u00" +:+ hex_digit (n / 16) +:+ hex_digit (n mod 16)
  else String c EmptyString.

Fixpoint escape (s : string) : string :=
  match s with
  | EmptyString => EmptyString
  | String c s' => escape_char c +:+ escape s'
  end.

Definition dump_string (s : string) : string :=
  quote_mark +:+ escape s +:+ quote_mark.

(** The digits after the point of [num / den], for [0 <= num < den]. *)
Fixpoint fraction_digits (fuel : nat) (num den : Z) : string :=
  match fuel with
  | O => EmptyString
  | S fuel' =>
      if num =? 0 then EmptyString
      else pretty (10 * num / den)
           +:+ fraction_digits fuel' (10 * num mod den) den
  end.

Definition dump_float (q : Q) : string :=
  let a := Z.abs (Qnum q) in
  let d := Z.pos (Qden q) in
  let digits := fraction_digits 1100 (a mod d) d in
  (if Qnum q <? 0 then "-" else EmptyString)
  +:+ pretty (a / d) +:+ "."
  +:+ (if String.eqb digits EmptyString then "0" else digits).

Fixpoint spaces (n : nat) : string :=
  match n with
  | O => EmptyString
  | S n' => " " +:+ spaces n'
  end.

Definition line (level : nat) : string := newline +:+ spaces (2 * level).

Fixpoint dump (level : nat) (v : UniversalTracker.json_value) : string :=
  match v with
  | UniversalTracker.JNull => "null"
  | UniversalTracker.JBool b => if b then "true" else "false"
  | UniversalTracker.JInt n => pretty n
  | UniversalTracker.JFloat q => dump_float q
  | UniversalTracker.JString s => dump_string s
  | UniversalTracker.JArray [] => "[]"
  | UniversalTracker.JArray items =>
      "[" +:+ line (S level)
      +:+ String.concat ("," +:+ line (S level)) (map (dump (S level)) items)
      +:+ line level +:+ "]"
  | UniversalTracker.JObject m =>
      if decide (size m = 0%nat) then "{}"
      else
        "{" +:+ line (S level)
        +:+ String.concat ("," +:+ line (S level))
              (map_fold (fun k v acc =>
                 (dump_string k +:+ ": " +:+ dump (S level) v) :: acc) [] m)
        +:+ line level +:+ "}"
  end.

(** The reader is [json.load] on the documents of the examples: the
    empty dictionary, the empty list, [null], and the text written for
    the default configuration.  It rejects every other text. *)
#[global] Instance json : UniversalTracker.JsonCodec := {|
  UniversalTracker.json_load := fun text =>
    if String.eqb text "{}" then Ok (UniversalTracker.JObject ∅)
    else if String.eqb text "[]" then Ok (UniversalTracker.JArray [])
    else if String.eqb text "null" then Ok UniversalTracker.JNull
    else if String.eqb text
              (dump 0 (UniversalTracker.to_json
                         UniversalTracker.default_config))
    then Ok (UniversalTracker.to_json UniversalTracker.default_config)
    else Raise JSONDecodeError;
  UniversalTracker.json_dump := dump 0;
|}.

(** A [height] x [width] black frame with the rectangle of columns
    [x0 .. x1] and rows [y0 .. y1] filled with [color] (BGR). *)
Definition rectangle_frame (height width : nat) (x0 x1 y0 y1 : nat)
    (color : Scalar3) : Image :=
  imap (fun r row =>
    imap (fun c px =>
      if (Nat.leb y0 r && Nat.leb r y1 && Nat.leb x0 c && Nat.leb c x1)%bool
      then color else px) row)
    (np_zeros (Z.of_nat height) (Z.of_nat width)).

Definition yellow : Scalar3 := (0, 255, 255).
Definition crimson : Scalar3 := (43, 0, 255).

(** Frames for the examples, 20 pixels wide and 12 high, the rectangle
    three pixels or more away from every border: a yellow rectangle
    of 11 x 6 pixels, whose contour encloses 10 x 5 = 50; one of 12 x 6
    pixels, whose contour encloses 55; one of 14 x 6 pixels, of which
    the blur and the opening of the default tracker leave a rectangle of
    12 x 6 pixels; and a crimson one (hue 175). *)
Definition frame_area_50 : Image := rectangle_frame 12 20 3 13 3 8 yellow.
Definition contour_50 : Contour := [(3, 3); (3, 8); (13, 8); (13, 3)].
Definition frame_area_55 : Image := rectangle_frame 12 20 3 14 3 8 yellow.
Definition contour_55 : Contour := [(3, 3); (3, 8); (14, 8); (14, 3)].
Definition frame_wide : Image := rectangle_frame 12 20 3 16 3 8 yellow.
Definition frame_crimson : Image := rectangle_frame 12 20 3 16 3 8 crimson.

Definition red_profile : UniversalTracker.ColorConfig :=
  {| UniversalTracker.hsv_range := ((0, 100, 100), (10, 255, 255));
     UniversalTracker.track_color := (255, 0, 0);
     UniversalTracker.highlight_color := (0, 0, 255);
     UniversalTracker.name := "赤色" |}.

Definition yellow_profile : UniversalTracker.ColorConfig :=
  {| UniversalTracker.hsv_range := ((15, 50, 50), (35, 255, 255));
     UniversalTracker.track_color := (0, 255, 0);
     UniversalTracker.highlight_color := (0, 255, 255);
     UniversalTracker.name := "黄色" |}.

Definition default_tracker : UniversalTracker.ColorTracker :=
  {| UniversalTracker.config := UniversalTracker.default_config |}.

(** A log with no row for frame 1: the object is first seen in
    frame 2. *)
Definition log_from_frame_2 : DataFrame :=
  [ {| frame := 2; timestamp_ms := 33.3; x := 10; y := 10 |} ].

Definition log_two_rows : DataFrame :=
  [ {| frame := 1; timestamp_ms := 0; x := 3; y := 4 |};
    {| frame := 2; timestamp_ms := 33.3; x := 5; y := 6 |} ].

Definition black_frame : Image := np_zeros 12 20.

(** A source video of three frames at 30 frames per second, the
    object missing from the second one. *)
Definition clip : Video :=
  {| frames := [frame_wide; black_frame; frame_wide];
     CAP_PROP_FPS := 30; CAP_PROP_FRAME_WIDTH := 20;
     CAP_PROP_FRAME_HEIGHT := 12 |}.

(** The frame rate 60000/1001 as a capture reports it: the double
    59.94005994005994. *)
Definition ntsc_rate : Q := round_double (60000 # 1001).

(** A source video of four frames at that rate, the object in the
    last one only. *)
Definition ntsc_clip : Video :=
  {| frames := [black_frame; black_frame; black_frame; frame_wide];
     CAP_PROP_FPS := ntsc_rate; CAP_PROP_FRAME_WIDTH := 20;
     CAP_PROP_FRAME_HEIGHT := 12 |}.

(** A source video with a single frame. *)
Definition short_clip : Video :=
  {| frames := [black_frame]; CAP_PROP_FPS := 30;
     CAP_PROP_FRAME_WIDTH := 20; CAP_PROP_FRAME_HEIGHT := 12 |}.

(** A video file without a frame. *)
Definition blank_clip : Video :=
  {| frames := []; CAP_PROP_FPS := 30; CAP_PROP_FRAME_WIDTH := 20;
     CAP_PROP_FRAME_HEIGHT := 12 |}.

Definition world : World :=
  {| text_files := {[ "empty.json"%string := "{}"%string ]};
     csv_files := {[ "empty.csv"%string := [];
                     "two.csv"%string := log_two_rows ]};
     video_files := {[ "clip.mp4"%string := clip;
                       "short.mp4"%string := short_clip;
                       "blank.mp4"%string := blank_clip;
                       "ntsc.mp4"%string := ntsc_clip ]};
     waitKey := fun _ => -1 |}.
End Bench.

(** ** The programs of the two ball scripts

    The [if __name__ == "__main__":] blocks of [detect_ball.py] and
    [ball_trajectory_video.py], with the paths written in them. *)

Module Programs.
Section Programs.
Context {cv : OpenCV}.

Definition video_file : string :=
  "/Users/kashiwabaisamuto/Documents/ロトスコープ/黄色いボールを投げる.mp4".

Definition csv_file : string :=
  "/Users/kashiwabaisamuto/Documents/ロトスコープ/detected_yellowball.csv".

Definition trajectory_path : string :=
  "/Users/kashiwabaisamuto/Documents/ロトスコープ/ball_trajectory.mp4".

Definition overlay_path : string :=
  "/Users/kashiwabaisamuto/Documents/ロトスコープ/ball_trajectory_overlay.mp4".

(** detect_ball.py 158-169. *)
Definition detect_ball_main (w : World) : result World :=
  DetectBall.extract_ball_coordinates w video_file csv_file.

(** ball_trajectory_video.py 131-144: the two videos, in the order they
    are made. *)
Definition ball_trajectory_video_main (w : World)
  : result ((string * Video) * (string * Video)) :=
  plain ← BallTrajectoryVideo.create_trajectory_video w csv_file
             trajectory_path 60;
  overlay ← BallTrajectoryVideo.create_trajectory_overlay_video w csv_file
               (Some video_file) overlay_path;
  Ok (plain, overlay).
End Programs.
End Programs.

(** ** Further definitions the statements use *)

Module Frames.
Section Frames.
Context {cv : OpenCV}.

Definition xy (row : Row) : Point := (x row, y row).

(** What step [i] of the renderer without a source video writes
    (ball_trajectory_video.py 31-55). *)
Definition plain_frame (df : DataFrame) (width height : Z) (i : nat)
    (row : Row) : Image :=
  let points := xy <$> take (S i) df in
  let img := np_zeros height width in
  let img :=
    if (1 <? length points)%nat
    then polylines img points (0, 255, 0) 8
    else img in
  let img := circle img (x row, y row) 8 (0, 255, 255) (-1) in
  putText img ("Frame: " +:+ pretty (Z.of_nat i + 1) +:+ "/"
               +:+ pretty (length df))%string (10, 30) (255, 255, 255).

(** The value of one pixel of the tracker's colour mask. *)
Definition mask_value (color_name : string)
    (color_config : UniversalTracker.ColorConfig) (px : Scalar3) : Z :=
  if in_range (UniversalTracker.hsv_range color_config).1
              (UniversalTracker.hsv_range color_config).2 px
     || (String.eqb color_name "red"
         && in_range (170, 100, 100) (180, 255, 255) px)
  then 255 else 0.

(** The time of frame number [k] at [rate] frames per second as an
    exact quotient, [(k - 1) * 1000 / rate]. *)
Definition exact_timestamp (rate : Q) (k : Z) : Q :=
  (inject_Z (k - 1) * 1000 / rate)%Q.
End Frames.
End Frames.

(** ** Further example data *)

Module Examples.

(** The default configuration with the blur switched off. *)
Definition sharp_tracker : UniversalTracker.ColorTracker :=
  {| UniversalTracker.config :=
       {| UniversalTracker.colors :=
            UniversalTracker.colors UniversalTracker.default_config;
          UniversalTracker.detection :=
            {| UniversalTracker.min_area := 50;
               UniversalTracker.morphology_kernel_size := 5;
               UniversalTracker.blur_kernel_size := 1 |};
          UniversalTracker.trajectory :=
            UniversalTracker.trajectory UniversalTracker.default_config |} |}.

(** A video that reports a frame rate of zero. *)
Definition zero_rate_clip : Video :=
  {| frames := [Bench.frame_wide]; CAP_PROP_FPS := 0;
     CAP_PROP_FRAME_WIDTH := 20; CAP_PROP_FRAME_HEIGHT := 12 |}.

(** A video with the object in both of its frames. *)
Definition steady_clip : Video :=
  {| frames := [Bench.frame_wide; Bench.frame_wide];
     CAP_PROP_FPS := 30; CAP_PROP_FRAME_WIDTH := 20;
     CAP_PROP_FRAME_HEIGHT := 12 |}.

(** A log recorded far from the origin. *)
Definition far_log : DataFrame :=
  [ {| frame := 1; timestamp_ms := 0; x := 1000; y := 50 |};
    {| frame := 2; timestamp_ms := 33.3; x := 1100; y := 60 |} ].

Definition world : World :=
  {| text_files := ∅;
     csv_files := {[ "two.csv"%string := Bench.log_two_rows;
                     "far.csv"%string := far_log;
                     Programs.csv_file := Bench.log_two_rows ]};
     video_files := {[ "clip.mp4"%string := Bench.clip;
                       "still.mp4"%string := zero_rate_clip;
                       "steady.mp4"%string := steady_clip;
                       Programs.video_file := Bench.clip ]};
     waitKey := fun _ => -1 |}.

(** The same world with [q] pressed while the second frame is shown. *)
Definition quitting_world : World :=
  {| text_files := text_files world; csv_files := csv_files world;
     video_files := video_files world;
     waitKey := fun n => if n =? 2 then 113 else -1 |}.
End Examples.

(** ** Extremes of a column *)

Module Column.

Definition is_max (col : list Z) (m : Z) : Prop :=
  m ∈ col ∧ Forall (fun v => v ≤ m) col.

Definition is_min (col : list Z) (m : Z) : Prop :=
  m ∈ col ∧ Forall (fun v => m ≤ v) col.

End Column.

(** * Properties *)

(** ** Rounding *)

Section Rounding.

Lemma round_half_even_near (q : Q) :
  (inject_Z (round_half_even q) - q <= 1 # 2)%Q
  ∧ (q - inject_Z (round_half_even q) <= 1 # 2)%Q.
Proof.
  unfold round_half_even.
  pose proof (Qfloor_le q) as Hlo. pose proof (Qlt_floor q) as Hhi.
  rewrite inject_Z_plus in Hhi. change (inject_Z 1) with 1%Q in Hhi.
  assert (Hone : inject_Z (Qfloor q + 1) = (inject_Z (Qfloor q) + 1)%Q)
    by apply inject_Z_plus.
  destruct (Qcompare_spec (q - inject_Z (Qfloor q)) (1 # 2)) as [He|Hl|Hg].
  - destruct (Z.even (Qfloor q)); [|rewrite Hone]; split; lra.
  - split; lra.
  - rewrite Hone. split; lra.
Qed.

Lemma round_half_even_between (q : Q) :
  Qfloor q ≤ round_half_even q ≤ Qfloor q + 1.
Proof.
  unfold round_half_even.
  destruct (q - inject_Z (Qfloor q) ?= 1 # 2)%Q; [|lia|lia].
  destruct (Z.even (Qfloor q)); lia.
Qed.

Lemma round_half_even_mono (q1 q2 : Q) :
  (q1 <= q2)%Q → round_half_even q1 ≤ round_half_even q2.
Proof.
  intros Hle. pose proof (Qfloor_resp_le _ _ Hle) as Hfloor.
  pose proof (round_half_even_between q1) as H1.
  pose proof (round_half_even_between q2) as H2.
  destruct (decide (Qfloor q1 = Qfloor q2)) as [Heq|Hne]; [|lia].
  clear H1 H2. unfold round_half_even. rewrite Heq.
  assert (Hrem : (q1 - inject_Z (Qfloor q2) <= q2 - inject_Z (Qfloor q2))%Q)
    by lra.
  destruct (Qcompare_spec (q1 - inject_Z (Qfloor q2)) (1 # 2)) as [He|Hl|Hg];
    destruct (Qcompare_spec (q2 - inject_Z (Qfloor q2)) (1 # 2))
      as [He'|Hl'|Hg'];
    try lra; try lia; destruct (Z.even (Qfloor q2)); lia.
Qed.

Lemma round_half_even_inject (z : Z) : round_half_even (inject_Z z) = z.
Proof.
  unfold round_half_even. rewrite Qfloor_Z.
  destruct (Qcompare_spec (inject_Z z - inject_Z z) (1 # 2)) as [H|H|H];
    [lra|done|lra].
Qed.

Lemma py_round1_near (q : Q) :
  (py_round1 q - q <= 1 # 20)%Q ∧ (q - py_round1 q <= 1 # 20)%Q.
Proof.
  destruct (round_half_even_near (q * 10)%Q) as [H1 H2].
  unfold py_round1. rewrite Qmake_Qdiv.
  change (inject_Z (Z.pos 10)) with 10%Q.
  unfold Qdiv. change (/ 10)%Q with (1 # 10)%Q.
  set (z := inject_Z (round_half_even (q * 10))) in *.
  split; lra.
Qed.

Lemma py_round1_mono (q1 q2 : Q) :
  (q1 <= q2)%Q → (py_round1 q1 <= py_round1 q2)%Q.
Proof.
  intros Hle. unfold py_round1, Qle. simpl.
  apply Z.mul_le_mono_nonneg_r; [lia|].
  apply round_half_even_mono. lra.
Qed.

Lemma Qpow2_pos (e : Z) : (0 < 2 ^ e)%Q.
Proof. by apply Qpower_0_lt. Qed.

Lemma Qpow2_succ (e : Z) : (2 ^ (e + 1) == 2 * 2 ^ e)%Q.
Proof. rewrite Qpower_plus by done. change (2 ^ 1)%Q with 2%Q. ring. Qed.

Lemma Qpow2_inject (n : Z) : 0 ≤ n → (2 ^ n == inject_Z (2 ^ n))%Q.
Proof. intros Hn. by rewrite Zpower_Qpower. Qed.

(** [Qlog2 q] is the binary exponent of a positive rational. *)
Lemma Qlog2_spec (q : Q) :
  (0 < q)%Q → (2 ^ Qlog2 q <= q)%Q ∧ (q < 2 ^ (Qlog2 q + 1))%Q.
Proof.
  intros Hq.
  assert (Hnum : 0 < Qnum q) by (revert Hq; unfold Qlt; simpl; lia).
  clear Hq. destruct q as [n d]. simpl in Hnum. unfold Qlog2.
  cbn [Qnum Qden].
  set (a := Z.log2 n). set (b := Z.log2 (Z.pos d)).
  destruct (Z.log2_spec n Hnum) as [Ha1 Ha2]. fold a in Ha1, Ha2.
  destruct (Z.log2_spec (Z.pos d) ltac:(lia)) as [Hb1 Hb2].
  fold b in Hb1, Hb2.
  assert (Ha0 : 0 ≤ a) by apply Z.log2_nonneg.
  assert (Hb0 : 0 ≤ b) by apply Z.log2_nonneg.
  rewrite <- Z.add_1_r in Ha2, Hb2.
  rewrite Zle_Qle in Ha1, Hb1. rewrite Zlt_Qlt in Ha2, Hb2.
  rewrite Zpower_Qpower in Ha1, Ha2, Hb1, Hb2 by lia.
  change (inject_Z 2) with 2%Q in *.
  rewrite Qpow2_succ in Ha2, Hb2.
  assert (Hq' : (n # d == inject_Z n / inject_Z (Z.pos d))%Q)
    by apply Qmake_Qdiv.
  assert (Hd : (0 < inject_Z (Z.pos d))%Q) by (unfold Qlt; simpl; lia).
  pose proof (Qpow2_pos a) as HA. pose proof (Qpow2_pos b) as HB.
  assert (Hsub : (2 ^ (a - b) == 2 ^ a / 2 ^ b)%Q)
    by (by apply Qpower_minus).
  set (A := (2 ^ a)%Q) in *. set (B := (2 ^ b)%Q) in *.
  set (N := inject_Z n) in *. set (D := inject_Z (Z.pos d)) in *.
  assert (HBne : ¬ (B == 0)%Q) by lra.
  assert (Hr : (A / B * B == A)%Q) by (by field).
  assert (Hrpos : (0 < A / B)%Q) by (by apply Qlt_shift_div_l; lra).
  assert (Hup : (n # d < 2 ^ (a - b + 1))%Q).
  { rewrite Qpow2_succ, Hsub, Hq'. fold A B.
    apply Qlt_shift_div_r; [done|].
    set (r := (A / B)%Q) in *. nra. }
  assert (Hlo : (2 ^ (a - b - 1) <= n # d)%Q).
  { assert (E : (2 ^ (a - b - 1) == A / B / 2)%Q).
    { replace (a - b - 1) with (a - b + - (1)) by lia.
      rewrite Qpower_plus by done. rewrite Hsub. fold A B.
      change (2 ^ (- (1)))%Q with (/ 2)%Q. by field. }
    rewrite E, Hq'. clear E.
    apply Qle_shift_div_l; [done|].
    set (r := (A / B)%Q) in *.
    assert (E : (r / 2 * D == r * D * (1 # 2))%Q) by (by field).
    rewrite E. nra. }
  destruct (Qle_bool (2 ^ (a - b)) (n # d)) eqn:Hcmp.
  - apply Qle_bool_iff in Hcmp. by split.
  - split; [done|]. replace (a - b - 1 + 1) with (a - b) by lia.
    apply Qnot_le_lt. intros Hle. apply Qle_bool_iff in Hle. congruence.
Qed.

Lemma Qlog2_mono (q1 q2 : Q) :
  (0 < q1)%Q → (q1 <= q2)%Q → Qlog2 q1 ≤ Qlog2 q2.
Proof.
  intros H1 Hle.
  destruct (Qlog2_spec q1 H1) as [Hlo _].
  destruct (Qlog2_spec q2 ltac:(lra)) as [_ Hhi].
  assert (Hlt : (2 ^ Qlog2 q1 < 2 ^ (Qlog2 q2 + 1))%Q) by lra.
  apply Qpower_lt_compat_l_inv in Hlt; [lia|done].
Qed.

Lemma round_positive_nonneg (q : Q) :
  (0 <= q)%Q → (0 <= round_positive q)%Q.
Proof.
  intros Hq. unfold round_positive.
  set (ex := Z.max (Qlog2 q - 52) (-1074)).
  pose proof (Qpow2_pos ex) as Hex.
  apply Qmult_le_0_compat; [|lra].
  change 0%Q with (inject_Z 0). rewrite <- Zle_Qle.
  rewrite <- (round_half_even_inject 0). apply round_half_even_mono.
  apply Qle_shift_div_l; [done|]. change (inject_Z 0) with 0%Q. lra.
Qed.

(** Two positive rationals with the same exponent are rounded on the
    same grid; with different exponents a power of two lies between
    their roundings. *)
Lemma round_positive_mono (q1 q2 : Q) :
  (0 < q1)%Q → (q1 <= q2)%Q → (round_positive q1 <= round_positive q2)%Q.
Proof.
  intros H1 Hle. assert (H2 : (0 < q2)%Q) by lra.
  pose proof (Qlog2_mono q1 q2 H1 Hle) as He.
  destruct (Qlog2_spec q1 H1) as [_ Hhi1].
  destruct (Qlog2_spec q2 H2) as [Hlo2 _].
  unfold round_positive.
  set (ex1 := Z.max (Qlog2 q1 - 52) (-1074)).
  set (ex2 := Z.max (Qlog2 q2 - 52) (-1074)).
  pose proof (Qpow2_pos ex1) as Hex1. pose proof (Qpow2_pos ex2) as Hex2.
  destruct (decide (ex1 = ex2)) as [Heq|Hne].
  - rewrite Heq. apply Qmult_le_compat_r; [|lra].
    rewrite <- Zle_Qle. apply round_half_even_mono.
    apply Qle_shift_div_l; [done|].
    assert (E : (q1 / 2 ^ ex2 * 2 ^ ex2 == q1)%Q) by (field; lra).
    by rewrite E.
  - assert (Hlt : ex1 + 1 ≤ ex2) by lia.
    assert (Hnormal : ex2 = Qlog2 q2 - 52) by lia.
    assert (Hm1 : round_half_even (q1 / 2 ^ ex1) ≤ 2 ^ 53).
    { rewrite <- (round_half_even_inject (2 ^ 53)).
      apply round_half_even_mono.
      apply Qle_shift_div_r; [done|].
      rewrite <- Qpow2_inject by lia. rewrite <- Qpower_plus by done.
      apply Qlt_le_weak. eapply Qlt_le_trans; [exact Hhi1|].
      apply Qpower_le_compat_l; [lia|done]. }
    assert (Hm2 : 2 ^ 52 ≤ round_half_even (q2 / 2 ^ ex2)).
    { rewrite <- (round_half_even_inject (2 ^ 52)).
      apply round_half_even_mono.
      apply Qle_shift_div_l; [done|].
      rewrite <- Qpow2_inject by lia. rewrite <- Qpower_plus by done.
      eapply Qle_trans; [|exact Hlo2].
      apply Qpower_le_compat_l; [lia|done]. }
    rewrite Zle_Qle in Hm1, Hm2.
    rewrite <- !Qpow2_inject in Hm1, Hm2 by lia.
    set (m1 := inject_Z (round_half_even (q1 / 2 ^ ex1))) in *.
    set (m2 := inject_Z (round_half_even (q2 / 2 ^ ex2))) in *.
    apply Qle_trans with (2 ^ 53 * 2 ^ ex1)%Q.
    { apply Qmult_le_compat_r; [done|lra]. }
    apply Qle_trans with (2 ^ 52 * 2 ^ ex2)%Q.
    { rewrite <- !Qpower_plus by done.
      apply Qpower_le_compat_l; [lia|done]. }
    apply Qmult_le_compat_r; [done|lra].
Qed.

Lemma round_double_sign (q : Q) :
  ((0 <= q)%Q → (0 <= round_double q)%Q)
  ∧ ((q <= 0)%Q → (round_double q <= 0)%Q).
Proof.
  unfold round_double. destruct q as [[|n|n] d]; cbn [Qnum].
  - split; intros _; apply Qle_refl.
  - split.
    + intros _. by apply round_positive_nonneg.
    + intros H. by exfalso.
  - split.
    + intros H. by exfalso.
    + intros _.
      assert (H : (0 <= round_positive (- (Z.neg n # d)))%Q)
        by (by apply round_positive_nonneg).
      lra.
Qed.

(** Rounding to the nearest double never reverses an order. *)
Lemma round_double_mono (q1 q2 : Q) :
  (q1 <= q2)%Q → (round_double q1 <= round_double q2)%Q.
Proof.
  intros Hle.
  destruct (Qlt_le_dec 0 q1) as [H1|H1].
  - assert (H2 : (0 < q2)%Q) by lra.
    unfold round_double.
    destruct q1 as [[|n1|n1] d1]; [by vm_compute in H1| |done].
    destruct q2 as [[|n2|n2] d2]; [by vm_compute in H2| |done].
    by apply round_positive_mono.
  - destruct (Qlt_le_dec q2 0) as [H2|H2].
    + unfold round_double.
      destruct q2 as [[|n2|n2] d2];
        [by vm_compute in H2|by vm_compute in H2|].
      destruct q1 as [[|n1|n1] d1];
        [by vm_compute in Hle|by vm_compute in Hle|]. cbn [Qnum].
      apply Qopp_le_compat. apply round_positive_mono; [done|].
      by apply Qopp_le_compat.
    + apply Qle_trans with 0%Q.
      * by apply round_double_sign.
      * by apply round_double_sign.
Qed.

Lemma double_timestamp_mono (rate : Q) (k1 k2 : Z) :
  (0 < rate)%Q → k1 ≤ k2 →
  (Reading.double_timestamp rate k1 <= Reading.double_timestamp rate k2)%Q.
Proof.
  intros Hrate Hk. unfold Reading.double_timestamp, float_mul, float_of_int.
  apply round_double_mono, Qmult_le_compat_r.
  - apply round_double_mono. rewrite <- Zle_Qle. lia.
  - apply round_double_sign. apply Qle_shift_div_l; lra.
Qed.

Lemma double_timestamp_nonneg (rate : Q) (k : Z) :
  (0 < rate)%Q → 1 ≤ k → (0 <= Reading.double_timestamp rate k)%Q.
Proof.
  intros Hrate Hk. unfold Reading.double_timestamp, float_mul, float_of_int.
  apply round_double_sign, Qmult_le_0_compat.
  - apply round_double_sign. change 0%Q with (inject_Z 0).
    rewrite <- Zle_Qle. lia.
  - apply round_double_sign. apply Qle_shift_div_l; lra.
Qed.

End Rounding.

(** ** Colour masks *)

Section MaskFacts.

Lemma pixel_at_inRange (hsv : Image) (lower upper : Scalar3) (r c : nat) :
  pixel_at (inRange hsv lower upper) r c
  = (fun px => if in_range lower upper px then 255 else 0)
      <$> pixel_at hsv r c.
Proof.
  unfold pixel_at, inRange. rewrite list_lookup_fmap.
  destruct (hsv !! r) as [row|]; simpl; [|done].
  by rewrite list_lookup_fmap.
Qed.

Lemma pixel_at_bitwise_or (a b : Mask) (r c : nat) :
  pixel_at (bitwise_or a b) r c
  = (va ← pixel_at a r c; vb ← pixel_at b r c; Some (Z.lor va vb)).
Proof.
  unfold pixel_at, bitwise_or. rewrite lookup_zip_with.
  destruct (a !! r) as [ra|]; simpl; [|done].
  destruct (b !! r) as [rb|]; simpl.
  - rewrite lookup_zip_with. by destruct (ra !! c).
  - by destruct (ra !! c).
Qed.

(** A pixel inside either range is set in the union of the two
    range masks. *)
Lemma pixel_at_union (hsv : Image) (l1 u1 l2 u2 px : Scalar3) (r c : nat) :
  pixel_at hsv r c = Some px →
  in_range l1 u1 px || in_range l2 u2 px = true →
  pixel_at (bitwise_or (inRange hsv l1 u1) (inRange hsv l2 u2)) r c
  = Some 255.
Proof.
  intros Hpx Hin.
  rewrite pixel_at_bitwise_or, !pixel_at_inRange, Hpx. simpl.
  by destruct (in_range l1 u1 px), (in_range l2 u2 px).
Qed.

Lemma in_range_widen (l1 u1 l2 u2 px : Scalar3) :
  in_range l2 u2 l1 = true → in_range l2 u2 u1 = true →
  in_range l1 u1 px = true → in_range l2 u2 px = true.
Proof.
  destruct l1 as [[a0 a1] a2], u1 as [[b0 b1] b2], l2 as [[c0 c1] c2],
    u2 as [[d0 d1] d2], px as [[p0 p1] p2]; simpl.
  rewrite !andb_true_iff, !Z.leb_le. lia.
Qed.

(** The union with a mask of a narrower range changes nothing. *)
Lemma bitwise_or_absorb (hsv : Image) (l1 u1 l2 u2 : Scalar3) :
  in_range l2 u2 l1 = true → in_range l2 u2 u1 = true →
  bitwise_or (inRange hsv l1 u1) (inRange hsv l2 u2) = inRange hsv l2 u2.
Proof.
  intros Hl Hu. unfold bitwise_or, inRange.
  induction hsv as [|row hsv IH]; [done|].
  rewrite !fmap_cons. simpl. f_equal; [|exact IH].
  clear IH. induction row as [|px row IH]; [done|].
  rewrite !fmap_cons. simpl. f_equal; [|exact IH].
  destruct (in_range l1 u1 px) eqn:H1.
  - by rewrite (in_range_widen _ _ _ _ _ Hl Hu H1).
  - by destruct (in_range l2 u2 px).
Qed.

End MaskFacts.

(** ** The configuration as a JSON value *)

Section JsonFacts.
Context {json : UniversalTracker.JsonCodec}.

Lemma number_round_trip (q : Q) :
  UniversalTracker.number_of_json (UniversalTracker.number_json q) = Some q.
Proof.
  unfold UniversalTracker.number_json. destruct q as [n d].
  cbn [Qden Qnum]. destruct (Z.pos d =? 1) eqn:Hd.
  - apply Z.eqb_eq in Hd. by injection Hd as ->.
  - unfold UniversalTracker.number_of_json. cbn [Qden]. by rewrite Hd.
Qed.

Lemma color_round_trip (c : UniversalTracker.ColorConfig) :
  UniversalTracker.color_of_json (UniversalTracker.color_json c) = Some c.
Proof.
  destruct c as [[[[? ?] ?] [[? ?] ?]] [[? ?] ?] [[? ?] ?] shown].
  vm_compute. reflexivity.
Qed.

Lemma colors_round_trip (cs : gmap string UniversalTracker.ColorConfig) :
  UniversalTracker.colors_of_json
    (UniversalTracker.JObject (UniversalTracker.color_json <$> cs))
  = Some cs.
Proof.
  unfold UniversalTracker.colors_of_json. rewrite decide_True.
  - f_equal. apply map_eq. intros k.
    rewrite lookup_omap, lookup_fmap.
    destruct (cs !! k) as [c|]; [|done]. simpl. apply color_round_trip.
  - intros k v. rewrite lookup_fmap.
    destruct (cs !! k) as [c|]; [|done]. intros [= <-].
    rewrite color_round_trip. by eexists.
Qed.

Lemma detection_round_trip (d : UniversalTracker.DetectionConfig) :
  UniversalTracker.detection_of_json (UniversalTracker.detection_json d)
  = Some d.
Proof.
  destruct d as [area kernel blur].
  unfold UniversalTracker.detection_of_json, UniversalTracker.detection_json,
    UniversalTracker.entries.
  cbn [UniversalTracker.min_area UniversalTracker.morphology_kernel_size
       UniversalTracker.blur_kernel_size].
  rewrite decide_True by (vm_compute; reflexivity).
  cbn [mbind option_bind].
  replace (_ !! "min_area"%string)
    with (Some (UniversalTracker.number_json area))
    by (vm_compute; reflexivity).
  cbn [mbind option_bind]. rewrite number_round_trip.
  vm_compute. reflexivity.
Qed.

Lemma trajectory_round_trip (t : UniversalTracker.TrajectoryConfig) :
  UniversalTracker.trajectory_of_json (UniversalTracker.trajectory_json t)
  = Some t.
Proof.
  destruct t as [thickness radius rate].
  unfold UniversalTracker.trajectory_of_json,
    UniversalTracker.trajectory_json, UniversalTracker.entries.
  cbn [UniversalTracker.line_thickness
       UniversalTracker.highlight_circle_size UniversalTracker.fps].
  rewrite decide_True by (vm_compute; reflexivity).
  cbn [mbind option_bind].
  replace (_ !! "fps"%string)
    with (Some (UniversalTracker.number_json rate))
    by (vm_compute; reflexivity).
  replace (_ !! "line_thickness"%string)
    with (Some (UniversalTracker.JInt thickness))
    by (vm_compute; reflexivity).
  replace (_ !! "highlight_circle_size"%string)
    with (Some (UniversalTracker.JInt radius))
    by (vm_compute; reflexivity).
  cbn [mbind option_bind UniversalTracker.int_of_json].
  by rewrite number_round_trip.
Qed.

(** A configuration is read back from the dictionary written for
    it. *)
Lemma of_json_to_json (cfg : UniversalTracker.Config) :
  UniversalTracker.of_json (UniversalTracker.to_json cfg) = Some cfg.
Proof.
  destruct cfg as [cs d t].
  unfold UniversalTracker.of_json, UniversalTracker.to_json,
    UniversalTracker.entries.
  cbn [UniversalTracker.colors UniversalTracker.detection
       UniversalTracker.trajectory].
  rewrite decide_True by (vm_compute; reflexivity).
  cbn [mbind option_bind].
  replace (_ !! "colors"%string)
    with (Some (UniversalTracker.JObject (UniversalTracker.color_json <$> cs)))
    by (vm_compute; reflexivity).
  replace (_ !! "detection"%string)
    with (Some (UniversalTracker.detection_json d))
    by (vm_compute; reflexivity).
  replace (_ !! "trajectory"%string)
    with (Some (UniversalTracker.trajectory_json t))
    by (vm_compute; reflexivity).
  cbn [mbind option_bind].
  by rewrite colors_round_trip, detection_round_trip, trajectory_round_trip.
Qed.

Section Exactness.
Import UniversalTracker.

(** A map with [S n] keys, one of them [k], is an insertion at [k] into
    a map with [n] keys. *)
Lemma map_split_key {A} (m : gmap string A) (k : string) (v : A) (n : nat) :
  size m = S n → m !! k = Some v →
  ∃ m', m = <[k := v]> m' ∧ size m' = n
        ∧ ∀ k', k ≠ k' → m' !! k' = m !! k'.
Proof.
  intros Hsize Hk. exists (delete k m). split; [|split].
  - by rewrite insert_delete_id.
  - by rewrite map_size_delete, Hk, Hsize.
  - intros k' Hne. by apply lookup_delete_ne.
Qed.

Lemma map_of_three {A} (m : gmap string A) (k1 k2 k3 : string)
    (v1 v2 v3 : A) :
  k1 ≠ k2 → k1 ≠ k3 → k2 ≠ k3 → size m = 3%nat →
  m !! k1 = Some v1 → m !! k2 = Some v2 → m !! k3 = Some v3 →
  m = {[ k1 := v1; k2 := v2; k3 := v3 ]}.
Proof.
  intros H12 H13 H23 Hsize H1 H2 H3.
  destruct (map_split_key m k1 v1 2 Hsize H1) as (m1 & -> & Hsize1 & Hm1).
  rewrite <- Hm1 in H2, H3 by done.
  destruct (map_split_key m1 k2 v2 1 Hsize1 H2) as (m2 & -> & Hsize2 & Hm2).
  rewrite <- Hm2 in H3 by done.
  destruct (map_split_key m2 k3 v3 0 Hsize2 H3) as (m3 & -> & Hsize3 & _).
  apply map_size_empty_inv in Hsize3. by rewrite Hsize3.
Qed.

Lemma map_of_four {A} (m : gmap string A) (k1 k2 k3 k4 : string)
    (v1 v2 v3 v4 : A) :
  k1 ≠ k2 → k1 ≠ k3 → k1 ≠ k4 → k2 ≠ k3 → k2 ≠ k4 → k3 ≠ k4 →
  size m = 4%nat →
  m !! k1 = Some v1 → m !! k2 = Some v2 → m !! k3 = Some v3 →
  m !! k4 = Some v4 →
  m = {[ k1 := v1; k2 := v2; k3 := v3; k4 := v4 ]}.
Proof.
  intros H12 H13 H14 H23 H24 H34 Hsize H1 H2 H3 H4.
  destruct (map_split_key m k1 v1 3 Hsize H1) as (m1 & -> & Hsize1 & Hm1).
  rewrite <- Hm1 in H2, H3, H4 by done.
  by rewrite (map_of_three m1 k2 k3 k4 v2 v3 v4 H23 H24 H34 Hsize1 H2 H3 H4).
Qed.

Lemma entries_inv (n : nat) (v : json_value) (m : gmap string json_value) :
  entries n v = Some m → v = JObject m ∧ size m = n.
Proof.
  unfold entries. destruct v; try done.
  destruct (decide _); [|done]. by intros [= <-].
Qed.

Lemma scalar_of_json_inv (v : json_value) (c : Scalar3) :
  scalar_of_json v = Some c → v = scalar_json c.
Proof.
  unfold scalar_of_json.
  destruct v as [| | | | |[|[] [|[] [|[] []]]]|]; try done.
  by intros [= <-].
Qed.

Lemma int_of_json_inv (v : json_value) (n : Z) :
  int_of_json v = Some n → v = JInt n.
Proof. destruct v; try done. by intros [= <-]. Qed.

Lemma number_of_json_inv (v : json_value) (q : Q) :
  number_of_json v = Some q → v = number_json q.
Proof.
  destruct v as [| |n|q'| | |]; try done; unfold number_of_json.
  - by intros [= <-].
  - destruct (Z.pos (Qden q') =? 1) eqn:Hden; [done|].
    intros [= <-]. unfold number_json. by rewrite Hden.
Qed.

Lemma bind_Some_inv {A B} (f : A → option B) (o : option A) (b : B) :
  o ≫= f = Some b → ∃ a, o = Some a ∧ f a = Some b.
Proof. destruct o as [a|]; [|done]. intros H. by exists a. Qed.

Lemma color_of_json_inv (v : json_value) (c : ColorConfig) :
  color_of_json v = Some c → v = color_json c.
Proof.
  unfold color_of_json. intros H.
  apply bind_Some_inv in H as (m & Hm & H).
  apply entries_inv in Hm as [-> Hsize].
  apply bind_Some_inv in H as (range & Hrange & H).
  apply bind_Some_inv in H as ([lower upper] & Hpair & H).
  apply bind_Some_inv in H as (track & Htrack & H).
  apply bind_Some_inv in Htrack as (vt & Hvt & Htrack).
  apply bind_Some_inv in H as (highlight & Hhigh & H).
  apply bind_Some_inv in Hhigh as (vh & Hvh & Hhigh).
  apply bind_Some_inv in H as (shown & Hshown & H).
  destruct shown as [| | | |s| |]; try done. injection H as <-.
  destruct range as [| | | | |[|vl [|vu []]]|]; try done.
  apply bind_Some_inv in Hpair as (lower' & Hlower & Hpair).
  apply bind_Some_inv in Hpair as (upper' & Hupper & Hpair).
  injection Hpair as -> ->.
  apply scalar_of_json_inv in Hlower as ->, Hupper as ->, Htrack as ->,
    Hhigh as ->.
  unfold color_json. cbn [hsv_range track_color highlight_color name fst snd].
  f_equal. by apply map_of_four.
Qed.

Lemma colors_of_json_inv (v : json_value) (cs : gmap string ColorConfig) :
  colors_of_json v = Some cs → v = JObject (color_json <$> cs).
Proof.
  unfold colors_of_json. destruct v as [| | | | | |m]; try done.
  destruct (decide _) as [Hall|]; [|done]. intros [= <-]. f_equal.
  apply map_eq. intros k. rewrite lookup_fmap, lookup_omap.
  destruct (m !! k) as [v|] eqn:Hk; [|done]. simpl.
  destruct (Hall k v Hk) as [c Hc]. rewrite Hc. simpl. f_equal.
  by apply color_of_json_inv.
Qed.

Lemma detection_of_json_inv (v : json_value) (d : DetectionConfig) :
  detection_of_json v = Some d → v = detection_json d.
Proof.
  unfold detection_of_json. intros H.
  apply bind_Some_inv in H as (m & Hm & H).
  apply entries_inv in Hm as [-> Hsize].
  apply bind_Some_inv in H as (area & Harea & H).
  apply bind_Some_inv in Harea as (va & Hva & Harea).
  apply bind_Some_inv in H as (kernel & Hkernel & H).
  apply bind_Some_inv in Hkernel as (vk & Hvk & Hkernel).
  apply bind_Some_inv in H as (blur & Hblur & H).
  apply bind_Some_inv in Hblur as (vb & Hvb & Hblur).
  injection H as <-.
  apply number_of_json_inv in Harea as ->.
  apply int_of_json_inv in Hkernel as ->, Hblur as ->.
  unfold detection_json.
  cbn [min_area morphology_kernel_size blur_kernel_size].
  f_equal. by apply map_of_three.
Qed.

Lemma trajectory_of_json_inv (v : json_value) (t : TrajectoryConfig) :
  trajectory_of_json v = Some t → v = trajectory_json t.
Proof.
  unfold trajectory_of_json. intros H.
  apply bind_Some_inv in H as (m & Hm & H).
  apply entries_inv in Hm as [-> Hsize].
  apply bind_Some_inv in H as (thickness & Hthick & H).
  apply bind_Some_inv in Hthick as (vt & Hvt & Hthick).
  apply bind_Some_inv in H as (radius & Hradius & H).
  apply bind_Some_inv in Hradius as (vr & Hvr & Hradius).
  apply bind_Some_inv in H as (rate & Hrate & H).
  apply bind_Some_inv in Hrate as (vf & Hvf & Hrate).
  injection H as <-.
  apply number_of_json_inv in Hrate as ->.
  apply int_of_json_inv in Hthick as ->, Hradius as ->.
  unfold trajectory_json. cbn [line_thickness highlight_circle_size fps].
  f_equal. by apply map_of_three.
Qed.

(** Only the dictionary written for a configuration is read as that
    configuration. *)
Lemma of_json_inv (v : json_value) (cfg : Config) :
  of_json v = Some cfg → v = to_json cfg.
Proof.
  unfold of_json. intros H.
  apply bind_Some_inv in H as (m & Hm & H).
  apply entries_inv in Hm as [-> Hsize].
  apply bind_Some_inv in H as (cs & Hcs & H).
  apply bind_Some_inv in Hcs as (vc & Hvc & Hcs).
  apply bind_Some_inv in H as (d & Hd & H).
  apply bind_Some_inv in Hd as (vd & Hvd & Hd).
  apply bind_Some_inv in H as (t & Ht & H).
  apply bind_Some_inv in Ht as (vt & Hvt & Ht).
  injection H as <-.
  apply colors_of_json_inv in Hcs as ->.
  apply detection_of_json_inv in Hd as ->.
  apply trajectory_of_json_inv in Ht as ->.
  unfold to_json. cbn [colors detection trajectory].
  f_equal. by apply map_of_three.
Qed.

End Exactness.

(** A tracker has the shape the methods read exactly when its
    configuration is the dictionary of a [Config]. *)
Lemma tracker_of_shaped (value : UniversalTracker.json_value)
    (self : UniversalTracker.ColorTracker) :
  UniversalTracker.tracker_of value = UniversalTracker.Shaped self
  ↔ value = UniversalTracker.to_json (UniversalTracker.config self).
Proof.
  unfold UniversalTracker.tracker_of. split.
  - destruct (UniversalTracker.of_json value) as [cfg|] eqn:Hcfg; [|done].
    intros [= <-]. by apply of_json_inv.
  - intros ->. rewrite of_json_to_json. by destruct self.
Qed.

Lemma tracker_of_to_json (self : UniversalTracker.ColorTracker) :
  UniversalTracker.tracker_of
    (UniversalTracker.to_json (UniversalTracker.config self))
  = UniversalTracker.Shaped self.
Proof.
  unfold UniversalTracker.tracker_of. rewrite of_json_to_json.
  by destruct self.
Qed.

(** [ColorTracker()] has the default configuration. *)
Lemma init_without_file (w : World) :
  UniversalTracker.init w None
  = Ok (UniversalTracker.Shaped
          {| UniversalTracker.config := UniversalTracker.default_config |}).
Proof.
  unfold UniversalTracker.init. cbn [mbind result_bind].
  exact (f_equal Ok
           (tracker_of_to_json
              {| UniversalTracker.config :=
                   UniversalTracker.default_config |})).
Qed.

End JsonFacts.

(** ** The choice of the centroid *)

Section CentroidFacts.
Context {cv : OpenCV}.

Lemma py_truediv_nonzero (a b : Q) :
  Qeq_bool b 0 = false → py_truediv a b = Ok (round_double (a / b)).
Proof. intros H. unfold py_truediv. by rewrite H. Qed.

Lemma Qgtb_lt (a b : Q) : Qgtb a b = true ↔ (b < a)%Q.
Proof.
  unfold Qgtb. rewrite negb_true_iff.
  destruct (Qle_bool a b) eqn:H.
  - apply Qle_bool_iff in H. split; [done|]. intros Hlt.
    exfalso. by apply (Qlt_not_le _ _ Hlt).
  - split; [|done]. intros _. apply Qnot_le_lt. intros Hle.
    apply Qle_bool_iff in Hle. congruence.
Qed.

Lemma Qeq_bool_false (a b : Q) : Qeq_bool a b = false ↔ ¬ (a == b)%Q.
Proof.
  split.
  - intros H He. apply Qeq_bool_iff in He. congruence.
  - intros H. destruct (Qeq_bool a b) eqn:He; [|done].
    exfalso. by apply H, Qeq_bool_iff.
Qed.

(** The value of [largest_centroid], with the error monad removed:
    the guarded divisions never raise. *)
Lemma largest_centroid_value (min_area : Q) (contours : list Contour) :
  largest_centroid min_area contours
  = Ok (match Reading.largest_region contours with
        | Some l =>
            if Qgtb (contourArea l) min_area
               && negb (Qeq_bool (m00 (moments l)) 0)
            then Some (Reading.centroid l)
            else None
        | None => None
        end).
Proof.
  destruct contours as [|c cs]; [done|]. simpl.
  destruct (Qgtb _ min_area); [|done]. simpl.
  destruct (Qeq_bool (m00 _) 0) eqn:H0; [done|]. simpl.
  by rewrite !(py_truediv_nonzero _ _ H0).
Qed.

Lemma largest_centroid_found (min_area : Q) (contours : list Contour)
    (l : Contour) :
  Reading.largest_region contours = Some l →
  (min_area < contourArea l)%Q → ¬ (m00 (moments l) == 0)%Q →
  largest_centroid min_area contours = Ok (Some (Reading.centroid l)).
Proof.
  intros Hl Ha Hm. rewrite largest_centroid_value, Hl.
  apply Qgtb_lt in Ha. apply Qeq_bool_false in Hm. by rewrite Ha, Hm.
Qed.

Lemma largest_centroid_not_found (min_area : Q) (contours : list Contour) :
  largest_centroid min_area contours = Ok None
  ↔ ∀ l, Reading.largest_region contours = Some l →
         (contourArea l <= min_area)%Q ∨ (m00 (moments l) == 0)%Q.
Proof.
  rewrite largest_centroid_value.
  destruct (Reading.largest_region contours) as [l|]; [|naive_solver].
  destruct (Qgtb (contourArea l) min_area) eqn:Ha; simpl.
  - destruct (Qeq_bool (m00 (moments l)) 0) eqn:Hm; simpl.
    + split; [|done]. intros _ l' [= <-]. right. by apply Qeq_bool_iff.
    + split; [done|]. intros H. exfalso.
      destruct (H l eq_refl) as [Hle|He].
      * apply Qgtb_lt in Ha. by apply (Qlt_not_le _ _ Ha).
      * by apply Qeq_bool_false in Hm.
  - split; [|done]. intros _ l' [= <-]. left.
    apply Qnot_lt_le. intros Hlt. apply Qgtb_lt in Hlt. congruence.
Qed.

(** [max(..., key=...)] returns an element whose key no other element
    exceeds. *)
Lemma py_max_by_spec {A} (key : A → Q) (rest : list A) :
  ∀ best,
    py_max_by key best rest ∈ best :: rest
    ∧ Forall (fun a => (key a <= key (py_max_by key best rest))%Q)
             (best :: rest).
Proof.
  induction rest as [|a rest IH]; intros best.
  - simpl. split; [apply elem_of_cons; by left|].
    constructor; [apply Qle_refl|constructor].
  - cbn [py_max_by]. destruct (Qgtb (key a) (key best)) eqn:Hgt.
    + destruct (IH a) as [Hin Hall].
      split; [apply elem_of_cons; by right|].
      apply Forall_cons in Hall as [Ha Hrest].
      apply Qgtb_lt in Hgt.
      constructor; [|by constructor].
      apply Qlt_le_weak. by eapply Qlt_le_trans.
    + destruct (IH best) as [Hin Hall]. split.
      { apply elem_of_cons in Hin as [Hin|Hin].
        - apply elem_of_cons. by left.
        - apply elem_of_cons. right. apply elem_of_cons.
          by right. }
      apply Forall_cons in Hall as [Hbest Hrest].
      constructor; [done|]. constructor; [|done].
      eapply Qle_trans; [|exact Hbest].
      apply Qnot_lt_le. intros Hlt. apply Qgtb_lt in Hlt. congruence.
Qed.

(** The region the detectors measure is a region of the frame, and no
    region of the frame has a larger area. *)
Lemma largest_region_spec (contours : list Contour) (l : Contour) :
  Reading.largest_region contours = Some l →
  l ∈ contours
  ∧ Forall (fun c => (contourArea c <= contourArea l)%Q) contours.
Proof.
  destruct contours as [|c cs]; [done|]. intros [= <-].
  apply py_max_by_spec.
Qed.

Lemma largest_region_is_Some (contours : list Contour) :
  contours ≠ [] → is_Some (Reading.largest_region contours).
Proof. destruct contours; [done|]. by eexists. Qed.

Lemma largest_centroid_small (min_area : Q) (contours : list Contour) :
  Forall (fun c => (contourArea c <= min_area)%Q) contours →
  largest_centroid min_area contours = Ok None.
Proof.
  intros Hall. apply largest_centroid_not_found. intros l Hl. left.
  apply largest_region_spec in Hl as [Hin _].
  rewrite Forall_forall in Hall. by apply Hall.
Qed.

Lemma detect_colored_object_known (self : UniversalTracker.ColorTracker)
    (img : Image) (color_name : string)
    (color_config : UniversalTracker.ColorConfig) :
  UniversalTracker.colors (UniversalTracker.config self) !! color_name
    = Some color_config →
  UniversalTracker.detect_colored_object self img color_name
  = largest_centroid
      (UniversalTracker.min_area
         (UniversalTracker.detection (UniversalTracker.config self)))
      (UniversalTracker.contours_of self img color_name color_config).
Proof.
  intros Hc. unfold UniversalTracker.detect_colored_object, getitem.
  rewrite Hc. rewrite bool_decide_eq_true_2 by eauto. done.
Qed.

Lemma detect_colored_object_unknown (self : UniversalTracker.ColorTracker)
    (img : Image) (color_name : string) :
  UniversalTracker.colors (UniversalTracker.config self) !! color_name
    = None →
  UniversalTracker.detect_colored_object self img color_name = Ok None.
Proof.
  intros Hc. unfold UniversalTracker.detect_colored_object.
  rewrite Hc. rewrite bool_decide_eq_false_2; [done|].
  by intros [? ?].
Qed.

Lemma detect_yellow_ball_ok (img : Image) :
  ∃ r, DetectBall.detect_yellow_ball img = Ok r.
Proof.
  unfold DetectBall.detect_yellow_ball. rewrite largest_centroid_value.
  by eexists.
Qed.

Lemma detect_colored_object_ok (self : UniversalTracker.ColorTracker)
    (img : Image) (color_name : string) :
  ∃ r, UniversalTracker.detect_colored_object self img color_name = Ok r.
Proof.
  destruct (UniversalTracker.colors (UniversalTracker.config self)
              !! color_name) as [color_config|] eqn:Hc.
  - rewrite (detect_colored_object_known _ _ _ _ Hc),
      largest_centroid_value. by eexists.
  - rewrite (detect_colored_object_unknown _ _ _ Hc). by eexists.
Qed.

End CentroidFacts.

(** ** The detector *)

Section Detector.
Context {cv : OpenCV}.

(** C1.  Where the code tests two colour ranges, a pixel inside the
    second range is set in the colour mask whether or not it is inside
    the first: the two range masks are combined with a bitwise or.  The
    tracker tests a second range for the profile named red (hues 170 to
    180), on the converted and blurred frame; the yellow-ball detector
    tests two yellow ranges on the converted frame. *)
Theorem second_range_pixel_in_mask :
  (∀ (self : UniversalTracker.ColorTracker) (img : Image)
     (color_config : UniversalTracker.ColorConfig) (r c : nat)
     (px : Scalar3),
     pixel_at (UniversalTracker.blurred_hsv self img) r c = Some px →
     in_range (170, 100, 100) (180, 255, 255) px = true →
     pixel_at (UniversalTracker.color_mask
                 (UniversalTracker.blurred_hsv self img) "red" color_config)
              r c = Some 255)
  ∧ (∀ (img : Image) (r c : nat) (px : Scalar3),
     pixel_at (cvtColor_BGR2HSV img) r c = Some px →
     in_range DetectBall.lower_yellow2 DetectBall.upper_yellow2 px = true →
     pixel_at (DetectBall.yellow_mask (cvtColor_BGR2HSV img)) r c
     = Some 255).
Proof.
  split.
  - intros self img color_config r c px Hpx Hin.
    unfold UniversalTracker.color_mask. simpl.
    apply pixel_at_union with (px := px); [done|].
    rewrite Hin. apply orb_true_r.
  - intros img r c px Hpx Hin. unfold DetectBall.yellow_mask.
    apply pixel_at_union with (px := px); [done|].
    rewrite Hin. apply orb_true_r.
Qed.

(** C10.  The first yellow range lies inside the second, so the
    yellow-ball detector returns on every frame what the detector that
    tests the second range alone returns. *)
Theorem yellow_first_range_redundant (img : Image) :
  DetectBall.detect_yellow_ball img = Reading.detect_second_range_only img.
Proof.
  unfold DetectBall.detect_yellow_ball, DetectBall.contours_of,
    Reading.detect_second_range_only, DetectBall.yellow_mask.
  by rewrite bitwise_or_absorb.
Qed.

(** C2, amended.  The detectors report "not found" exactly when there
    is no region, or the largest region's area is at most the threshold
    (50 in the yellow-ball detector, [min_area] in the tracker), or its
    m00 is zero; a largest region of area strictly above the threshold
    and nonzero m00 yields its truncated centroid.  An area equal to the
    threshold is rejected.  The largest region is a region of the frame
    whose area no other region of the frame exceeds, so a frame all of
    whose regions have an area of at most the threshold yields "not
    found". *)
Theorem not_found_iff_area_at_most_threshold :
  (∀ img : Image,
     (DetectBall.detect_yellow_ball img = Ok None
      ↔ ∀ l, Reading.largest_region (DetectBall.contours_of img) = Some l →
             (contourArea l <= 50)%Q ∨ (m00 (moments l) == 0)%Q)
     ∧ (∀ l, Reading.largest_region (DetectBall.contours_of img) = Some l →
             (50 < contourArea l)%Q → ¬ (m00 (moments l) == 0)%Q →
             DetectBall.detect_yellow_ball img
             = Ok (Some (Reading.centroid l)))
     ∧ (Forall (fun c => (contourArea c <= 50)%Q)
               (DetectBall.contours_of img) →
        DetectBall.detect_yellow_ball img = Ok None))
  ∧ (∀ (self : UniversalTracker.ColorTracker) (img : Image)
       (color_name : string) (color_config : UniversalTracker.ColorConfig),
     UniversalTracker.colors (UniversalTracker.config self) !! color_name
       = Some color_config →
     let min_area :=
       UniversalTracker.min_area
         (UniversalTracker.detection (UniversalTracker.config self)) in
     let contours :=
       UniversalTracker.contours_of self img color_name color_config in
     (UniversalTracker.detect_colored_object self img color_name = Ok None
      ↔ ∀ l, Reading.largest_region contours = Some l →
             (contourArea l <= min_area)%Q ∨ (m00 (moments l) == 0)%Q)
     ∧ (∀ l, Reading.largest_region contours = Some l →
             (min_area < contourArea l)%Q → ¬ (m00 (moments l) == 0)%Q →
             UniversalTracker.detect_colored_object self img color_name
             = Ok (Some (Reading.centroid l)))
     ∧ (Forall (fun c => (contourArea c <= min_area)%Q) contours →
        UniversalTracker.detect_colored_object self img color_name
        = Ok None))
  ∧ (∀ (contours : list Contour),
       (contours ≠ [] → is_Some (Reading.largest_region contours))
       ∧ ∀ l, Reading.largest_region contours = Some l →
              l ∈ contours
              ∧ Forall (fun c => (contourArea c <= contourArea l)%Q)
                       contours).
Proof.
  split; [|split].
  - intros img. unfold DetectBall.detect_yellow_ball. split; [|split].
    + apply largest_centroid_not_found.
    + apply largest_centroid_found.
    + apply largest_centroid_small.
  - intros self img color_name color_config Hc min_area contours.
    rewrite (detect_colored_object_known _ _ _ _ Hc). split; [|split].
    + apply largest_centroid_not_found.
    + apply largest_centroid_found.
    + apply largest_centroid_small.
  - intros contours. split.
    + apply largest_region_is_Some.
    + apply largest_region_spec.
Qed.

(** C8.  Neither detector raises: on every frame, and in the tracker
    for every colour name, the result is a value, either "not found" or
    a coordinate pair.  A coordinate pair is the truncated quotient of
    the moments of the largest region, and is returned only when that
    region's m00 is not zero, so the division by m00 never divides by
    zero. *)
Theorem detectors_never_raise :
  (∀ img : Image,
     ∃ r, DetectBall.detect_yellow_ball img = Ok r
          ∧ ∀ p, r = Some p →
                 ∃ l, Reading.largest_region (DetectBall.contours_of img)
                      = Some l
                      ∧ ¬ (m00 (moments l) == 0)%Q
                      ∧ p = Reading.centroid l)
  ∧ (∀ (self : UniversalTracker.ColorTracker) (img : Image)
       (color_name : string),
     ∃ r, UniversalTracker.detect_colored_object self img color_name = Ok r
          ∧ ∀ p, r = Some p →
                 ∃ color_config l,
                   UniversalTracker.colors (UniversalTracker.config self)
                     !! color_name = Some color_config
                   ∧ Reading.largest_region
                       (UniversalTracker.contours_of self img color_name
                          color_config) = Some l
                   ∧ ¬ (m00 (moments l) == 0)%Q
                   ∧ p = Reading.centroid l).
Proof.
  assert (Hvalue : ∀ min_area contours,
    ∃ r, largest_centroid min_area contours = Ok r
         ∧ ∀ p, r = Some p →
                ∃ l, Reading.largest_region contours = Some l
                     ∧ ¬ (m00 (moments l) == 0)%Q
                     ∧ p = Reading.centroid l).
  { intros min_area contours. eexists. split.
    - apply largest_centroid_value.
    - intros p Hp.
      destruct (Reading.largest_region contours) as [l|]; [|done].
      destruct (Qgtb _ _); simpl in Hp; [|done].
      destruct (Qeq_bool _ 0) eqn:Hm; simpl in Hp; [done|].
      injection Hp as <-. exists l.
      split; [done|]. split; [|done]. by apply Qeq_bool_false. }
  split.
  - intros img. apply Hvalue.
  - intros self img color_name.
    destruct (UniversalTracker.colors (UniversalTracker.config self)
                !! color_name) as [color_config|] eqn:Hc.
    + rewrite (detect_colored_object_known _ _ _ _ Hc).
      destruct (Hvalue
        (UniversalTracker.min_area
           (UniversalTracker.detection (UniversalTracker.config self)))
        (UniversalTracker.contours_of self img color_name color_config))
        as (r & Hr & Hp).
      exists r. split; [done|]. intros p Hrp.
      destruct (Hp p Hrp) as (l & ? & ? & ?). by exists color_config, l.
    + rewrite (detect_colored_object_unknown _ _ _ Hc).
      exists None. by split.
Qed.

End Detector.

Lemma second_range_pixel_in_mask_witness :
  pixel_at (UniversalTracker.color_mask
              (UniversalTracker.blurred_hsv Bench.default_tracker
                 Bench.frame_crimson)
              "red" Bench.red_profile) 5 6 = Some 255
  ∧ in_range (0, 100, 100) (10, 255, 255) (175, 255, 255) = false.
Proof.
  split; [|reflexivity].
  apply (proj1 (@second_range_pixel_in_mask Bench.cv))
    with (px := (175, 255, 255)).
  - vm_compute. reflexivity.
  - reflexivity.
Defined.

(** C2 as stated fails: on a frame whose only region is a rectangle of
    11 x 6 pixels, three pixels away from every border, the largest
    region has area exactly 50 and a nonzero m00, and the detector
    reports "not found". *)
Lemma area_equal_to_threshold_rejected :
  DetectBall.contours_of Bench.frame_area_50 = [Bench.contour_50]
  ∧ Reading.largest_region (DetectBall.contours_of Bench.frame_area_50)
    = Some Bench.contour_50
  ∧ (contourArea Bench.contour_50 == 50)%Q
  ∧ ¬ (m00 (moments Bench.contour_50) == 0)%Q
  ∧ DetectBall.detect_yellow_ball Bench.frame_area_50 = Ok None.
Proof.
  split; [vm_compute; reflexivity|].
  split; [vm_compute; reflexivity|].
  split; [vm_compute; reflexivity|].
  split; [vm_compute; discriminate|].
  vm_compute. reflexivity.
Qed.

Lemma not_found_iff_area_at_most_threshold_witness :
  DetectBall.detect_yellow_ball Bench.frame_area_55
  = Ok (Some (Reading.centroid Bench.contour_55))
  ∧ Reading.centroid Bench.contour_55 = (8, 5).
Proof.
  split; [|vm_compute; reflexivity].
  apply (proj1 (proj2 (proj1 (@not_found_iff_area_at_most_threshold Bench.cv)
                         Bench.frame_area_55)) Bench.contour_55).
  - vm_compute. reflexivity.
  - vm_compute. reflexivity.
  - vm_compute. discriminate.
Defined.

Lemma detectors_never_raise_witness :
  ∃ r, UniversalTracker.detect_colored_object Bench.default_tracker
         Bench.frame_wide "yellow" = Ok r.
Proof.
  destruct (proj2 (@detectors_never_raise Bench.cv) Bench.default_tracker
              Bench.frame_wide "yellow") as (r & Hr & _).
  exists r. exact Hr.
Defined.

(** ** The point list of the renderers *)

Section PointFacts.

Lemma iloc_lookup (df : DataFrame) (j : nat) (row : Row) :
  df !! j = Some row → iloc df j = Ok row.
Proof. intros H. unfold iloc. by rewrite H. Qed.

(** The inner loop over [k, k+1, ..., k+n-1] appends the accepted
    points of those rows, in order, and never raises while the indices
    stay inside the table. *)
Lemma points_loop_seq (keep : Point → bool) (df : DataFrame) :
  ∀ (n k : nat) (points : list Point),
    (k + n ≤ length df)%nat →
    points_loop keep df (seq k n) points
    = Ok (points ++ filter (fun p => keep p = true)
            ((fun row => (x row, y row)) <$> take n (drop k df))).
Proof.
  induction n as [|n IH]; intros k points Hlen.
  - simpl. by rewrite app_nil_r.
  - destruct (lookup_lt_is_Some_2 df k) as [row Hrow]; [lia|].
    simpl. rewrite (iloc_lookup _ _ _ Hrow). simpl.
    rewrite IH by lia.
    rewrite (drop_S _ _ _ Hrow), firstn_cons, fmap_cons, filter_cons.
    destruct (keep (x row, y row)) eqn:Hk.
    + rewrite decide_True by done. by rewrite <- app_assoc.
    + rewrite decide_False by done. done.
Qed.

Lemma trajectory_points_value (keep : Point → bool) (df : DataFrame)
    (i : nat) :
  (i < length df)%nat →
  trajectory_points keep df i = Ok (Reading.points_by_position keep df i).
Proof.
  intros Hi. unfold trajectory_points, Reading.points_by_position.
  rewrite Nat.add_1_r, points_loop_seq by lia. by rewrite drop_0.
Qed.

Lemma points_by_position_grow (keep : Point → bool) (df : DataFrame)
    (i : nat) :
  Reading.points_by_position keep df i
    `prefix_of` Reading.points_by_position keep df (S i).
Proof.
  unfold Reading.points_by_position.
  destruct (df !! S i) as [row|] eqn:Hrow.
  - rewrite (take_S_r df (S i) row Hrow), fmap_app, filter_app.
    by apply prefix_app_r.
  - apply lookup_ge_None in Hrow.
    rewrite (take_ge df (S i)), (take_ge df (S (S i))) by lia. done.
Qed.

(** In a table whose rows are numbered [b, b+1, ...], the rows
    numbered at most [t] are the first [t - b + 1] rows. *)
Lemma filter_dense_frames (df : DataFrame) :
  ∀ (b t : Z),
    (∀ (j : nat) row, df !! j = Some row → frame row = b + Z.of_nat j) →
    filter (fun row => frame row ≤ t) df = take (Z.to_nat (t - b + 1)) df.
Proof.
  induction df as [|r df IH]; intros b t Hdense.
  - by rewrite take_nil.
  - assert (Hr : frame r = b).
    { rewrite (Hdense 0%nat r eq_refl). lia. }
    assert (Htail : ∀ (j : nat) row,
               df !! j = Some row → frame row = (b + 1) + Z.of_nat j).
    { intros j row Hj. rewrite (Hdense (S j) row Hj). lia. }
    rewrite filter_cons. specialize (IH (b + 1) t Htail).
    destruct (decide (frame r ≤ t)) as [Hle|Hgt].
    + replace (Z.to_nat (t - b + 1)) with (S (Z.to_nat (t - (b + 1) + 1)))
        by lia.
      simpl. by rewrite IH.
    + rewrite IH.
      replace (Z.to_nat (t - b + 1)) with 0%nat by lia.
      replace (Z.to_nat (t - (b + 1) + 1)) with 0%nat by lia.
      by rewrite take_0.
Qed.

End PointFacts.

Section PointList.

(** C3, amended.  At output step [i] the point list is made of the
    first [i + 1] rows of the log, by position and in log order, reduced
    to the points inside the canvas; no row at a later position is
    drawn.  When the log has a row for every frame (row [j] carries
    frame index [j + 1]) these are the rows whose frame index is at most
    [i + 1]. *)
Theorem point_list_by_position (width height : Z) (df : DataFrame)
    (i : nat) :
  (i < length df)%nat →
  trajectory_points (in_canvas width height) df i
  = Ok (filter (fun p => in_canvas width height p = true)
          ((fun row => (x row, y row)) <$> take (S i) df))
  ∧ ((∀ (j : nat) row, df !! j = Some row → frame row = Z.of_nat j + 1) →
     trajectory_points (in_canvas width height) df i
     = Ok (Reading.points_by_frame_index width height df i)).
Proof.
  intros Hi. rewrite trajectory_points_value by done.
  split; [done|]. intros Hdense.
  unfold Reading.points_by_position, Reading.points_by_frame_index.
  rewrite (filter_dense_frames df 1 (Z.of_nat i + 1)).
  - by replace (Z.to_nat (Z.of_nat i + 1 - 1 + 1)) with (S i) by lia.
  - intros j row Hj. rewrite (Hdense j row Hj). lia.
Qed.

(** C4.  The point list of output frame [i] is a prefix of the point
    list of output frame [i + 1], in the renderer that keeps every point
    and in the renderers that keep the points inside the canvas. *)
Theorem point_list_grows (keep : Point → bool) (df : DataFrame) (i : nat) :
  (S i < length df)%nat →
  ∃ now next,
    trajectory_points keep df i = Ok now
    ∧ trajectory_points keep df (S i) = Ok next
    ∧ now `prefix_of` next.
Proof.
  intros Hi.
  exists (Reading.points_by_position keep df i),
         (Reading.points_by_position keep df (S i)).
  rewrite !trajectory_points_value by lia.
  split; [done|]. split; [done|]. apply points_by_position_grow.
Qed.

End PointList.

(** ** The output frames of the overlay renderers *)

Section OverlayFacts.
Context {cv : OpenCV}.

Lemma background_step (pending : list Image) (height width : Z) (t : nat) :
  Reading.background (Some (cap_read pending).2) height width t
  = Reading.background (Some pending) height width (S t).
Proof. destruct pending as [|img pending]; [|done]. simpl. done. Qed.

Lemma background_now (pending : list Image) (height width : Z) :
  default (np_zeros height width) (cap_read pending).1
  = Reading.background (Some pending) height width 0.
Proof. by destruct pending. Qed.

(** The overlay loop over the steps [k, ..., k+n-1] never raises while
    the steps stay inside the log; it writes one frame per step, drawn
    on the next source frame or, when the source has none left or there
    is no source, on a blank canvas. *)
Lemma overlay_loop_seq (df : DataFrame) (width height : Z)
    (track_color : Scalar3) (line_thickness : Z)
    (highlight_color : Scalar3) (circle_size : Z) :
  ∀ (n k : nat) (cap : option (list Image)) (written : list Image),
    (k + n ≤ length df)%nat →
    ∃ out,
      overlay_loop df width height track_color line_thickness
        highlight_color circle_size cap (seq k n) written
      = Ok (written ++ out)
      ∧ length out = n
      ∧ ∀ (t : nat) row,
          (t < n)%nat → df !! (k + t)%nat = Some row →
          out !! t
          = Some (Reading.overlay_frame df width height track_color
                    line_thickness highlight_color circle_size
                    (Reading.background cap height width t) (k + t) row).
Proof.
  induction n as [|n IH]; intros k cap written Hlen.
  - exists []. simpl. rewrite app_nil_r.
    split; [done|]. split; [done|]. intros t row Ht. lia.
  - destruct (lookup_lt_is_Some_2 df k) as [row Hrow]; [lia|].
    set (bg := Reading.background cap height width 0).
    set (cap' := match cap with
                 | Some pending => Some (cap_read pending).2
                 | None => None
                 end).
    set (img := Reading.overlay_frame df width height track_color
                  line_thickness highlight_color circle_size bg k row).
    destruct (IH (S k) cap' (written ++ [img])) as (out & Hout & Hn & Hat);
      [lia|].
    exists (img :: out). split; [|split].
    + replace (written ++ img :: out) with ((written ++ [img]) ++ out)
        by (by rewrite <- app_assoc).
      rewrite <- Hout. cbn [seq overlay_loop].
      assert (Hstep :
        match cap with
        | Some pending =>
            let '(ret, pending') := cap_read pending in
            (default (np_zeros height width) ret, Some pending')
        | None => (np_zeros height width, None)
        end = (bg, cap')).
      { subst bg cap'. destruct cap as [pending|]; [|done].
        rewrite <- background_now. by destruct (cap_read pending). }
      rewrite Hstep.
      rewrite trajectory_points_value by lia. cbn [mbind result_bind].
      rewrite (iloc_lookup _ _ _ Hrow). done.
    + simpl. by rewrite Hn.
    + intros t row' Ht Hrow'. destruct t as [|t].
      * rewrite Nat.add_0_r in Hrow'. rewrite Hrow in Hrow'.
        injection Hrow' as <-. simpl. by rewrite Nat.add_0_r.
      * simpl. rewrite (Hat t row'); [|lia|].
        -- f_equal. replace (S k + t)%nat with (k + S t)%nat by lia.
           f_equal. subst cap'. destruct cap as [pending|]; [|done].
           apply background_step.
        -- by replace (S k + t)%nat with (k + S t)%nat by lia.
Qed.

End OverlayFacts.

Section RendererFacts.
Context {cv : OpenCV} {json : UniversalTracker.JsonCodec}.

(** The tracker's renderer over a source video that exists. *)
Lemma tracker_overlay_value (self : UniversalTracker.ColorTracker)
    (w : World) (csv_path color_name : string) (ovp : option string)
    (p : string) (output_path : option string)
    (custom_line_thickness custom_circle_size : option Z)
    (df : DataFrame) (color_config : UniversalTracker.ColorConfig) :
  read_csv w csv_path = Ok df →
  UniversalTracker.colors (UniversalTracker.config self) !! color_name
    = Some color_config →
  usable_source w ovp = Some p →
  let src := VideoCapture w p in
  let width := CAP_PROP_FRAME_WIDTH src in
  let height := CAP_PROP_FRAME_HEIGHT src in
  ∃ path vid,
    UniversalTracker.create_trajectory_video self w csv_path color_name ovp
      output_path custom_line_thickness custom_circle_size = Ok (path, vid)
    ∧ length (frames vid) = length df
    ∧ ∀ (i : nat) row,
        df !! i = Some row →
        frames vid !! i
        = Some (Reading.overlay_frame df width height
                  (UniversalTracker.track_color color_config)
                  (py_or custom_line_thickness
                     (UniversalTracker.line_thickness
                        (UniversalTracker.trajectory
                           (UniversalTracker.config self))))
                  (UniversalTracker.highlight_color color_config)
                  (py_or custom_circle_size
                     (UniversalTracker.highlight_circle_size
                        (UniversalTracker.trajectory
                           (UniversalTracker.config self))))
                  (Reading.background (Some (frames src)) height width i)
                  i row).
Proof.
  intros Hcsv Hcolor Hsrc src width height.
  unfold UniversalTracker.create_trajectory_video, getitem.
  rewrite Hcsv, Hcolor, Hsrc. cbn [mbind result_bind].
  destruct (overlay_loop_seq df width height
              (UniversalTracker.track_color color_config)
              (py_or custom_line_thickness
                 (UniversalTracker.line_thickness
                    (UniversalTracker.trajectory
                       (UniversalTracker.config self))))
              (UniversalTracker.highlight_color color_config)
              (py_or custom_circle_size
                 (UniversalTracker.highlight_circle_size
                    (UniversalTracker.trajectory
                       (UniversalTracker.config self))))
              (length df) 0%nat (Some (frames src)) [])
    as (out & Hout & Hn & Hat); [simpl; lia|].
  fold src width height. rewrite Hout. cbn [mbind result_bind app].
  eexists _, _. split; [reflexivity|]. simpl. split; [done|].
  intros i row Hrow. apply (Hat i row); [|done].
  by apply lookup_lt_Some in Hrow.
Qed.

(** The overlay renderer of ball_trajectory_video.py over a source
    video that exists. *)
Lemma ball_overlay_value (w : World) (csv_path : string)
    (ovp : option string) (p : string) (output_path : string)
    (df : DataFrame) :
  read_csv w csv_path = Ok df →
  usable_source w ovp = Some p →
  let src := VideoCapture w p in
  let width := CAP_PROP_FRAME_WIDTH src in
  let height := CAP_PROP_FRAME_HEIGHT src in
  ∃ path vid,
    BallTrajectoryVideo.create_trajectory_overlay_video w csv_path ovp
      output_path = Ok (path, vid)
    ∧ length (frames vid) = length df
    ∧ ∀ (i : nat) row,
        df !! i = Some row →
        frames vid !! i
        = Some (Reading.overlay_frame df width height (0, 255, 0) 6
                  (0, 255, 255) 8
                  (Reading.background (Some (frames src)) height width i)
                  i row).
Proof.
  intros Hcsv Hsrc src width height.
  unfold BallTrajectoryVideo.create_trajectory_overlay_video.
  rewrite Hcsv, Hsrc. cbn [mbind result_bind].
  destruct (overlay_loop_seq df width height (0, 255, 0) 6 (0, 255, 255) 8
              (length df) 0%nat (Some (frames src)) [])
    as (out & Hout & Hn & Hat); [simpl; lia|].
  fold src width height. rewrite Hout. cbn [mbind result_bind app].
  rewrite bool_decide_eq_true_2 by eauto.
  rewrite andb_false_r.
  eexists _, _. split; [reflexivity|]. simpl. split; [done|].
  intros i row Hrow. apply (Hat i row); [|done].
  by apply lookup_lt_Some in Hrow.
Qed.

Lemma background_exhausted (pending : list Image) (height width : Z)
    (i : nat) :
  (length pending ≤ i)%nat →
  Reading.background (Some pending) height width i = np_zeros height width.
Proof.
  intros Hi. unfold Reading.background.
  by rewrite (proj2 (lookup_ge_None pending i) Hi).
Qed.

End RendererFacts.

(** ** The renderer *)

Section Renderer.
Context {cv : OpenCV} {json : UniversalTracker.JsonCodec}.

(** C7.  Rendering over a source video writes one output frame per
    row of the log, however few frames the source has, and every output
    frame past the end of the source is drawn on an all-zero canvas of
    the output dimensions.  This holds for the tracker's renderer and for
    the overlay renderer of ball_trajectory_video.py. *)
Theorem blank_canvas_after_source_ends :
  (∀ (self : UniversalTracker.ColorTracker) (w : World)
     (csv_path color_name : string) (ovp : option string) (p : string)
     (output_path : option string)
     (custom_line_thickness custom_circle_size : option Z)
     (df : DataFrame) (color_config : UniversalTracker.ColorConfig),
     read_csv w csv_path = Ok df →
     UniversalTracker.colors (UniversalTracker.config self) !! color_name
       = Some color_config →
     usable_source w ovp = Some p →
     ∃ path vid,
       UniversalTracker.create_trajectory_video self w csv_path color_name
         ovp output_path custom_line_thickness custom_circle_size
       = Ok (path, vid)
       ∧ length (frames vid) = length df
       ∧ ∀ (i : nat) row,
           df !! i = Some row →
           (length (frames (VideoCapture w p)) ≤ i)%nat →
           frames vid !! i
           = Some (Reading.overlay_frame df
                     (CAP_PROP_FRAME_WIDTH (VideoCapture w p))
                     (CAP_PROP_FRAME_HEIGHT (VideoCapture w p))
                     (UniversalTracker.track_color color_config)
                     (py_or custom_line_thickness
                        (UniversalTracker.line_thickness
                           (UniversalTracker.trajectory
                              (UniversalTracker.config self))))
                     (UniversalTracker.highlight_color color_config)
                     (py_or custom_circle_size
                        (UniversalTracker.highlight_circle_size
                           (UniversalTracker.trajectory
                              (UniversalTracker.config self))))
                     (np_zeros (CAP_PROP_FRAME_HEIGHT (VideoCapture w p))
                               (CAP_PROP_FRAME_WIDTH (VideoCapture w p)))
                     i row))
  ∧ (∀ (w : World) (csv_path : string) (ovp : option string) (p : string)
       (output_path : string) (df : DataFrame),
     read_csv w csv_path = Ok df →
     usable_source w ovp = Some p →
     ∃ path vid,
       BallTrajectoryVideo.create_trajectory_overlay_video w csv_path ovp
         output_path = Ok (path, vid)
       ∧ length (frames vid) = length df
       ∧ ∀ (i : nat) row,
           df !! i = Some row →
           (length (frames (VideoCapture w p)) ≤ i)%nat →
           frames vid !! i
           = Some (Reading.overlay_frame df
                     (CAP_PROP_FRAME_WIDTH (VideoCapture w p))
                     (CAP_PROP_FRAME_HEIGHT (VideoCapture w p))
                     (0, 255, 0) 6 (0, 255, 255) 8
                     (np_zeros (CAP_PROP_FRAME_HEIGHT (VideoCapture w p))
                               (CAP_PROP_FRAME_WIDTH (VideoCapture w p)))
                     i row)).
Proof.
  split.
  - intros self w csv_path color_name ovp p output_path clt ccs df
      color_config Hcsv Hcolor Hsrc.
    destruct (tracker_overlay_value self w csv_path color_name ovp p
                output_path clt ccs df color_config Hcsv Hcolor Hsrc)
      as (path & vid & Hrun & Hlen & Hat).
    exists path, vid. split; [done|]. split; [done|].
    intros i row Hrow Hi. rewrite (Hat i row Hrow).
    by rewrite background_exhausted.
  - intros w csv_path ovp p output_path df Hcsv Hsrc.
    destruct (ball_overlay_value w csv_path ovp p output_path df Hcsv Hsrc)
      as (path & vid & Hrun & Hlen & Hat).
    exists path, vid. split; [done|]. split; [done|].
    intros i row Hrow Hi. rewrite (Hat i row Hrow).
    by rewrite background_exhausted.
Qed.

(** C6, amended.  A video without frames makes both recorders
    accumulate an empty log without raising; they then write no
    coordinate file, and the tracker's recorder returns no path.  The
    end-to-end run of the tracker skips the creation of the video in
    that case.  Given a log without rows and a source video that
    exists, the overlay renderers write a video of zero frames. *)
Theorem empty_video_and_empty_log :
  (∀ (w : World) (video_path output_csv : string),
     frames (VideoCapture w video_path) = [] →
     DetectBall.recorded_rows w video_path = Ok []
     ∧ DetectBall.extract_ball_coordinates w video_path output_csv = Ok w)
  ∧ (∀ (self : UniversalTracker.ColorTracker) (w : World)
       (video_path color_name : string) (output_csv : option string)
       (show_preview : bool),
     frames (VideoCapture w video_path) = [] →
     is_Some (UniversalTracker.colors (UniversalTracker.config self)
                !! color_name) →
     UniversalTracker.recorded_rows self w video_path color_name
       show_preview = Ok []
     ∧ UniversalTracker.extract_object_coordinates self w video_path
         color_name output_csv show_preview = Ok (w, None))
  ∧ (∀ w : World,
     frames (VideoCapture w UniversalTracker.video_file) = [] →
     ∃ w', UniversalTracker.demo_usage w = Ok (w', None))
  ∧ (∀ (self : UniversalTracker.ColorTracker) (w : World)
       (csv_path color_name : string) (ovp : option string) (p : string)
       (output_path : option string)
       (custom_line_thickness custom_circle_size : option Z)
       (color_config : UniversalTracker.ColorConfig),
     read_csv w csv_path = Ok [] →
     UniversalTracker.colors (UniversalTracker.config self) !! color_name
       = Some color_config →
     usable_source w ovp = Some p →
     ∃ path vid,
       UniversalTracker.create_trajectory_video self w csv_path color_name
         ovp output_path custom_line_thickness custom_circle_size
       = Ok (path, vid)
       ∧ frames vid = [])
  ∧ (∀ (w : World) (csv_path : string) (ovp : option string) (p : string)
       (output_path : string),
     read_csv w csv_path = Ok [] →
     usable_source w ovp = Some p →
     ∃ path vid,
       BallTrajectoryVideo.create_trajectory_overlay_video w csv_path ovp
         output_path = Ok (path, vid)
       ∧ frames vid = []).
Proof.
  assert (Htracker : ∀ (self : UniversalTracker.ColorTracker) (w : World)
            (video_path color_name : string) (output_csv : option string)
            (show_preview : bool),
            frames (VideoCapture w video_path) = [] →
            is_Some (UniversalTracker.colors (UniversalTracker.config self)
                       !! color_name) →
            UniversalTracker.recorded_rows self w video_path color_name
              show_preview = Ok []
            ∧ UniversalTracker.extract_object_coordinates self w video_path
                color_name output_csv show_preview = Ok (w, None)).
  { intros self w video_path color_name output_csv show_preview Hnil
      [color_config Hcolor].
    assert (Hrows : UniversalTracker.recorded_rows self w video_path
                      color_name show_preview = Ok []).
    { unfold UniversalTracker.recorded_rows, getitem.
      by rewrite Hcolor, Hnil. }
    split; [done|].
    unfold UniversalTracker.extract_object_coordinates. by rewrite Hrows. }
  split; [|split; [|split; [|split]]].
  - intros w video_path output_csv Hnil.
    assert (Hrows : DetectBall.recorded_rows w video_path = Ok []).
    { unfold DetectBall.recorded_rows. by rewrite Hnil. }
    split; [done|].
    unfold DetectBall.extract_ball_coordinates. by rewrite Hrows.
  - exact Htracker.
  - intros w Hnil. unfold UniversalTracker.demo_usage.
    rewrite init_without_file. cbn [mbind result_bind].
    match goal with
    | |- context [path_exists ?w1 _] => destruct (path_exists w1 _)
    end; [|by eexists].
    match goal with
    | |- context [UniversalTracker.extract_object_coordinates ?t ?w1 ?v ?c
                    ?o ?s] =>
        destruct (Htracker t w1 v c o s) as [_ Hrun]
    end.
    + exact Hnil.
    + simpl. rewrite lookup_insert_ne by done. by eexists.
    + rewrite Hrun. cbn [mbind result_bind]. by eexists.
  - intros self w csv_path color_name ovp p output_path clt ccs
      color_config Hcsv Hcolor Hsrc.
    destruct (tracker_overlay_value self w csv_path color_name ovp p
                output_path clt ccs [] color_config Hcsv Hcolor Hsrc)
      as (path & vid & Hrun & Hlen & _).
    exists path, vid. split; [done|]. by apply nil_length_inv.
  - intros w csv_path ovp p output_path Hcsv Hsrc.
    destruct (ball_overlay_value w csv_path ovp p output_path [] Hcsv Hsrc)
      as (path & vid & Hrun & Hlen & _).
    exists path, vid. split; [done|]. by apply nil_length_inv.
Qed.

End Renderer.

(** C3 as stated fails: at step 0 of a log whose only row carries
    frame index 2 that row is drawn, while no row has a frame index of at
    most 1. *)
Lemma point_drawn_before_its_frame_index :
  trajectory_points (in_canvas 200 200) Bench.log_from_frame_2 0
    = Ok [(10, 10)]
  ∧ Reading.points_by_frame_index 200 200 Bench.log_from_frame_2 0 = [].
Proof. split; reflexivity. Qed.

Lemma point_list_by_position_witness :
  trajectory_points (in_canvas 16 12) Bench.log_two_rows 1
  = Ok [(3, 4); (5, 6)].
Proof.
  apply (proj1 (point_list_by_position 16 12 Bench.log_two_rows 1
                  ltac:(simpl; lia))).
Defined.

Lemma point_list_grows_witness :
  ∃ now next,
    trajectory_points (fun _ => true) Bench.log_two_rows 0 = Ok now
    ∧ trajectory_points (fun _ => true) Bench.log_two_rows 1 = Ok next
    ∧ now `prefix_of` next.
Proof.
  apply (point_list_grows (fun _ => true) Bench.log_two_rows 0).
  simpl. lia.
Defined.

(** C6 as stated fails: without a source video the renderers raise on
    a log that has no row, because the canvas size is taken from the
    maximum of an empty column. *)
Lemma empty_log_without_source_raises :
  UniversalTracker.create_trajectory_video Bench.default_tracker Bench.world
    "empty.csv" "yellow" None None None None = Raise ValueError
  ∧ BallTrajectoryVideo.create_trajectory_video Bench.world "empty.csv"
      "ball_trajectory.mp4" 60 = Raise ValueError
  ∧ BallTrajectoryVideo.create_trajectory_overlay_video Bench.world
      "empty.csv" None "ball_trajectory_overlay.mp4" = Raise ValueError.
Proof. split; [|split]; vm_compute; reflexivity. Qed.

Lemma blank_canvas_after_source_ends_witness :
  ∃ path vid,
    UniversalTracker.create_trajectory_video Bench.default_tracker Bench.world
      "two.csv" "yellow" (Some "short.mp4"%string) None None None
    = Ok (path, vid)
    ∧ length (frames vid) = 2%nat
    ∧ frames vid !! 1%nat
      = Some (Reading.overlay_frame Bench.log_two_rows 20 12 (0, 255, 0) 6
                (0, 255, 255) 8 (np_zeros 12 20) 1
                {| frame := 2; timestamp_ms := 33.3; x := 5; y := 6 |}).
Proof.
  destruct (proj1 (@blank_canvas_after_source_ends Bench.cv)
              Bench.default_tracker Bench.world "two.csv"%string
              "yellow"%string (Some "short.mp4"%string) "short.mp4"%string
              None None None Bench.log_two_rows Bench.yellow_profile)
    as (path & vid & Hrun & Hlen & Hat).
  - vm_compute. reflexivity.
  - vm_compute. reflexivity.
  - vm_compute. reflexivity.
  - exists path, vid. split; [exact Hrun|]. split; [exact Hlen|].
    apply (Hat 1%nat {| frame := 2; timestamp_ms := 33.3; x := 5; y := 6 |}).
    + reflexivity.
    + vm_compute. lia.
Defined.

Lemma empty_video_and_empty_log_witness :
  UniversalTracker.extract_object_coordinates Bench.default_tracker
    Bench.world "blank.mp4" "yellow" None true = Ok (Bench.world, None).
Proof.
  apply (proj1 (proj2 (@empty_video_and_empty_log Bench.cv Bench.json))
           Bench.default_tracker Bench.world "blank.mp4"%string
           "yellow"%string None true).
  - vm_compute. reflexivity.
  - vm_compute. eexists. reflexivity.
Defined.

(** ** The recorder *)

Section RecorderFacts.
Context {cv : OpenCV}.

Lemma round_half_even_proper (q1 q2 : Q) :
  (q1 == q2)%Q → round_half_even q1 = round_half_even q2.
Proof.
  intros H. unfold round_half_even. rewrite (Qfloor_comp _ _ H).
  assert (Hcmp : (q1 - inject_Z (Qfloor q2) ?= 1 # 2)%Q
                 = (q2 - inject_Z (Qfloor q2) ?= 1 # 2)%Q).
  { apply Qcompare_comp; [|reflexivity]. by rewrite H. }
  by rewrite Hcmp.
Qed.

Lemma py_round1_proper (q1 q2 : Q) :
  (q1 == q2)%Q → py_round1 q1 = py_round1 q2.
Proof.
  intros H. unfold py_round1. f_equal.
  apply round_half_even_proper. by rewrite H.
Qed.

(** The read loop never raises on a video with a nonzero frame rate
    when the detector does not raise, and it appends one row per decoded
    frame with a detection, numbered in decode order. *)
Lemma read_loop_value (detect : Image → result (option Point))
    (show_preview : bool) (w : World) (rate : Q) :
  ¬ (rate == 0)%Q →
  (∀ img, ∃ r, detect img = Ok r) →
  ∀ (pending : list Image) (n : Z) (rows : list Row),
    read_loop detect show_preview w rate pending n rows
    = Ok (rows ++ Reading.rows_of detect rate n
                    (Reading.decoded show_preview w pending n)).
Proof.
  intros Hrate Hdetect. apply Qeq_bool_false in Hrate.
  induction pending as [|img pending IH]; intros n rows.
  - simpl. by rewrite app_nil_r.
  - cbn [read_loop Reading.decoded Reading.rows_of].
    rewrite (py_truediv_nonzero _ _ Hrate). cbn [mbind result_bind].
    unfold Reading.row_of.
    destruct (Hdetect img) as [r Hr]. rewrite Hr. cbn [mbind result_bind].
    destruct r as [[px py]|].
    + destruct (show_preview && quit_pressed w (n + 1)).
      * done.
      * rewrite IH. by rewrite <- app_assoc.
    + destruct (show_preview && quit_pressed w (n + 1)).
      * simpl. by rewrite app_nil_r.
      * by rewrite IH.
Qed.

(** Every row of [rows_of] carries the number of its frame and the
    time stamp of that number. *)
Lemma rows_of_row (detect : Image → result (option Point)) (rate : Q) :
  ∀ (imgs : list Image) (n : Z),
    Forall (fun r =>
              n < frame r ≤ n + Z.of_nat (length imgs)
              ∧ timestamp_ms r
                = py_round1 (Reading.double_timestamp rate (frame r)))
           (Reading.rows_of detect rate n imgs).
Proof.
  induction imgs as [|img imgs IH]; intros n; [constructor|].
  cbn [Reading.rows_of].
  assert (Htail : Forall (fun r =>
              n < frame r ≤ n + Z.of_nat (length (img :: imgs))
              ∧ timestamp_ms r
                = py_round1 (Reading.double_timestamp rate (frame r)))
           (Reading.rows_of detect rate (n + 1) imgs)).
  { eapply Forall_impl; [apply IH|]. intros r [Hr Ht]. simpl.
    split; [lia|done]. }
  destruct (Reading.row_of detect rate (n + 1) img) as [r|] eqn:Hrow;
    [|done].
  constructor; [|done].
  unfold Reading.row_of in Hrow.
  destruct (detect img) as [[[px py]|]|]; try done.
  injection Hrow as <-. simpl. split; [lia|done].
Qed.

Lemma rows_of_sorted (detect : Image → result (option Point)) (rate : Q) :
  ∀ (imgs : list Image) (n : Z),
    StronglySorted Z.lt (frame <$> Reading.rows_of detect rate n imgs).
Proof.
  induction imgs as [|img imgs IH]; intros n; [constructor|].
  cbn [Reading.rows_of].
  destruct (Reading.row_of detect rate (n + 1) img) as [r|] eqn:Hrow;
    [|apply IH].
  rewrite fmap_cons. constructor; [apply IH|].
  assert (Hr : frame r = n + 1).
  { unfold Reading.row_of in Hrow.
    destruct (detect img) as [[[px py]|]|]; try done.
    by injection Hrow as <-. }
  rewrite Hr. apply Forall_fmap.
  eapply Forall_impl; [apply (rows_of_row detect rate imgs (n + 1))|].
  intros r' [Hr' _]. simpl. lia.
Qed.

End RecorderFacts.

Section Recorder.
Context {cv : OpenCV}.

(** C5, amended.  For a video that reports a nonzero frame rate, the
    recorders produce exactly one row for each decoded frame in which
    the object is detected, in decode order; frames are numbered from 1
    and the number advances on every decoded frame, also on a miss, so
    the frame indices of the rows are strictly increasing; each row's
    time stamp is the product, computed in double precision, of
    (frame index - 1) and the double quotient 1000 / fps, rounded to one
    decimal place.  The tracker's recorder writes these rows to the
    coordinate file when there is at least one. *)
Theorem rows_in_decode_order :
  (∀ (w : World) (video_path : string),
     let cap := VideoCapture w video_path in
     let rows :=
       Reading.rows_of DetectBall.detect_yellow_ball (CAP_PROP_FPS cap) 0
         (Reading.decoded true w (frames cap) 0) in
     ¬ (CAP_PROP_FPS cap == 0)%Q →
     DetectBall.recorded_rows w video_path = Ok rows
     ∧ StronglySorted Z.lt (frame <$> rows)
     ∧ Forall (fun r =>
                 1 ≤ frame r
                 ∧ timestamp_ms r
                   = py_round1
                       (Reading.double_timestamp (CAP_PROP_FPS cap)
                          (frame r))) rows)
  ∧ (∀ (self : UniversalTracker.ColorTracker) (w : World)
       (video_path color_name output_csv : string) (show_preview : bool),
     let cap := VideoCapture w video_path in
     let rows :=
       Reading.rows_of
         (fun img =>
            UniversalTracker.detect_colored_object self img color_name)
         (CAP_PROP_FPS cap) 0
         (Reading.decoded show_preview w (frames cap) 0) in
     ¬ (CAP_PROP_FPS cap == 0)%Q →
     is_Some (UniversalTracker.colors (UniversalTracker.config self)
                !! color_name) →
     UniversalTracker.recorded_rows self w video_path color_name
       show_preview = Ok rows
     ∧ StronglySorted Z.lt (frame <$> rows)
     ∧ Forall (fun r =>
                 1 ≤ frame r
                 ∧ timestamp_ms r
                   = py_round1
                       (Reading.double_timestamp (CAP_PROP_FPS cap)
                          (frame r))) rows
     ∧ (rows ≠ [] →
        UniversalTracker.extract_object_coordinates self w video_path
          color_name (Some output_csv) show_preview
        = Ok (to_csv w output_csv rows, Some output_csv))).
Proof.
  assert (Hrows : ∀ detect rate imgs,
    Forall (fun r =>
              1 ≤ frame r
              ∧ timestamp_ms r
                = py_round1 (Reading.double_timestamp rate (frame r)))
           (Reading.rows_of detect rate 0 imgs)).
  { intros detect rate imgs.
    eapply Forall_impl; [apply (rows_of_row detect rate imgs 0)|].
    intros r [Hr Ht]. simpl. split; [lia|done]. }
  split.
  - intros w video_path cap rows Hrate.
    split; [|split].
    + unfold DetectBall.recorded_rows. fold cap.
      rewrite read_loop_value; [done|done|].
      apply detect_yellow_ball_ok.
    + apply rows_of_sorted.
    + apply Hrows.
  - intros self w video_path color_name output_csv show_preview cap rows
      Hrate [color_config Hcolor].
    assert (Hrun : UniversalTracker.recorded_rows self w video_path
                     color_name show_preview = Ok rows).
    { unfold UniversalTracker.recorded_rows, getitem. fold cap.
      rewrite Hcolor. cbn [mbind result_bind].
      rewrite read_loop_value; [done|done|].
      intros img. apply detect_colored_object_ok. }
    split; [done|]. split; [apply rows_of_sorted|].
    split; [apply Hrows|].
    intros Hne. unfold UniversalTracker.extract_object_coordinates.
    rewrite Hrun. cbn [mbind result_bind default].
    by destruct rows.
Qed.

End Recorder.

Lemma rows_in_decode_order_witness :
  ∃ rows,
    DetectBall.recorded_rows Bench.world "clip.mp4" = Ok rows
    ∧ frame <$> rows = [1; 3].
Proof.
  eexists. split.
  - apply (proj1 (@rows_in_decode_order Bench.cv) Bench.world
             "clip.mp4"%string).
    vm_compute. discriminate.
  - vm_compute. reflexivity.
Defined.

(** C5 as stated fails: at 59.94005994005994 frames per second the
    row of frame 4 carries the time stamp 50.0, the double product
    3 * 16.683333333333334 lying below 50.05, while
    (4 - 1) * 1000 / fps rounded to one decimal place is 50.1. *)
Lemma timestamp_is_not_the_rounded_quotient :
  DetectBall.recorded_rows Bench.world "ntsc.mp4"
  = Ok [ {| frame := 4; timestamp_ms := 500 # 10; x := 9; y := 5 |} ]
  ∧ py_round1 (Frames.exact_timestamp (CAP_PROP_FPS Bench.ntsc_clip) 4)
    = (501 # 10)
  ∧ ¬ (500 # 10 == 501 # 10)%Q.
Proof.
  split; [vm_compute; reflexivity|].
  split; [vm_compute; reflexivity|].
  discriminate.
Qed.

(** ** The configuration *)

Section Configuration.
Context {json : UniversalTracker.JsonCodec}.

(** C9, amended.  Loading a configuration file that is missing, or
    whose text the JSON reader rejects, yields the built-in default
    configuration and raises nothing; a text the JSON reader accepts is
    returned as the value it denotes, whatever its shape, and is not
    replaced by the default configuration; the tracker constructed
    from it has a configuration of the shape the methods read only when
    that value is the dictionary of such a configuration.  Constructing
    a tracker, with or without a configuration file, always succeeds,
    and without one the tracker has the default configuration.  The
    default configuration has the six built-in colours and the
    detection and trajectory settings of the source. *)
Theorem config_falls_back_to_default :
  (∀ (w : World) (config_file : string),
     text_files w !! config_file = None →
     UniversalTracker.load_config w config_file
     = Ok (UniversalTracker.to_json UniversalTracker.default_config))
  ∧ (∀ (w : World) (config_file text : string) (e : exn),
     text_files w !! config_file = Some text →
     UniversalTracker.json_load text = Raise e →
     UniversalTracker.load_config w config_file
     = Ok (UniversalTracker.to_json UniversalTracker.default_config))
  ∧ (∀ (w : World) (config_file text : string)
       (value : UniversalTracker.json_value),
     text_files w !! config_file = Some text →
     UniversalTracker.json_load text = Ok value →
     UniversalTracker.load_config w config_file = Ok value
     ∧ (config_file ≠ EmptyString →
        UniversalTracker.init w (Some config_file)
        = Ok (UniversalTracker.tracker_of value)))
  ∧ (∀ (value : UniversalTracker.json_value)
       (self : UniversalTracker.ColorTracker),
     UniversalTracker.tracker_of value = UniversalTracker.Shaped self
     ↔ value = UniversalTracker.to_json (UniversalTracker.config self))
  ∧ (∀ (w : World) (config_file : option string),
     ∃ tracker, UniversalTracker.init w config_file = Ok tracker)
  ∧ (∀ w : World,
     UniversalTracker.init w None
     = Ok (UniversalTracker.Shaped
             {| UniversalTracker.config :=
                  UniversalTracker.default_config |}))
  ∧ dom (UniversalTracker.colors UniversalTracker.default_config)
    = ({[ "yellow"; "red"; "blue"; "green"; "orange"; "purple" ]}
         : gset string)
  ∧ UniversalTracker.detection UniversalTracker.default_config
    = {| UniversalTracker.min_area := 50;
         UniversalTracker.morphology_kernel_size := 5;
         UniversalTracker.blur_kernel_size := 5 |}
  ∧ UniversalTracker.trajectory UniversalTracker.default_config
    = {| UniversalTracker.line_thickness := 6;
         UniversalTracker.highlight_circle_size := 8;
         UniversalTracker.fps := 60 |}.
Proof.
  assert (Htotal : ∀ w config_file,
            ∃ value, UniversalTracker.load_config w config_file = Ok value).
  { intros w config_file. unfold UniversalTracker.load_config.
    destruct (mbind _ _); by eexists. }
  assert (Hparsed : ∀ w config_file text value,
            text_files w !! config_file = Some text →
            UniversalTracker.json_load text = Ok value →
            UniversalTracker.load_config w config_file = Ok value).
  { intros w config_file text value Hfile Hload.
    unfold UniversalTracker.load_config, open_read.
    rewrite Hfile. cbn [mbind result_bind]. by rewrite Hload. }
  split; [|split; [|split; [|split; [|split; [|split; [|split; [|split]]]]]]].
  - intros w config_file Hfile.
    unfold UniversalTracker.load_config, open_read. by rewrite Hfile.
  - intros w config_file text e Hfile Hload.
    unfold UniversalTracker.load_config, open_read.
    rewrite Hfile. cbn [mbind result_bind]. by rewrite Hload.
  - intros w config_file text value Hfile Hload.
    split; [by apply (Hparsed w config_file text)|].
    intros Hname. unfold UniversalTracker.init, truthy_path.
    rewrite (proj2 (String.eqb_neq config_file EmptyString) Hname).
    cbn [negb]. by rewrite (Hparsed w config_file text value).
  - apply tracker_of_shaped.
  - intros w config_file. unfold UniversalTracker.init.
    destruct config_file as [path|]; [|by eexists].
    destruct (truthy_path (Some path)); [|by eexists].
    destruct (Htotal w path) as [value Hvalue]. rewrite Hvalue.
    by eexists.
  - apply init_without_file.
  - unfold UniversalTracker.default_config.
    cbn [UniversalTracker.colors]. rewrite dom_list_to_map_L.
    unfold UniversalTracker.default_colors.
    rewrite !fmap_cons, fmap_nil. cbn [fst list_to_set]. set_solver.
  - done.
  - done.
Qed.

End Configuration.

(** C9 as stated fails: the document [{}] is malformed as a
    configuration, having none of the three sections, and loading it
    yields the empty dictionary, not the default configuration; the
    tracker constructed from it has no catalog of colours. *)
Lemma malformed_document_is_not_replaced :
  text_files Bench.world !! "empty.json" = Some "{}"%string
  ∧ UniversalTracker.load_config Bench.world "empty.json"
    = Ok (UniversalTracker.JObject ∅)
  ∧ UniversalTracker.JObject ∅
    ≠ UniversalTracker.to_json UniversalTracker.default_config
  ∧ UniversalTracker.of_json (UniversalTracker.JObject ∅) = None
  ∧ UniversalTracker.init Bench.world (Some "empty.json"%string)
    = Ok (UniversalTracker.Unshaped (UniversalTracker.JObject ∅)).
Proof.
  split; [reflexivity|].
  split; [vm_compute; reflexivity|].
  split; [discriminate|].
  split; [vm_compute; reflexivity|].
  vm_compute. reflexivity.
Qed.

Lemma config_falls_back_to_default_witness :
  UniversalTracker.load_config Bench.world "tracker_config.json"
  = Ok (UniversalTracker.to_json UniversalTracker.default_config).
Proof.
  apply (proj1 (@config_falls_back_to_default Bench.json)
           Bench.world "tracker_config.json"%string).
  vm_compute. reflexivity.
Defined.


(** * Further properties of the code *)

(** ** The tracker's colour mask and catalog *)

Section Catalog.
Context {cv : OpenCV}.

(** X1.  Every pixel of the tracker's colour mask is 255 when the
    pixel of the tested image lies inside the profile's range, or, for
    the colour named red, inside the range of hues 170 to 180, and 0
    otherwise; the mask has a pixel exactly where the image has one. *)
Theorem color_mask_pixel (hsv : Image) (color_name : string)
    (color_config : UniversalTracker.ColorConfig) (r c : nat) :
  pixel_at (UniversalTracker.color_mask hsv color_name color_config) r c
  = Frames.mask_value color_name color_config <$> pixel_at hsv r c.
Proof.
  unfold UniversalTracker.color_mask, Frames.mask_value.
  destruct (String.eqb color_name "red").
  - rewrite pixel_at_bitwise_or, !pixel_at_inRange.
    destruct (pixel_at hsv r c) as [px|]; [|done]. cbn -[in_range].
    repeat match goal with
           | |- context [in_range ?lo ?hi px] => destruct (in_range lo hi px)
           end; done.
  - rewrite pixel_at_inRange.
    destruct (pixel_at hsv r c) as [px|]; [|done]. simpl.
    by rewrite orb_false_r.
Qed.

Lemma Qgtb_proper_r (a m1 m2 : Q) : (m1 == m2)%Q → Qgtb a m1 = Qgtb a m2.
Proof.
  intros H. unfold Qgtb. f_equal. apply Bool.eq_iff_eq_true.
  by rewrite !Qle_bool_iff, H.
Qed.

Lemma largest_centroid_proper (m1 m2 : Q) (contours : list Contour) :
  (m1 == m2)%Q →
  largest_centroid m1 contours = largest_centroid m2 contours.
Proof.
  intros H. rewrite !largest_centroid_value.
  destruct (Reading.largest_region contours) as [l|]; [|done].
  by rewrite (Qgtb_proper_r _ _ _ H).
Qed.

(** X2.  A tracker whose yellow profile has the range 15-35 / 50-255 /
    50-255, whose kernel size is 5, whose minimum area is 50 and whose
    blur is switched off (kernel size at most 1) returns for the colour
    yellow, on every frame, what [detect_yellow_ball] returns. *)
Theorem tracker_yellow_is_detect_yellow_ball
    (self : UniversalTracker.ColorTracker) (img : Image)
    (color_config : UniversalTracker.ColorConfig) :
  UniversalTracker.colors (UniversalTracker.config self) !! "yellow"
    = Some color_config →
  UniversalTracker.hsv_range color_config
    = (DetectBall.lower_yellow2, DetectBall.upper_yellow2) →
  UniversalTracker.morphology_kernel_size
    (UniversalTracker.detection (UniversalTracker.config self)) = 5 →
  UniversalTracker.blur_kernel_size
    (UniversalTracker.detection (UniversalTracker.config self)) ≤ 1 →
  (UniversalTracker.min_area
     (UniversalTracker.detection (UniversalTracker.config self)) == 50)%Q →
  UniversalTracker.detect_colored_object self img "yellow"
  = DetectBall.detect_yellow_ball img.
Proof.
  intros Hcolor Hrange Hkernel Hblur Harea.
  rewrite (detect_colored_object_known _ _ _ _ Hcolor).
  rewrite (largest_centroid_proper _ _ _ Harea).
  unfold DetectBall.detect_yellow_ball. f_equal.
  unfold UniversalTracker.contours_of, DetectBall.contours_of,
    UniversalTracker.blurred_hsv, UniversalTracker.color_mask,
    DetectBall.yellow_mask.
  rewrite Hkernel, Hrange. simpl.
  replace (1 <? _) with false by (symmetry; apply Z.ltb_ge; exact Hblur).
  by rewrite bitwise_or_absorb.
Qed.

(** X3.  Adding a custom colour stores the profile under its id, with
    the id as display name when none (or an empty one) is given; it
    leaves every other profile and the detection and trajectory settings
    as they were, and the detector's result for every other colour id is
    unchanged. *)
Theorem add_custom_color_effect (self : UniversalTracker.ColorTracker)
    (color_name : string) (range : Scalar3 * Scalar3)
    (track highlight : Scalar3) (display_name : option string) :
  let self' :=
    UniversalTracker.add_custom_color self color_name range track highlight
      display_name in
  UniversalTracker.colors (UniversalTracker.config self') !! color_name
  = Some {| UniversalTracker.hsv_range := range;
            UniversalTracker.track_color := track;
            UniversalTracker.highlight_color := highlight;
            UniversalTracker.name :=
              match display_name with
              | Some s => if String.eqb s EmptyString then color_name else s
              | None => color_name
              end |}
  ∧ (∀ other, other ≠ color_name →
       UniversalTracker.colors (UniversalTracker.config self') !! other
       = UniversalTracker.colors (UniversalTracker.config self) !! other)
  ∧ UniversalTracker.detection (UniversalTracker.config self')
    = UniversalTracker.detection (UniversalTracker.config self)
  ∧ UniversalTracker.trajectory (UniversalTracker.config self')
    = UniversalTracker.trajectory (UniversalTracker.config self)
  ∧ (∀ (img : Image) other, other ≠ color_name →
       UniversalTracker.detect_colored_object self' img other
       = UniversalTracker.detect_colored_object self img other).
Proof.
  intros self'.
  assert (Hother : ∀ other, other ≠ color_name →
    UniversalTracker.colors (UniversalTracker.config self') !! other
    = UniversalTracker.colors (UniversalTracker.config self) !! other).
  { intros other Hne. subst self'. simpl. by rewrite lookup_insert_ne. }
  split; [|split; [done|split; [done|split; [done|]]]].
  - subst self'. simpl. by rewrite lookup_insert_eq.
  - intros img other Hne. specialize (Hother other Hne).
    destruct (UniversalTracker.colors (UniversalTracker.config self)
                !! other) as [color_config|] eqn:Hc.
    + rewrite (detect_colored_object_known self' img other color_config)
        by done.
      by rewrite (detect_colored_object_known self img other color_config).
    + rewrite (detect_colored_object_unknown self' img other) by done.
      by rewrite (detect_colored_object_unknown self img other).
Qed.

End Catalog.

Lemma tracker_yellow_is_detect_yellow_ball_witness :
  UniversalTracker.detect_colored_object Examples.sharp_tracker
    Bench.frame_area_55 "yellow"
  = DetectBall.detect_yellow_ball Bench.frame_area_55.
Proof.
  apply (@tracker_yellow_is_detect_yellow_ball Bench.cv Examples.sharp_tracker
           Bench.frame_area_55 Bench.yellow_profile).
  - vm_compute. reflexivity.
  - reflexivity.
  - reflexivity.
  - vm_compute. discriminate.
  - reflexivity.
Defined.

Lemma add_custom_color_effect_witness :
  UniversalTracker.detect_colored_object
    (UniversalTracker.add_custom_color Bench.default_tracker "pink"
       ((160, 100, 100), (180, 255, 255)) (255, 192, 203) (255, 20, 147)
       None)
    Bench.frame_wide "yellow"
  = UniversalTracker.detect_colored_object Bench.default_tracker
      Bench.frame_wide "yellow".
Proof.
  apply (@add_custom_color_effect Bench.cv Bench.default_tracker
           "pink"%string ((160, 100, 100), (180, 255, 255)) (255, 192, 203)
           (255, 20, 147) None).
  discriminate.
Defined.

(** ** Errors and effects of the recorders *)

Section RecorderEdges.
Context {cv : OpenCV}.

(** X4.  For a colour id that is not in the catalog the detector
    reports "not found" on every frame, while the recorder raises
    [KeyError] whatever the video, and the renderer raises [KeyError] once
    it has read the coordinate file. *)
Theorem unknown_colour_behaviour (self : UniversalTracker.ColorTracker)
    (w : World) (color_name : string) :
  UniversalTracker.colors (UniversalTracker.config self) !! color_name = None →
  (∀ img : Image,
     UniversalTracker.detect_colored_object self img color_name = Ok None)
  ∧ (∀ (video_path : string) (output_csv : option string)
       (show_preview : bool),
     UniversalTracker.extract_object_coordinates self w video_path color_name
       output_csv show_preview = Raise KeyError)
  ∧ (∀ (csv_path : string) (original_video_path output_path : option string)
       (custom_line_thickness custom_circle_size : option Z),
     is_Some (csv_files w !! csv_path) →
     UniversalTracker.create_trajectory_video self w csv_path color_name
       original_video_path output_path custom_line_thickness
       custom_circle_size = Raise KeyError).
Proof.
  intros Hc. split; [|split].
  - intros img. by apply detect_colored_object_unknown.
  - intros video_path output_csv show_preview.
    unfold UniversalTracker.extract_object_coordinates,
      UniversalTracker.recorded_rows, getitem.
    by rewrite Hc.
  - intros csv_path ovp output_path clt ccs [df Hdf].
    unfold UniversalTracker.create_trajectory_video, read_csv, getitem.
    by rewrite Hdf, Hc.
Qed.

Lemma read_loop_zero_rate (detect : Image → result (option Point))
    (show_preview : bool) (w : World) (rate : Q) (img : Image)
    (pending : list Image) (n : Z) (rows : list Row) :
  (rate == 0)%Q →
  read_loop detect show_preview w rate (img :: pending) n rows
  = Raise ZeroDivisionError.
Proof.
  intros Hrate. apply Qeq_bool_iff in Hrate.
  cbn [read_loop]. unfold py_truediv. by rewrite Hrate.
Qed.

(** X5.  A video that reports a frame rate of zero and delivers at
    least one frame makes both recorders raise [ZeroDivisionError], before
    the first frame is examined; no coordinate file is written. *)
Theorem zero_frame_rate_raises :
  (∀ (w : World) (video_path output_csv : string),
     (CAP_PROP_FPS (VideoCapture w video_path) == 0)%Q →
     frames (VideoCapture w video_path) ≠ [] →
     DetectBall.extract_ball_coordinates w video_path output_csv
     = Raise ZeroDivisionError)
  ∧ (∀ (self : UniversalTracker.ColorTracker) (w : World)
       (video_path color_name : string) (output_csv : option string)
       (show_preview : bool),
     (CAP_PROP_FPS (VideoCapture w video_path) == 0)%Q →
     frames (VideoCapture w video_path) ≠ [] →
     is_Some (UniversalTracker.colors (UniversalTracker.config self)
                !! color_name) →
     UniversalTracker.extract_object_coordinates self w video_path color_name
       output_csv show_preview = Raise ZeroDivisionError).
Proof.
  split.
  - intros w video_path output_csv Hrate Hframes.
    unfold DetectBall.extract_ball_coordinates, DetectBall.recorded_rows.
    destruct (frames (VideoCapture w video_path)) as [|img pending]; [done|].
    by rewrite read_loop_zero_rate.
  - intros self w video_path color_name output_csv show_preview Hrate
      Hframes [color_config Hc].
    unfold UniversalTracker.extract_object_coordinates,
      UniversalTracker.recorded_rows, getitem.
    rewrite Hc. cbn [mbind result_bind].
    destruct (frames (VideoCapture w video_path)) as [|img pending]; [done|].
    by rewrite read_loop_zero_rate.
Qed.

Lemma decoded_length (show_preview : bool) (w : World) :
  ∀ (pending : list Image) (n : Z),
    (length (Reading.decoded show_preview w pending n) ≤ length pending)%nat.
Proof.
  induction pending as [|img pending IH]; intros n; [done|].
  cbn [Reading.decoded length].
  destruct (show_preview && quit_pressed w (n + 1)); simpl; [lia|].
  specialize (IH (n + 1)). lia.
Qed.

(** With the preview on, nothing is decoded after the frame during
    which [q] is pressed. *)
Lemma decoded_until_quit (w : World) (k : Z) :
  quit_pressed w k = true →
  ∀ (pending : list Image) (n : Z),
    n < k →
    Z.of_nat (length (Reading.decoded true w pending n)) ≤ k - n.
Proof.
  intros Hquit. induction pending as [|img pending IH]; intros n Hn.
  - simpl. lia.
  - cbn [Reading.decoded length andb].
    destruct (quit_pressed w (n + 1)) eqn:Hq.
    + simpl. lia.
    + assert (n + 1 ≠ k) by (intros Heq; rewrite Heq in Hq; congruence).
      specialize (IH (n + 1) ltac:(lia)).
      cbn [length]. lia.
Qed.

Lemma rows_of_length (detect : Image → result (option Point)) (rate : Q) :
  ∀ (imgs : list Image) (n : Z),
    (length (Reading.rows_of detect rate n imgs) ≤ length imgs)%nat.
Proof.
  induction imgs as [|img imgs IH]; intros n; [done|].
  cbn [Reading.rows_of]. specialize (IH (n + 1)).
  destruct (Reading.row_of detect rate (n + 1) img); simpl; lia.
Qed.

(** Whenever the read loop returns, it returns the rows of the frames
    it decoded. *)
Lemma read_loop_ok (detect : Image → result (option Point))
    (show_preview : bool) (w : World) (rate : Q) (pending : list Image)
    (rows : list Row) :
  (∀ img, ∃ r, detect img = Ok r) →
  read_loop detect show_preview w rate pending 0 [] = Ok rows →
  rows = Reading.rows_of detect rate 0
           (Reading.decoded show_preview w pending 0).
Proof.
  intros Hdetect Hrun.
  destruct (Qeq_bool rate 0) eqn:Hrate.
  - apply Qeq_bool_iff in Hrate.
    destruct pending as [|img pending].
    + simpl in Hrun. by injection Hrun as <-.
    + by rewrite read_loop_zero_rate in Hrun.
  - apply Qeq_bool_false in Hrate.
    rewrite read_loop_value in Hrun by done.
    by injection Hrun as <-.
Qed.

(** The facts about [rows_of] that the next statement collects. *)
Lemma rows_of_decoded_bounds (detect : Image → result (option Point))
    (show_preview : bool) (w : World) (rate : Q) (pending : list Image) :
  let rows :=
    Reading.rows_of detect rate 0 (Reading.decoded show_preview w pending 0) in
  (length rows ≤ length pending)%nat
  ∧ Forall (fun r => 1 ≤ frame r ≤ Z.of_nat (length pending)) rows
  ∧ (show_preview = true →
     ∀ k, quit_pressed w k = true → 1 ≤ k →
          Forall (fun r => frame r ≤ k) rows).
Proof.
  intros rows. subst rows.
  pose proof (decoded_length show_preview w pending 0) as Hlen.
  split; [|split].
  - etrans; [apply rows_of_length|done].
  - eapply Forall_impl; [apply rows_of_row|].
    intros r [Hr _]. simpl in Hr. lia.
  - intros -> k Hquit Hk.
    pose proof (decoded_until_quit w k Hquit pending 0 ltac:(lia)) as Hk'.
    eapply Forall_impl; [apply rows_of_row|].
    intros r [Hr _]. simpl in Hr. lia.
Qed.

(** X6.  Whenever a recorder returns, its log has at most one row per
    frame of the video and every row's frame index lies between 1 and the
    number of frames; with the preview on, once [q] is pressed during
    frame [k] no row has a frame index above [k]. *)
Theorem rows_within_decoded_frames :
  (∀ (w : World) (video_path : string) (rows : list Row),
     DetectBall.recorded_rows w video_path = Ok rows →
     let total := length (frames (VideoCapture w video_path)) in
     (length rows ≤ total)%nat
     ∧ Forall (fun r => 1 ≤ frame r ≤ Z.of_nat total) rows
     ∧ ∀ k, quit_pressed w k = true → 1 ≤ k →
            Forall (fun r => frame r ≤ k) rows)
  ∧ (∀ (self : UniversalTracker.ColorTracker) (w : World)
       (video_path color_name : string) (show_preview : bool)
       (rows : list Row),
     UniversalTracker.recorded_rows self w video_path color_name show_preview
     = Ok rows →
     let total := length (frames (VideoCapture w video_path)) in
     (length rows ≤ total)%nat
     ∧ Forall (fun r => 1 ≤ frame r ≤ Z.of_nat total) rows
     ∧ (show_preview = true →
        ∀ k, quit_pressed w k = true → 1 ≤ k →
             Forall (fun r => frame r ≤ k) rows)).
Proof.
  split.
  - intros w video_path rows Hrun total.
    unfold DetectBall.recorded_rows in Hrun.
    apply read_loop_ok in Hrun; [|apply detect_yellow_ball_ok].
    subst rows.
    destruct (rows_of_decoded_bounds DetectBall.detect_yellow_ball true w
                (CAP_PROP_FPS (VideoCapture w video_path))
                (frames (VideoCapture w video_path))) as (H1 & H2 & H3).
    split; [done|]. split; [done|]. by apply H3.
  - intros self w video_path color_name show_preview rows Hrun total.
    unfold UniversalTracker.recorded_rows, getitem in Hrun.
    destruct (UniversalTracker.colors (UniversalTracker.config self)
                !! color_name); [|done].
    cbn [mbind result_bind] in Hrun.
    apply read_loop_ok in Hrun;
      [|intros img; apply detect_colored_object_ok].
    subst rows. apply rows_of_decoded_bounds.
Qed.

(** X7.  When the tracker's recorder returns, either the log is empty,
    nothing was written and no path is returned, or the log is written
    under the given name (by default detected_<colour>_coordinates.csv),
    that name is returned, reading the file back gives the log, and every
    other file is as before.  The yellow-ball recorder writes its file in
    the same way. *)
Theorem recorder_file_effects :
  (∀ (self : UniversalTracker.ColorTracker) (w w' : World)
     (video_path color_name : string) (output_csv : option string)
     (show_preview : bool) (ret : option string),
     UniversalTracker.extract_object_coordinates self w video_path color_name
       output_csv show_preview = Ok (w', ret) →
     let path :=
       default ("detected_" +:+ color_name +:+ "_coordinates.csv")%string
               output_csv in
     ∃ rows,
       UniversalTracker.recorded_rows self w video_path color_name
         show_preview = Ok rows
       ∧ ((rows = [] ∧ ret = None ∧ w' = w)
          ∨ (rows ≠ [] ∧ ret = Some path
             ∧ read_csv w' path = Ok rows
             ∧ (∀ other, other ≠ path →
                  csv_files w' !! other = csv_files w !! other)
             ∧ video_files w' = video_files w
             ∧ text_files w' = text_files w)))
  ∧ (∀ (w w' : World) (video_path output_csv : string),
     DetectBall.extract_ball_coordinates w video_path output_csv = Ok w' →
     ∃ rows,
       DetectBall.recorded_rows w video_path = Ok rows
       ∧ ((rows = [] ∧ w' = w)
          ∨ (rows ≠ []
             ∧ read_csv w' output_csv = Ok rows
             ∧ (∀ other, other ≠ output_csv →
                  csv_files w' !! other = csv_files w !! other)
             ∧ video_files w' = video_files w
             ∧ text_files w' = text_files w))).
Proof.
  assert (Hwritten : ∀ (w : World) (path : string) (rows : list Row),
    read_csv (to_csv w path rows) path = Ok rows
    ∧ (∀ other, other ≠ path →
         csv_files (to_csv w path rows) !! other = csv_files w !! other)
    ∧ video_files (to_csv w path rows) = video_files w
    ∧ text_files (to_csv w path rows) = text_files w).
  { intros w path rows. unfold read_csv, to_csv. simpl.
    rewrite lookup_insert_eq. split; [done|]. split; [|done].
    intros other Hne. by rewrite lookup_insert_ne. }
  split.
  - intros self w w' video_path color_name output_csv show_preview ret Hrun
      path.
    unfold UniversalTracker.extract_object_coordinates in Hrun.
    destruct (UniversalTracker.recorded_rows self w video_path color_name
                show_preview) as [rows|e]; [|done].
    exists rows. split; [done|]. cbn [mbind result_bind] in Hrun.
    destruct rows as [|r rows]; injection Hrun as <- <-.
    + by left.
    + right. split; [done|]. split; [done|]. apply Hwritten.
  - intros w w' video_path output_csv Hrun.
    unfold DetectBall.extract_ball_coordinates in Hrun.
    destruct (DetectBall.recorded_rows w video_path) as [rows|e]; [|done].
    exists rows. split; [done|]. cbn [mbind result_bind] in Hrun.
    destruct rows as [|r rows]; injection Hrun as <-.
    + by left.
    + right. split; [done|]. apply Hwritten.
Qed.

End RecorderEdges.

Section ConfigFiles.
Context {json : UniversalTracker.JsonCodec}.

(** X8.  For a configuration that the JSON reader reads back from the
    text the JSON writer produces for it, saving the configuration under
    a non-empty name and constructing a tracker from that file gives the
    same tracker; saving touches no other file. *)
Theorem save_then_load_config (self : UniversalTracker.ColorTracker)
    (w : World) (config_file : string) :
  UniversalTracker.json_load
    (UniversalTracker.json_dump
       (UniversalTracker.to_json (UniversalTracker.config self)))
  = Ok (UniversalTracker.to_json (UniversalTracker.config self)) →
  config_file ≠ EmptyString →
  let w' := UniversalTracker.save_config self w config_file in
  UniversalTracker.init w' (Some config_file)
  = Ok (UniversalTracker.Shaped self)
  ∧ (∀ other, other ≠ config_file →
       text_files w' !! other = text_files w !! other)
  ∧ csv_files w' = csv_files w
  ∧ video_files w' = video_files w.
Proof.
  intros Hcodec Hname w'. split; [|split; [|done]].
  - unfold UniversalTracker.init, truthy_path.
    rewrite (proj2 (String.eqb_neq config_file EmptyString) Hname).
    cbn [negb].
    unfold UniversalTracker.load_config, open_read. subst w'.
    unfold UniversalTracker.save_config, write_text. cbn [text_files].
    rewrite lookup_insert_eq. cbn [mbind result_bind]. rewrite Hcodec.
    cbn [mbind result_bind]. by rewrite tracker_of_to_json.
  - intros other Hne. subst w'.
    unfold UniversalTracker.save_config, write_text. cbn [text_files].
    by rewrite lookup_insert_ne.
Qed.

End ConfigFiles.

Lemma unknown_colour_behaviour_witness :
  UniversalTracker.extract_object_coordinates Bench.default_tracker
    Examples.world "clip.mp4" "pink" None false = Raise KeyError.
Proof.
  apply (proj1 (proj2 (@unknown_colour_behaviour Bench.cv
                         Bench.default_tracker Examples.world "pink"%string
                         ltac:(vm_compute; reflexivity)))).
Defined.

Lemma zero_frame_rate_raises_witness :
  DetectBall.extract_ball_coordinates Examples.world "still.mp4" "out.csv"
  = Raise ZeroDivisionError.
Proof.
  apply (proj1 (@zero_frame_rate_raises Bench.cv)).
  - vm_compute. reflexivity.
  - vm_compute. discriminate.
Defined.

Lemma rows_within_decoded_frames_witness :
  ∃ rows,
    DetectBall.recorded_rows Examples.quitting_world "clip.mp4" = Ok rows
    ∧ Forall (fun r => frame r ≤ 2) rows.
Proof.
  eexists. split; [vm_compute; reflexivity|].
  apply (proj1 (@rows_within_decoded_frames Bench.cv)
           Examples.quitting_world "clip.mp4"%string).
  - vm_compute. reflexivity.
  - reflexivity.
  - lia.
Defined.

Lemma recorder_file_effects_witness :
  ∃ rows,
    UniversalTracker.recorded_rows Bench.default_tracker Examples.world
      "clip.mp4" "yellow" false = Ok rows.
Proof.
  destruct (proj1 (@recorder_file_effects Bench.cv) Bench.default_tracker
              Examples.world
              (to_csv Examples.world "detected_yellow_coordinates.csv"
                 [ {| frame := 1; timestamp_ms := 0 # 10; x := 9; y := 5 |};
                   {| frame := 3; timestamp_ms := 667 # 10; x := 9; y := 5 |} ])
              "clip.mp4"%string "yellow"%string None false
              (Some "detected_yellow_coordinates.csv"%string))
    as (rows & Hrows & _).
  - vm_compute. reflexivity.
  - exists rows. exact Hrows.
Defined.

Lemma save_then_load_config_witness :
  UniversalTracker.init
    (UniversalTracker.save_config Bench.default_tracker Examples.world
       "tracker_config.json")
    (Some "tracker_config.json"%string)
  = Ok (UniversalTracker.Shaped Bench.default_tracker).
Proof.
  apply (@save_then_load_config Bench.json Bench.default_tracker
           Examples.world "tracker_config.json"%string).
  - vm_compute. reflexivity.
  - discriminate.
Defined.

(** ** The points and backgrounds of the overlay renderers *)

Section OverlayPoints.
Context {cv : OpenCV}.

Lemma in_canvas_bounds (width height : Z) (p : Point) :
  in_canvas width height p = true ↔ 0 ≤ p.1 < width ∧ 0 ≤ p.2 < height.
Proof.
  unfold in_canvas. rewrite !andb_true_iff, !Z.leb_le, !Z.ltb_lt. lia.
Qed.

(** X9.  At every output step of the overlay renderers each point of
    the point list lies inside the canvas, and the point list is the
    log's points of the rows seen so far with some left out: the points
    that remain keep their order. *)
Theorem overlay_points_inside_and_ordered (width height : Z)
    (df : DataFrame) (i : nat) :
  (i < length df)%nat →
  ∃ points,
    trajectory_points (in_canvas width height) df i = Ok points
    ∧ Forall (fun p => 0 ≤ p.1 < width ∧ 0 ≤ p.2 < height) points
    ∧ points `sublist_of` (Frames.xy <$> take (S i) df).
Proof.
  intros Hi. eexists. split; [by apply trajectory_points_value|].
  unfold Reading.points_by_position. split.
  - apply Forall_forall. intros p Hp.
    apply list_elem_of_filter in Hp as [Hp _].
    by apply in_canvas_bounds.
  - apply sublist_filter.
Qed.

(** X10.  While the source video lasts, output frame [i] of the
    overlay renderers is drawn on the [i]-th frame of the source, by
    position, whatever frame index row [i] of the log carries. *)
Theorem overlay_uses_source_frame_by_position :
  (∀ (self : UniversalTracker.ColorTracker) (w : World)
     (csv_path color_name : string) (ovp : option string) (p : string)
     (output_path : option string)
     (custom_line_thickness custom_circle_size : option Z)
     (df : DataFrame) (color_config : UniversalTracker.ColorConfig),
     read_csv w csv_path = Ok df →
     UniversalTracker.colors (UniversalTracker.config self) !! color_name
       = Some color_config →
     usable_source w ovp = Some p →
     ∃ path vid,
       UniversalTracker.create_trajectory_video self w csv_path color_name
         ovp output_path custom_line_thickness custom_circle_size
       = Ok (path, vid)
       ∧ ∀ (i : nat) row bg,
           df !! i = Some row →
           frames (VideoCapture w p) !! i = Some bg →
           frames vid !! i
           = Some (Reading.overlay_frame df
                     (CAP_PROP_FRAME_WIDTH (VideoCapture w p))
                     (CAP_PROP_FRAME_HEIGHT (VideoCapture w p))
                     (UniversalTracker.track_color color_config)
                     (py_or custom_line_thickness
                        (UniversalTracker.line_thickness
                           (UniversalTracker.trajectory
                              (UniversalTracker.config self))))
                     (UniversalTracker.highlight_color color_config)
                     (py_or custom_circle_size
                        (UniversalTracker.highlight_circle_size
                           (UniversalTracker.trajectory
                              (UniversalTracker.config self))))
                     bg i row))
  ∧ (∀ (w : World) (csv_path : string) (ovp : option string) (p : string)
       (output_path : string) (df : DataFrame),
     read_csv w csv_path = Ok df →
     usable_source w ovp = Some p →
     ∃ path vid,
       BallTrajectoryVideo.create_trajectory_overlay_video w csv_path ovp
         output_path = Ok (path, vid)
       ∧ ∀ (i : nat) row bg,
           df !! i = Some row →
           frames (VideoCapture w p) !! i = Some bg →
           frames vid !! i
           = Some (Reading.overlay_frame df
                     (CAP_PROP_FRAME_WIDTH (VideoCapture w p))
                     (CAP_PROP_FRAME_HEIGHT (VideoCapture w p))
                     (0, 255, 0) 6 (0, 255, 255) 8 bg i row)).
Proof.
  split.
  - intros self w csv_path color_name ovp p output_path clt ccs df
      color_config Hcsv Hcolor Hsrc.
    destruct (tracker_overlay_value self w csv_path color_name ovp p
                output_path clt ccs df color_config Hcsv Hcolor Hsrc)
      as (path & vid & Hrun & _ & Hat).
    exists path, vid. split; [done|].
    intros i row bg Hrow Hbg. rewrite (Hat i row Hrow).
    unfold Reading.background. by rewrite Hbg.
  - intros w csv_path ovp p output_path df Hcsv Hsrc.
    destruct (ball_overlay_value w csv_path ovp p output_path df Hcsv Hsrc)
      as (path & vid & Hrun & _ & Hat).
    exists path, vid. split; [done|].
    intros i row bg Hrow Hbg. rewrite (Hat i row Hrow).
    unfold Reading.background. by rewrite Hbg.
Qed.

End OverlayPoints.

Lemma overlay_points_inside_and_ordered_witness :
  ∃ points,
    trajectory_points (in_canvas 300 210) Examples.far_log 1 = Ok points
    ∧ Forall (fun p => 0 ≤ p.1 < 300 ∧ 0 ≤ p.2 < 210) points.
Proof.
  destruct (overlay_points_inside_and_ordered 300 210 Examples.far_log 1)
    as (points & Hrun & Hin & _).
  - simpl. lia.
  - exists points. split; [exact Hrun | exact Hin].
Defined.

Lemma overlay_uses_source_frame_by_position_witness :
  ∃ path vid,
    BallTrajectoryVideo.create_trajectory_overlay_video Examples.world
      "two.csv" (Some "clip.mp4"%string) "out.mp4" = Ok (path, vid)
    ∧ frames vid !! 1%nat
      = Some (Reading.overlay_frame Bench.log_two_rows 16 12 (0, 255, 0) 6
                (0, 255, 255) 8 Bench.black_frame 1
                {| frame := 2; timestamp_ms := 33.3; x := 5; y := 6 |}).
Proof.
  destruct (proj2 (@overlay_uses_source_frame_by_position Bench.cv)
              Examples.world "two.csv"%string (Some "clip.mp4"%string)
              "clip.mp4"%string "out.mp4"%string Bench.log_two_rows)
    as (path & vid & Hrun & Hat).
  - vm_compute. reflexivity.
  - vm_compute. reflexivity.
  - exists path, vid. split; [exact Hrun|].
    apply (Hat 1%nat {| frame := 2; timestamp_ms := 33.3; x := 5; y := 6 |}
             Bench.black_frame); vm_compute; reflexivity.
Defined.

(** ** Rendering without a source video *)

Section ColumnFacts.

Lemma foldl_max_spec (col : list Z) :
  ∀ v, let m := foldl Z.max v col in
       (m = v ∨ m ∈ col) ∧ v ≤ m ∧ Forall (fun a => a ≤ m) col.
Proof.
  induction col as [|a col IH]; intros v; simpl.
  - split; [by left|]. split; [lia|constructor].
  - destruct (IH (Z.max v a)) as (Hin & Hle & Hall).
    split; [|split; [lia|]].
    + destruct Hin as [Heq|Hin]; [|right; by right].
      rewrite Heq.
      destruct (Z.max_spec v a) as [[_ ->]|[_ ->]]; [right; by left|by left].
    + constructor; [lia|done].
Qed.

Lemma foldl_min_spec (col : list Z) :
  ∀ v, let m := foldl Z.min v col in
       (m = v ∨ m ∈ col) ∧ m ≤ v ∧ Forall (fun a => m ≤ a) col.
Proof.
  induction col as [|a col IH]; intros v; simpl.
  - split; [by left|]. split; [lia|constructor].
  - destruct (IH (Z.min v a)) as (Hin & Hle & Hall).
    split; [|split; [lia|]].
    + destruct Hin as [Heq|Hin]; [|right; by right].
      rewrite Heq.
      destruct (Z.min_spec v a) as [[_ ->]|[_ ->]]; [by left|right; by left].
    + constructor; [lia|done].
Qed.

Lemma series_max_spec (col : list Z) :
  col ≠ [] → ∃ m, series_max col = Some m ∧ Column.is_max col m.
Proof.
  destruct col as [|v col]; [done|]. intros _. eexists. split; [done|].
  destruct (foldl_max_spec col v) as (Hin & Hle & Hall).
  split; [|by constructor].
  destruct Hin as [->|Hin]; [by left|by right].
Qed.

Lemma series_min_spec (col : list Z) :
  col ≠ [] → ∃ m, series_min col = Some m ∧ Column.is_min col m.
Proof.
  destruct col as [|v col]; [done|]. intros _. eexists. split; [done|].
  destruct (foldl_min_spec col v) as (Hin & Hle & Hall).
  split; [|by constructor].
  destruct Hin as [->|Hin]; [by left|by right].
Qed.

Lemma is_max_unique (col : list Z) (m1 m2 : Z) :
  Column.is_max col m1 → Column.is_max col m2 → m1 = m2.
Proof.
  intros [Hin1 Hall1] [Hin2 Hall2].
  rewrite Forall_forall in Hall1, Hall2.
  specialize (Hall1 m2 Hin2). specialize (Hall2 m1 Hin1). lia.
Qed.

Lemma is_min_le_max (col : list Z) (lo hi : Z) :
  Column.is_min col lo → Column.is_max col hi → lo ≤ hi.
Proof.
  intros [Hin Hall] [_ Hall']. rewrite Forall_forall in Hall'.
  by apply Hall'.
Qed.

Lemma fmap_nonempty {A B} (f : A → B) (l : list A) : l ≠ [] → f <$> l ≠ [].
Proof. by destruct l. Qed.

End ColumnFacts.

Section Standalone.
Context {cv : OpenCV}.

(** The tracker's renderer when no usable source video is given. *)
Lemma tracker_standalone_value (self : UniversalTracker.ColorTracker)
    (w : World) (csv_path color_name : string) (ovp : option string)
    (output_path : option string)
    (custom_line_thickness custom_circle_size : option Z)
    (df : DataFrame) (color_config : UniversalTracker.ColorConfig) :
  read_csv w csv_path = Ok df →
  df ≠ [] →
  UniversalTracker.colors (UniversalTracker.config self) !! color_name
    = Some color_config →
  usable_source w ovp = None →
  ∃ path vid xmin xmax ymin ymax,
    UniversalTracker.create_trajectory_video self w csv_path color_name ovp
      output_path custom_line_thickness custom_circle_size = Ok (path, vid)
    ∧ Column.is_min (x <$> df) xmin ∧ Column.is_max (x <$> df) xmax
    ∧ Column.is_min (y <$> df) ymin ∧ Column.is_max (y <$> df) ymax
    ∧ CAP_PROP_FRAME_WIDTH vid = xmax - xmin + 200
    ∧ CAP_PROP_FRAME_HEIGHT vid = ymax - ymin + 200
    ∧ CAP_PROP_FPS vid
      = UniversalTracker.fps
          (UniversalTracker.trajectory (UniversalTracker.config self))
    ∧ length (frames vid) = length df
    ∧ ∀ (i : nat) row,
        df !! i = Some row →
        frames vid !! i
        = Some (Reading.overlay_frame df (xmax - xmin + 200)
                  (ymax - ymin + 200)
                  (UniversalTracker.track_color color_config)
                  (py_or custom_line_thickness
                     (UniversalTracker.line_thickness
                        (UniversalTracker.trajectory
                           (UniversalTracker.config self))))
                  (UniversalTracker.highlight_color color_config)
                  (py_or custom_circle_size
                     (UniversalTracker.highlight_circle_size
                        (UniversalTracker.trajectory
                           (UniversalTracker.config self))))
                  (np_zeros (ymax - ymin + 200) (xmax - xmin + 200)) i row).
Proof.
  intros Hcsv Hne Hcolor Hsrc.
  destruct (series_max_spec (x <$> df)) as (xmax & Hxmax & Hxmax');
    [by apply fmap_nonempty|].
  destruct (series_min_spec (x <$> df)) as (xmin & Hxmin & Hxmin');
    [by apply fmap_nonempty|].
  destruct (series_max_spec (y <$> df)) as (ymax & Hymax & Hymax');
    [by apply fmap_nonempty|].
  destruct (series_min_spec (y <$> df)) as (ymin & Hymin & Hymin');
    [by apply fmap_nonempty|].
  unfold UniversalTracker.create_trajectory_video, getitem.
  rewrite Hcsv, Hcolor, Hsrc. cbn [mbind result_bind].
  rewrite Hxmax, Hxmin.
  cbn [mbind result_bind option_bind nan_sub py_int_nan].
  rewrite Hymax, Hymin.
  cbn [mbind result_bind option_bind nan_sub py_int_nan].
  destruct (overlay_loop_seq df (xmax - xmin + 200) (ymax - ymin + 200)
              (UniversalTracker.track_color color_config)
              (py_or custom_line_thickness
                 (UniversalTracker.line_thickness
                    (UniversalTracker.trajectory
                       (UniversalTracker.config self))))
              (UniversalTracker.highlight_color color_config)
              (py_or custom_circle_size
                 (UniversalTracker.highlight_circle_size
                    (UniversalTracker.trajectory
                       (UniversalTracker.config self))))
              (length df) 0%nat None [])
    as (out & Hout & Hn & Hat); [simpl; lia|].
  rewrite Hout. cbn [mbind result_bind app].
  eexists _, _, xmin, xmax, ymin, ymax. split; [reflexivity|].
  do 4 (split; [done|]). simpl. do 3 (split; [done|]). split; [done|].
  intros i row Hrow. apply (Hat i row); [|done].
  by apply lookup_lt_Some in Hrow.
Qed.

(** The overlay renderer of ball_trajectory_video.py without a path. *)
Lemma ball_standalone_value (w : World) (csv_path output_path : string)
    (ovp : option string) (df : DataFrame) :
  read_csv w csv_path = Ok df →
  df ≠ [] →
  truthy_path ovp = false →
  ∃ vid xmin xmax ymin ymax,
    BallTrajectoryVideo.create_trajectory_overlay_video w csv_path ovp
      output_path = Ok (output_path, vid)
    ∧ Column.is_min (x <$> df) xmin ∧ Column.is_max (x <$> df) xmax
    ∧ Column.is_min (y <$> df) ymin ∧ Column.is_max (y <$> df) ymax
    ∧ CAP_PROP_FRAME_WIDTH vid = xmax - xmin + 200
    ∧ CAP_PROP_FRAME_HEIGHT vid = ymax - ymin + 200
    ∧ CAP_PROP_FPS vid = 60%Q
    ∧ length (frames vid) = length df
    ∧ ∀ (i : nat) row,
        df !! i = Some row →
        frames vid !! i
        = Some (Reading.overlay_frame df (xmax - xmin + 200)
                  (ymax - ymin + 200) (0, 255, 0) 6 (0, 255, 255) 8
                  (np_zeros (ymax - ymin + 200) (xmax - xmin + 200)) i row).
Proof.
  intros Hcsv Hne Htruthy.
  destruct (series_max_spec (x <$> df)) as (xmax & Hxmax & Hxmax');
    [by apply fmap_nonempty|].
  destruct (series_min_spec (x <$> df)) as (xmin & Hxmin & Hxmin');
    [by apply fmap_nonempty|].
  destruct (series_max_spec (y <$> df)) as (ymax & Hymax & Hymax');
    [by apply fmap_nonempty|].
  destruct (series_min_spec (y <$> df)) as (ymin & Hymin & Hymin');
    [by apply fmap_nonempty|].
  assert (Hsrc : usable_source w ovp = None).
  { unfold usable_source. destruct ovp as [p|]; [|done].
    by rewrite Htruthy. }
  unfold BallTrajectoryVideo.create_trajectory_overlay_video.
  rewrite Hcsv, Hsrc. cbn [mbind result_bind].
  rewrite Hxmax, Hxmin.
  cbn [mbind result_bind option_bind nan_sub py_int_nan].
  rewrite Hymax, Hymin.
  cbn [mbind result_bind option_bind nan_sub py_int_nan].
  destruct (overlay_loop_seq df (xmax - xmin + 200) (ymax - ymin + 200)
              (0, 255, 0) 6 (0, 255, 255) 8 (length df) 0%nat None [])
    as (out & Hout & Hn & Hat); [simpl; lia|].
  rewrite Hout. cbn [mbind result_bind app]. rewrite Htruthy. cbn [andb].
  eexists _, xmin, xmax, ymin, ymax. split; [reflexivity|].
  do 4 (split; [done|]). simpl. do 3 (split; [done|]). split; [done|].
  intros i row Hrow. apply (Hat i row); [|done].
  by apply lookup_lt_Some in Hrow.
Qed.

(** X11.  On a log of at least one row the tracker's renderer succeeds
    without a usable source video (no path, an empty path, or a path
    that does not exist), and the overlay renderer of
    ball_trajectory_video.py succeeds when no path or an empty path is
    given: the canvas measures the extent of the x and of the y column
    plus 200 (so at least 200 x 200), the frame rate is the configured
    one (60 in ball_trajectory_video.py), and one frame per row is
    written, each drawn on an all-zero canvas. *)
Theorem standalone_canvas_from_extent :
  (∀ (self : UniversalTracker.ColorTracker) (w : World)
     (csv_path color_name : string) (ovp : option string)
     (output_path : option string)
     (custom_line_thickness custom_circle_size : option Z)
     (df : DataFrame) (color_config : UniversalTracker.ColorConfig),
     read_csv w csv_path = Ok df →
     df ≠ [] →
     UniversalTracker.colors (UniversalTracker.config self) !! color_name
       = Some color_config →
     usable_source w ovp = None →
     ∃ path vid xmin xmax ymin ymax,
       UniversalTracker.create_trajectory_video self w csv_path color_name
         ovp output_path custom_line_thickness custom_circle_size
       = Ok (path, vid)
       ∧ Column.is_min (x <$> df) xmin ∧ Column.is_max (x <$> df) xmax
       ∧ Column.is_min (y <$> df) ymin ∧ Column.is_max (y <$> df) ymax
       ∧ CAP_PROP_FRAME_WIDTH vid = xmax - xmin + 200
       ∧ CAP_PROP_FRAME_HEIGHT vid = ymax - ymin + 200
       ∧ 200 ≤ CAP_PROP_FRAME_WIDTH vid ∧ 200 ≤ CAP_PROP_FRAME_HEIGHT vid
       ∧ CAP_PROP_FPS vid
         = UniversalTracker.fps
             (UniversalTracker.trajectory (UniversalTracker.config self))
       ∧ length (frames vid) = length df
       ∧ ∀ (i : nat) row,
           df !! i = Some row →
           frames vid !! i
           = Some (Reading.overlay_frame df (CAP_PROP_FRAME_WIDTH vid)
                     (CAP_PROP_FRAME_HEIGHT vid)
                     (UniversalTracker.track_color color_config)
                     (py_or custom_line_thickness
                        (UniversalTracker.line_thickness
                           (UniversalTracker.trajectory
                              (UniversalTracker.config self))))
                     (UniversalTracker.highlight_color color_config)
                     (py_or custom_circle_size
                        (UniversalTracker.highlight_circle_size
                           (UniversalTracker.trajectory
                              (UniversalTracker.config self))))
                     (np_zeros (CAP_PROP_FRAME_HEIGHT vid)
                               (CAP_PROP_FRAME_WIDTH vid)) i row))
  ∧ (∀ (w : World) (csv_path output_path : string) (ovp : option string)
       (df : DataFrame),
     read_csv w csv_path = Ok df →
     df ≠ [] →
     truthy_path ovp = false →
     ∃ vid xmin xmax ymin ymax,
       BallTrajectoryVideo.create_trajectory_overlay_video w csv_path ovp
         output_path = Ok (output_path, vid)
       ∧ Column.is_min (x <$> df) xmin ∧ Column.is_max (x <$> df) xmax
       ∧ Column.is_min (y <$> df) ymin ∧ Column.is_max (y <$> df) ymax
       ∧ CAP_PROP_FRAME_WIDTH vid = xmax - xmin + 200
       ∧ CAP_PROP_FRAME_HEIGHT vid = ymax - ymin + 200
       ∧ 200 ≤ CAP_PROP_FRAME_WIDTH vid ∧ 200 ≤ CAP_PROP_FRAME_HEIGHT vid
       ∧ CAP_PROP_FPS vid = 60%Q
       ∧ length (frames vid) = length df
       ∧ ∀ (i : nat) row,
           df !! i = Some row →
           frames vid !! i
           = Some (Reading.overlay_frame df (CAP_PROP_FRAME_WIDTH vid)
                     (CAP_PROP_FRAME_HEIGHT vid) (0, 255, 0) 6
                     (0, 255, 255) 8
                     (np_zeros (CAP_PROP_FRAME_HEIGHT vid)
                               (CAP_PROP_FRAME_WIDTH vid)) i row)).
Proof.
  split.
  - intros self w csv_path color_name ovp output_path clt ccs df
      color_config Hcsv Hne Hcolor Hsrc.
    destruct (tracker_standalone_value self w csv_path color_name ovp
                output_path clt ccs df color_config Hcsv Hne Hcolor Hsrc)
      as (path & vid & xmin & xmax & ymin & ymax & Hrun & Hx0 & Hx1 & Hy0
          & Hy1 & Hw & Hh & Hfps & Hlen & Hat).
    exists path, vid, xmin, xmax, ymin, ymax.
    pose proof (is_min_le_max _ _ _ Hx0 Hx1).
    pose proof (is_min_le_max _ _ _ Hy0 Hy1).
    do 7 (split; [done|]). split; [lia|]. split; [lia|].
    do 2 (split; [done|]). by rewrite Hw, Hh.
  - intros w csv_path output_path ovp df Hcsv Hne Htruthy.
    destruct (ball_standalone_value w csv_path output_path ovp df Hcsv Hne
                Htruthy)
      as (vid & xmin & xmax & ymin & ymax & Hrun & Hx0 & Hx1 & Hy0
          & Hy1 & Hw & Hh & Hfps & Hlen & Hat).
    exists vid, xmin, xmax, ymin, ymax.
    pose proof (is_min_le_max _ _ _ Hx0 Hx1).
    pose proof (is_min_le_max _ _ _ Hy0 Hy1).
    do 7 (split; [done|]). split; [lia|]. split; [lia|].
    do 2 (split; [done|]). by rewrite Hw, Hh.
Qed.

End Standalone.

Section StandaloneClipping.
Context {cv : OpenCV}.

Lemma filter_keep_all (points : list Point) :
  filter (fun p => (fun _ : Point => true) p = true) points = points.
Proof.
  induction points as [|p points IH]; [done|].
  rewrite filter_cons, decide_True by done. by rewrite IH.
Qed.

Lemma filter_in_canvas_all (width height : Z) (points : list Point) :
  Forall (fun p => in_canvas width height p = true) points →
  filter (fun p => in_canvas width height p = true) points = points.
Proof.
  induction 1 as [|p points Hp _ IH]; [done|].
  rewrite filter_cons, decide_True by done. by rewrite IH.
Qed.

(** On a canvas that measures the extent of the log plus 200, points
    are still placed at their own coordinates. *)
Lemma extent_canvas_clipping (df : DataFrame) (xmin xmax ymin ymax : Z) :
  Column.is_min (x <$> df) xmin → Column.is_max (x <$> df) xmax →
  Column.is_min (y <$> df) ymin → Column.is_max (y <$> df) ymax →
  let width := xmax - xmin + 200 in
  let height := ymax - ymin + 200 in
  (0 ≤ xmin < 200 → 0 ≤ ymin < 200 →
   ∀ i, (i < length df)%nat →
        trajectory_points (in_canvas width height) df i
        = Ok (Frames.xy <$> take (S i) df))
  ∧ (200 ≤ xmin ∨ 200 ≤ ymin →
     ∃ row, row ∈ df ∧ in_canvas width height (Frames.xy row) = false).
Proof.
  intros [Hx0 Hx0'] [Hx1 Hx1'] [Hy0 Hy0'] [Hy1 Hy1'] width height.
  rewrite Forall_fmap, Forall_forall in Hx0', Hx1', Hy0', Hy1'.
  split.
  - intros Hx Hy i Hi. rewrite trajectory_points_value by done.
    unfold Reading.points_by_position. f_equal.
    apply filter_in_canvas_all, Forall_fmap, Forall_forall.
    intros row Hrow. apply elem_of_take in Hrow as (j & Hrow & _).
    apply list_elem_of_lookup_2 in Hrow.
    specialize (Hx0' row Hrow). specialize (Hx1' row Hrow).
    specialize (Hy0' row Hrow). specialize (Hy1' row Hrow).
    simpl in *. apply in_canvas_bounds. simpl. subst width height. lia.
  - intros Hfar. destruct Hfar as [Hfar|Hfar].
    + apply list_elem_of_fmap in Hx1 as (row & Heq & Hin).
      specialize (Hx0' row Hin). simpl in Hx0'.
      exists row. split; [done|].
      apply not_true_is_false. rewrite in_canvas_bounds. simpl.
      subst width. lia.
    + apply list_elem_of_fmap in Hy1 as (row & Heq & Hin).
      specialize (Hy0' row Hin). simpl in Hy0'.
      exists row. split; [done|].
      apply not_true_is_false. rewrite in_canvas_bounds. simpl.
      subst height. lia.
Qed.

(** X12.  Without a source video the canvas measures only the extent
    of the log, but points are drawn at their own coordinates.  When the
    smallest x and the smallest y of the log lie between 0 and 199, the
    tracker's renderer keeps every point: the point list of step [i] is
    the first [i + 1] points of the log.  When the smallest x or the
    smallest y is 200 or more, some row of the log lies outside the
    canvas, and is left out of every point list and never marked. *)
Theorem standalone_canvas_clipping
    (self : UniversalTracker.ColorTracker) (w : World)
    (csv_path color_name : string) (ovp : option string)
    (output_path : option string)
    (custom_line_thickness custom_circle_size : option Z)
    (df : DataFrame) (color_config : UniversalTracker.ColorConfig) :
  read_csv w csv_path = Ok df →
  df ≠ [] →
  UniversalTracker.colors (UniversalTracker.config self) !! color_name
    = Some color_config →
  usable_source w ovp = None →
  ∃ path vid xmin ymin,
    UniversalTracker.create_trajectory_video self w csv_path color_name ovp
      output_path custom_line_thickness custom_circle_size = Ok (path, vid)
    ∧ Column.is_min (x <$> df) xmin ∧ Column.is_min (y <$> df) ymin
    ∧ (0 ≤ xmin < 200 → 0 ≤ ymin < 200 →
       ∀ i, (i < length df)%nat →
            trajectory_points
              (in_canvas (CAP_PROP_FRAME_WIDTH vid)
                         (CAP_PROP_FRAME_HEIGHT vid)) df i
            = Ok (Frames.xy <$> take (S i) df))
    ∧ (200 ≤ xmin ∨ 200 ≤ ymin →
       ∃ row, row ∈ df
              ∧ in_canvas (CAP_PROP_FRAME_WIDTH vid)
                          (CAP_PROP_FRAME_HEIGHT vid) (Frames.xy row)
                = false).
Proof.
  intros Hcsv Hne Hcolor Hsrc.
  destruct (tracker_standalone_value self w csv_path color_name ovp
              output_path custom_line_thickness custom_circle_size df
              color_config Hcsv Hne Hcolor Hsrc)
    as (path & vid & xmin & xmax & ymin & ymax & Hrun & Hx0 & Hx1 & Hy0
        & Hy1 & Hw & Hh & _).
  exists path, vid, xmin, ymin. do 3 (split; [done|]).
  rewrite Hw, Hh. by apply extent_canvas_clipping.
Qed.

(** X13.  Given a path that does not exist and a log of at least one
    row, the overlay renderer of ball_trajectory_video.py raises
    [UnboundLocalError]: after the frames are written it releases a
    capture that was never opened. *)
Theorem overlay_missing_source_raises (w : World)
    (csv_path p output_path : string) (df : DataFrame) :
  read_csv w csv_path = Ok df →
  df ≠ [] →
  p ≠ EmptyString →
  video_files w !! p = None →
  BallTrajectoryVideo.create_trajectory_overlay_video w csv_path (Some p)
    output_path = Raise UnboundLocalError.
Proof.
  intros Hcsv Hne Hp Hfile.
  destruct (series_max_spec (x <$> df)) as (xmax & Hxmax & _);
    [by apply fmap_nonempty|].
  destruct (series_min_spec (x <$> df)) as (xmin & Hxmin & _);
    [by apply fmap_nonempty|].
  destruct (series_max_spec (y <$> df)) as (ymax & Hymax & _);
    [by apply fmap_nonempty|].
  destruct (series_min_spec (y <$> df)) as (ymin & Hymin & _);
    [by apply fmap_nonempty|].
  assert (Htruthy : truthy_path (Some p) = true).
  { unfold truthy_path.
    by rewrite (proj2 (String.eqb_neq p EmptyString) Hp). }
  assert (Hsrc : usable_source w (Some p) = None).
  { unfold usable_source, path_exists. rewrite Hfile.
    rewrite bool_decide_eq_false_2 by (by intros [? ?]).
    by rewrite andb_false_r. }
  unfold BallTrajectoryVideo.create_trajectory_overlay_video.
  rewrite Hcsv, Hsrc. cbn [mbind result_bind].
  rewrite Hxmax, Hxmin.
  cbn [mbind result_bind option_bind nan_sub py_int_nan].
  rewrite Hymax, Hymin.
  cbn [mbind result_bind option_bind nan_sub py_int_nan].
  destruct (overlay_loop_seq df (xmax - xmin + 200) (ymax - ymin + 200)
              (0, 255, 0) 6 (0, 255, 255) 8 (length df) 0%nat None [])
    as (out & Hout & _); [simpl; lia|].
  rewrite Hout. cbn [mbind result_bind]. rewrite Htruthy.
  by rewrite bool_decide_eq_false_2 by (by intros [? ?]).
Qed.

End StandaloneClipping.

Lemma standalone_canvas_from_extent_witness :
  ∃ vid,
    BallTrajectoryVideo.create_trajectory_overlay_video Examples.world
      "far.csv" (Some EmptyString) "out.mp4" = Ok ("out.mp4"%string, vid)
    ∧ 200 ≤ CAP_PROP_FRAME_WIDTH vid ∧ 200 ≤ CAP_PROP_FRAME_HEIGHT vid
    ∧ length (frames vid) = 2%nat.
Proof.
  destruct (proj2 (@standalone_canvas_from_extent Bench.cv) Examples.world
              "far.csv"%string "out.mp4"%string (Some EmptyString)
              Examples.far_log)
    as (vid & xmin & xmax & ymin & ymax & Hrun & _ & _ & _ & _ & _ & _
        & Hw & Hh & _ & Hlen & _).
  - vm_compute. reflexivity.
  - discriminate.
  - reflexivity.
  - exists vid. split; [exact Hrun|].
    split; [exact Hw|]. split; [exact Hh|exact Hlen].
Defined.

Lemma standalone_canvas_clipping_witness :
  ∃ path vid row,
    UniversalTracker.create_trajectory_video Bench.default_tracker
      Examples.world "far.csv" "yellow" None None None None = Ok (path, vid)
    ∧ row ∈ Examples.far_log
    ∧ in_canvas (CAP_PROP_FRAME_WIDTH vid) (CAP_PROP_FRAME_HEIGHT vid)
        (Frames.xy row) = false.
Proof.
  destruct (@standalone_canvas_clipping Bench.cv Bench.default_tracker
              Examples.world "far.csv"%string "yellow"%string None None None
              None Examples.far_log Bench.yellow_profile)
    as (path & vid & xmin & ymin & Hrun & Hxmin & _ & _ & Hfar).
  - vm_compute. reflexivity.
  - discriminate.
  - vm_compute. reflexivity.
  - reflexivity.
  - destruct Hfar as (row & Hrow & Hout).
    + left. destruct Hxmin as [Hin _].
      apply list_elem_of_fmap in Hin as (row & -> & Hrow).
      apply list_elem_of_In in Hrow. simpl in Hrow.
      destruct Hrow as [<-|[<-|[]]]; simpl; lia.
    + by exists path, vid, row.
Defined.

Lemma overlay_missing_source_raises_witness :
  BallTrajectoryVideo.create_trajectory_overlay_video Examples.world
    "two.csv" (Some "gone.mp4"%string) "out.mp4" = Raise UnboundLocalError.
Proof.
  apply (@overlay_missing_source_raises Bench.cv Examples.world
           "two.csv"%string "gone.mp4"%string "out.mp4"%string
           Bench.log_two_rows).
  - vm_compute. reflexivity.
  - discriminate.
  - discriminate.
  - vm_compute. reflexivity.
Defined.

(** ** The renderer on a blank canvas *)

Section PlainRenderer.
Context {cv : OpenCV}.

Lemma trajectory_points_unfiltered (df : DataFrame) (i : nat) :
  (i < length df)%nat →
  trajectory_points (fun _ => true) df i = Ok (Frames.xy <$> take (S i) df).
Proof.
  intros Hi. rewrite trajectory_points_value by done.
  unfold Reading.points_by_position. f_equal. apply filter_keep_all.
Qed.

Lemma plain_loop_seq (df : DataFrame) (width height : Z) :
  ∀ (n k : nat) (written : list Image),
    (k + n ≤ length df)%nat →
    ∃ out,
      BallTrajectoryVideo.plain_loop df width height (seq k n) written
      = Ok (written ++ out)
      ∧ length out = n
      ∧ ∀ (t : nat) row,
          (t < n)%nat → df !! (k + t)%nat = Some row →
          out !! t = Some (Frames.plain_frame df width height (k + t) row).
Proof.
  induction n as [|n IH]; intros k written Hlen.
  - exists []. simpl. rewrite app_nil_r.
    split; [done|]. split; [done|]. intros t row Ht. lia.
  - destruct (lookup_lt_is_Some_2 df k) as [row Hrow]; [lia|].
    set (img := Frames.plain_frame df width height k row).
    destruct (IH (S k) (written ++ [img])) as (out & Hout & Hn & Hat); [lia|].
    exists (img :: out). split; [|split].
    + replace (written ++ img :: out) with ((written ++ [img]) ++ out)
        by (by rewrite <- app_assoc).
      rewrite <- Hout. cbn [seq BallTrajectoryVideo.plain_loop].
      rewrite trajectory_points_unfiltered by lia. cbn [mbind result_bind].
      rewrite (iloc_lookup _ _ _ Hrow). done.
    + simpl. by rewrite Hn.
    + intros t row' Ht Hrow'. destruct t as [|t].
      * rewrite Nat.add_0_r in Hrow'. rewrite Hrow in Hrow'.
        injection Hrow' as <-. simpl. by rewrite Nat.add_0_r.
      * simpl. replace (k + S t)%nat with (S k + t)%nat in * by lia.
        apply Hat; [lia|done].
Qed.

Lemma py_max2_some (a b : Z) : py_max2 (Some a) (Some b) = Some (Z.max a b).
Proof.
  unfold py_max2. destruct (a <? b) eqn:H.
  - apply Z.ltb_lt in H. f_equal. lia.
  - apply Z.ltb_ge in H. f_equal. lia.
Qed.

(** X14.  On a log of at least one row whose coordinates are not
    negative, the renderer of ball_trajectory_video.py that takes no
    source video succeeds: the canvas is a square whose side is the
    largest coordinate of the log, x or y, plus 100, so every point of
    the log lies inside it; the frame rate is the one given; one frame
    per row is written, and the polyline of step [i] goes through the
    first [i + 1] points of the log, none left out. *)
Theorem plain_renderer_square_canvas (w : World)
    (csv_path output_path : string) (rate : Q) (df : DataFrame) :
  read_csv w csv_path = Ok df →
  df ≠ [] →
  (∀ row, row ∈ df → 0 ≤ x row ∧ 0 ≤ y row) →
  ∃ vid side,
    BallTrajectoryVideo.create_trajectory_video w csv_path output_path rate
    = Ok (output_path, vid)
    ∧ CAP_PROP_FRAME_WIDTH vid = side ∧ CAP_PROP_FRAME_HEIGHT vid = side
    ∧ CAP_PROP_FPS vid = rate
    ∧ Column.is_max ((x <$> df) ++ (y <$> df)) (side - 100)
    ∧ (∀ row, row ∈ df → in_canvas side side (Frames.xy row) = true)
    ∧ length (frames vid) = length df
    ∧ (∀ (i : nat) row,
         df !! i = Some row →
         frames vid !! i = Some (Frames.plain_frame df side side i row))
    ∧ (∀ i, (i < length df)%nat →
            trajectory_points (fun _ => true) df i
            = Ok (Frames.xy <$> take (S i) df)).
Proof.
  intros Hcsv Hne Hpos.
  destruct (series_max_spec (x <$> df)) as (xmax & Hxmax & Hx1 & Hx1');
    [by apply fmap_nonempty|].
  destruct (series_max_spec (y <$> df)) as (ymax & Hymax & Hy1 & Hy1');
    [by apply fmap_nonempty|].
  set (side := Z.max xmax ymax + 100).
  unfold BallTrajectoryVideo.create_trajectory_video.
  rewrite Hcsv. cbn [mbind result_bind].
  rewrite Hxmax, Hymax, py_max2_some. cbn [mbind result_bind py_int_nan].
  destruct (plain_loop_seq df side side (length df) 0%nat [])
    as (out & Hout & Hn & Hat); [simpl; lia|].
  fold side. rewrite Hout. cbn [mbind result_bind app].
  exists {| frames := out; CAP_PROP_FPS := rate;
            CAP_PROP_FRAME_WIDTH := side; CAP_PROP_FRAME_HEIGHT := side |},
         side.
  split; [done|]. do 3 (split; [done|]).
  rewrite Forall_forall in Hx1', Hy1'.
  split; [|split; [|split; [done|split]]].
  - replace (side - 100) with (Z.max xmax ymax) by (subst side; lia).
    split.
    + apply elem_of_app.
      destruct (Z.max_spec xmax ymax) as [[_ ->]|[_ ->]]; [by right|by left].
    + apply Forall_app. split; apply Forall_forall; intros v Hv.
      * specialize (Hx1' v Hv). lia.
      * specialize (Hy1' v Hv). lia.
  - intros row Hrow. destruct (Hpos row Hrow) as [Hx Hy].
    apply in_canvas_bounds. simpl.
    assert (x row ≤ xmax) by (apply Hx1', list_elem_of_fmap; eauto).
    assert (y row ≤ ymax) by (apply Hy1', list_elem_of_fmap; eauto).
    subst side. lia.
  - intros i row Hrow. simpl. apply (Hat i row); [|done].
    by apply lookup_lt_Some in Hrow.
  - intros i Hi. by apply trajectory_points_unfiltered.
Qed.

End PlainRenderer.

Lemma plain_renderer_square_canvas_witness :
  ∃ vid,
    BallTrajectoryVideo.create_trajectory_video Examples.world "far.csv"
      "ball_trajectory.mp4" 60 = Ok ("ball_trajectory.mp4"%string, vid)
    ∧ CAP_PROP_FRAME_WIDTH vid = 1200 ∧ CAP_PROP_FRAME_HEIGHT vid = 1200
    ∧ length (frames vid) = 2%nat.
Proof.
  destruct (@plain_renderer_square_canvas Bench.cv Examples.world
              "far.csv"%string "ball_trajectory.mp4"%string 60%Q
              Examples.far_log)
    as (vid & side & Hrun & Hw & Hh & _ & [Hin Hall] & _ & Hlen & _).
  - vm_compute. reflexivity.
  - discriminate.
  - intros row Hrow. apply list_elem_of_In in Hrow. simpl in Hrow.
    destruct Hrow as [<-|[<-|[]]]; simpl; lia.
  - assert (Hside : side = 1200).
    { rewrite Forall_forall in Hall.
      assert (1100 ≤ side - 100)
        by (apply Hall; apply list_elem_of_In; simpl; tauto).
      apply list_elem_of_In in Hin. simpl in Hin.
      destruct Hin as [?|[?|[?|[?|[]]]]]; lia. }
    exists vid. split; [exact Hrun|].
    split; [by rewrite Hw|]. split; [by rewrite Hh|exact Hlen].
Defined.

(** ** Recording and rendering in sequence *)

Section Pipelines.
Context {cv : OpenCV} {json : UniversalTracker.JsonCodec}.

Lemma decoded_without_preview (w : World) :
  ∀ (pending : list Image) (n : Z),
    Reading.decoded false w pending n = pending.
Proof.
  induction pending as [|img pending IH]; intros n; [done|].
  cbn [Reading.decoded andb]. by rewrite IH.
Qed.

Lemma rows_of_ext (detect1 detect2 : Image → result (option Point))
    (rate : Q) :
  (∀ img, detect1 img = detect2 img) →
  ∀ (imgs : list Image) (n : Z),
    Reading.rows_of detect1 rate n imgs = Reading.rows_of detect2 rate n imgs.
Proof.
  intros Hext. induction imgs as [|img imgs IH]; intros n; [done|].
  cbn [Reading.rows_of]. unfold Reading.row_of.
  by rewrite Hext, IH.
Qed.

Lemma rows_of_nil_decoded (detect : Image → result (option Point))
    (show_preview : bool) (w : World) (rate : Q) (pending : list Image) :
  Reading.rows_of detect rate 0 (Reading.decoded show_preview w pending 0)
    ≠ [] →
  pending ≠ [].
Proof. by destruct pending. Qed.

Lemma capture_with_frames_exists (w : World) (p : string) :
  frames (VideoCapture w p) ≠ [] → path_exists w p = true.
Proof.
  unfold VideoCapture, path_exists. intros Hframes.
  destruct (video_files w !! p) as [v|]; [|done].
  by rewrite bool_decide_eq_true_2 by eauto.
Qed.

(** The video the tracker's renderer writes over a source that
    exists. *)
Lemma tracker_overlay_video (self : UniversalTracker.ColorTracker)
    (w : World) (csv_path color_name : string) (ovp : option string)
    (p : string) (custom_line_thickness custom_circle_size : option Z)
    (df : DataFrame) (color_config : UniversalTracker.ColorConfig) :
  read_csv w csv_path = Ok df →
  UniversalTracker.colors (UniversalTracker.config self) !! color_name
    = Some color_config →
  usable_source w ovp = Some p →
  ∃ out,
    UniversalTracker.create_trajectory_video self w csv_path color_name ovp
      None custom_line_thickness custom_circle_size
    = Ok (if truthy_path ovp
          then (color_name +:+ "_trajectory_overlay.mp4")%string
          else (color_name +:+ "_trajectory.mp4")%string,
          {| frames := out;
             CAP_PROP_FPS := CAP_PROP_FPS (VideoCapture w p);
             CAP_PROP_FRAME_WIDTH := CAP_PROP_FRAME_WIDTH (VideoCapture w p);
             CAP_PROP_FRAME_HEIGHT :=
               CAP_PROP_FRAME_HEIGHT (VideoCapture w p) |})
    ∧ length out = length df.
Proof.
  intros Hcsv Hcolor Hsrc.
  unfold UniversalTracker.create_trajectory_video, getitem.
  rewrite Hcsv, Hcolor, Hsrc. cbn [mbind result_bind].
  match goal with
  | |- context [overlay_loop df ?wd ?ht ?tc ?lt ?hc ?cs ?cap _ _] =>
      destruct (overlay_loop_seq df wd ht tc lt hc cs (length df) 0%nat cap [])
        as (out & Hout & Hn & _); [simpl; lia|]
  end.
  rewrite Hout. cbn [mbind result_bind app]. by exists out.
Qed.

(** The videos the two renderers of ball_trajectory_video.py write. *)
Lemma ball_overlay_video (w : World) (csv_path : string)
    (ovp : option string) (p output_path : string) (df : DataFrame) :
  read_csv w csv_path = Ok df →
  usable_source w ovp = Some p →
  ∃ out,
    BallTrajectoryVideo.create_trajectory_overlay_video w csv_path ovp
      output_path
    = Ok (output_path,
          {| frames := out;
             CAP_PROP_FPS := CAP_PROP_FPS (VideoCapture w p);
             CAP_PROP_FRAME_WIDTH := CAP_PROP_FRAME_WIDTH (VideoCapture w p);
             CAP_PROP_FRAME_HEIGHT :=
               CAP_PROP_FRAME_HEIGHT (VideoCapture w p) |})
    ∧ length out = length df.
Proof.
  intros Hcsv Hsrc.
  unfold BallTrajectoryVideo.create_trajectory_overlay_video.
  rewrite Hcsv, Hsrc. cbn [mbind result_bind].
  match goal with
  | |- context [overlay_loop df ?wd ?ht ?tc ?lt ?hc ?cs ?cap _ _] =>
      destruct (overlay_loop_seq df wd ht tc lt hc cs (length df) 0%nat cap [])
        as (out & Hout & Hn & _); [simpl; lia|]
  end.
  rewrite Hout. cbn [mbind result_bind app].
  rewrite bool_decide_eq_true_2 by eauto. rewrite andb_false_r.
  by exists out.
Qed.

Lemma plain_renderer_video (w : World) (csv_path output_path : string)
    (rate : Q) (df : DataFrame) :
  read_csv w csv_path = Ok df →
  df ≠ [] →
  ∃ vid,
    BallTrajectoryVideo.create_trajectory_video w csv_path output_path rate
    = Ok (output_path, vid)
    ∧ length (frames vid) = length df
    ∧ CAP_PROP_FPS vid = rate.
Proof.
  intros Hcsv Hne.
  destruct (series_max_spec (x <$> df)) as (xmax & Hxmax & _);
    [by apply fmap_nonempty|].
  destruct (series_max_spec (y <$> df)) as (ymax & Hymax & _);
    [by apply fmap_nonempty|].
  unfold BallTrajectoryVideo.create_trajectory_video.
  rewrite Hcsv. cbn [mbind result_bind].
  rewrite Hxmax, Hymax, py_max2_some. cbn [mbind result_bind py_int_nan].
  match goal with
  | |- context [BallTrajectoryVideo.plain_loop df ?wd ?ht _ _] =>
      destruct (plain_loop_seq df wd ht (length df) 0%nat [])
        as (out & Hout & Hn & _); [simpl; lia|]
  end.
  rewrite Hout. cbn [mbind result_bind app]. by eexists.
Qed.

(** X15.  The end-to-end run of the tracker on a video that reports a
    nonzero frame rate and in which the yellow object is detected at
    least once: it saves the default configuration, writes the log of
    the detections under detected_yellow_coordinates.csv and renders
    yellow_trajectory_overlay.mp4 over the source, with the source's
    dimensions and frame rate and one frame per detection (not one per
    source frame).  The custom colour added on the way does not change
    what is detected. *)
Theorem demo_usage_renders (w : World) :
  let src := VideoCapture w UniversalTracker.video_file in
  let rows :=
    Reading.rows_of
      (fun img =>
         UniversalTracker.detect_colored_object
           {| UniversalTracker.config := UniversalTracker.default_config |}
           img "yellow")
      (CAP_PROP_FPS src) 0 (frames src) in
  ¬ (CAP_PROP_FPS src == 0)%Q →
  rows ≠ [] →
  ∃ w' out,
    UniversalTracker.demo_usage w
    = Ok (w', Some ("yellow_trajectory_overlay.mp4"%string,
                    {| frames := out;
                       CAP_PROP_FPS := CAP_PROP_FPS src;
                       CAP_PROP_FRAME_WIDTH := CAP_PROP_FRAME_WIDTH src;
                       CAP_PROP_FRAME_HEIGHT := CAP_PROP_FRAME_HEIGHT src |}))
    ∧ length out = length rows
    ∧ csv_files w' !! "detected_yellow_coordinates.csv" = Some rows
    ∧ text_files w' !! "tracker_config.json"
      = Some (UniversalTracker.json_dump
                (UniversalTracker.to_json UniversalTracker.default_config))
    ∧ video_files w' = video_files w.
Proof.
  intros src rows Hrate Hrows.
  set (tracker0 :=
         {| UniversalTracker.config := UniversalTracker.default_config |}).
  set (tracker :=
         UniversalTracker.add_custom_color tracker0 "pink"
           ((160, 100, 100), (180, 255, 255)) (255, 192, 203) (255, 20, 147)
           (Some "ピンク色"%string)).
  set (w1 := UniversalTracker.save_config tracker0 w "tracker_config.json").
  set (csv := "detected_yellow_coordinates.csv"%string).
  assert (Hyellow :
    UniversalTracker.colors (UniversalTracker.config tracker) !! "yellow"
    = UniversalTracker.colors (UniversalTracker.config tracker0) !! "yellow").
  { subst tracker. cbn [UniversalTracker.add_custom_color
      UniversalTracker.config UniversalTracker.colors].
    by rewrite lookup_insert_ne. }
  assert (Hprofile :
    UniversalTracker.colors (UniversalTracker.config tracker0) !! "yellow"
    = Some Bench.yellow_profile) by (vm_compute; reflexivity).
  assert (Hdetect : ∀ img,
    UniversalTracker.detect_colored_object tracker img "yellow"
    = UniversalTracker.detect_colored_object tracker0 img "yellow").
  { intros img.
    rewrite (detect_colored_object_known tracker img "yellow"
               Bench.yellow_profile) by (by rewrite Hyellow).
    by rewrite (detect_colored_object_known tracker0 img "yellow"
                  Bench.yellow_profile). }
  assert (Hframes : frames src ≠ []).
  { intros Hnil. apply Hrows. subst rows. by rewrite Hnil. }
  assert (Hexists : path_exists w1 UniversalTracker.video_file = true).
  { by apply (capture_with_frames_exists w). }
  assert (Hrecord :
    UniversalTracker.recorded_rows tracker w1 UniversalTracker.video_file
      "yellow" false = Ok rows).
  { unfold UniversalTracker.recorded_rows, getitem.
    rewrite Hyellow, Hprofile. cbn [mbind result_bind].
    change (VideoCapture w1 UniversalTracker.video_file) with src.
    rewrite read_loop_value;
      [|done|intros img; apply detect_colored_object_ok].
    rewrite decoded_without_preview. cbn [app].
    by rewrite (rows_of_ext _ _ _ Hdetect). }
  assert (Hextract :
    UniversalTracker.extract_object_coordinates tracker w1
      UniversalTracker.video_file "yellow" None false
    = Ok (to_csv w1 csv rows, Some csv)).
  { unfold UniversalTracker.extract_object_coordinates.
    rewrite Hrecord. cbn [mbind result_bind]. by destruct rows. }
  destruct (tracker_overlay_video tracker (to_csv w1 csv rows) csv "yellow"
              (Some UniversalTracker.video_file) UniversalTracker.video_file
              (Some 10) (Some 12) rows Bench.yellow_profile)
    as (out & Hrender & Hlen).
  { unfold read_csv, to_csv. cbn [csv_files]. by rewrite lookup_insert_eq. }
  { by rewrite Hyellow. }
  { unfold usable_source.
    change (path_exists (to_csv w1 csv rows) UniversalTracker.video_file)
      with (path_exists w1 UniversalTracker.video_file).
    by rewrite Hexists. }
  exists (to_csv w1 csv rows), out.
  split; [|split; [done|split; [|split; [|done]]]].
  - unfold UniversalTracker.demo_usage.
    rewrite init_without_file. cbn [mbind result_bind].
    fold tracker0. fold w1. fold tracker.
    rewrite Hexists, Hextract. cbn [mbind result_bind].
    fold csv. change (String.eqb csv EmptyString) with false. cbn [negb].
    rewrite Hrender. done.
  - unfold to_csv. cbn [csv_files]. by rewrite lookup_insert_eq.
  - unfold to_csv, w1, UniversalTracker.save_config, write_text.
    cbn [text_files]. by rewrite lookup_insert_eq.
Qed.

End Pipelines.

Section BallPrograms.
Context {cv : OpenCV}.

(** X16.  Running detect_ball.py and then ball_trajectory_video.py.
    When the first program's log has at least one row (with coordinates
    that are not negative), it writes the coordinate file and the second
    program succeeds: it makes the plain video at 60 frames per second and
    the overlay video with the source's dimensions and frame rate, each
    with one frame per row.  When the log is empty the first program
    writes nothing, and the second raises [FileNotFoundError] unless a
    coordinate file was already there. *)
Theorem ball_programs_in_sequence (w : World) (rows : list Row) :
  DetectBall.recorded_rows w Programs.video_file = Ok rows →
  ∃ w',
    Programs.detect_ball_main w = Ok w'
    ∧ (rows ≠ [] →
       (∀ row, row ∈ rows → 0 ≤ x row ∧ 0 ≤ y row) →
       ∃ plain out,
         Programs.ball_trajectory_video_main w'
         = Ok ((Programs.trajectory_path, plain),
               (Programs.overlay_path,
                {| frames := out;
                   CAP_PROP_FPS :=
                     CAP_PROP_FPS (VideoCapture w Programs.video_file);
                   CAP_PROP_FRAME_WIDTH :=
                     CAP_PROP_FRAME_WIDTH
                       (VideoCapture w Programs.video_file);
                   CAP_PROP_FRAME_HEIGHT :=
                     CAP_PROP_FRAME_HEIGHT
                       (VideoCapture w Programs.video_file) |}))
         ∧ CAP_PROP_FPS plain = 60%Q
         ∧ length (frames plain) = length rows
         ∧ length out = length rows)
    ∧ (rows = [] →
       csv_files w !! Programs.csv_file = None →
       w' = w
       ∧ Programs.ball_trajectory_video_main w' = Raise FileNotFoundError).
Proof.
  intros Hrows.
  unfold Programs.detect_ball_main, DetectBall.extract_ball_coordinates.
  rewrite Hrows. cbn [mbind result_bind].
  destruct rows as [|r rows'].
  - exists w. split; [done|]. split; [done|].
    intros _ Hfile. split; [done|].
    unfold Programs.ball_trajectory_video_main,
      BallTrajectoryVideo.create_trajectory_video, read_csv.
    by rewrite Hfile.
  - set (rows := r :: rows') in *.
    set (w' := to_csv w Programs.csv_file rows).
    exists w'. split; [done|]. split; [|done].
    intros _ Hpos.
    assert (Hcsv : read_csv w' Programs.csv_file = Ok rows).
    { unfold read_csv, w', to_csv. cbn [csv_files].
      by rewrite lookup_insert_eq. }
    assert (Hframes : frames (VideoCapture w Programs.video_file) ≠ []).
    { unfold DetectBall.recorded_rows in Hrows.
      apply read_loop_ok in Hrows; [|apply detect_yellow_ball_ok].
      intros Hnil. rewrite Hnil in Hrows. done. }
    assert (Hsrc : usable_source w' (Some Programs.video_file)
                   = Some Programs.video_file).
    { unfold usable_source.
      change (path_exists w' Programs.video_file)
        with (path_exists w Programs.video_file).
      by rewrite (capture_with_frames_exists w _ Hframes). }
    destruct (plain_renderer_video w' Programs.csv_file
                Programs.trajectory_path 60%Q rows Hcsv)
      as (plain & Hplain & Hlen & Hfps); [done|].
    destruct (ball_overlay_video w' Programs.csv_file
                (Some Programs.video_file) Programs.video_file
                Programs.overlay_path rows Hcsv Hsrc)
      as (out & Hoverlay & Hlen').
    exists plain, out. split; [|done].
    unfold Programs.ball_trajectory_video_main.
    rewrite Hplain. cbn [mbind result_bind].
    rewrite Hoverlay. done.
Qed.

End BallPrograms.

Lemma demo_usage_renders_witness :
  ∃ w' vid,
    UniversalTracker.demo_usage Examples.world
    = Ok (w', Some ("yellow_trajectory_overlay.mp4"%string, vid))
    ∧ length (frames vid) = 2%nat
    ∧ CAP_PROP_FRAME_WIDTH vid = 20.
Proof.
  destruct (@demo_usage_renders Bench.cv Bench.json Examples.world)
    as (w' & out & Hrun & Hlen & _).
  - vm_compute. discriminate.
  - vm_compute. discriminate.
  - eexists w', _. split; [exact Hrun|]. split; [exact Hlen|reflexivity].
Defined.

Lemma ball_programs_in_sequence_witness :
  ∃ w' plain overlay,
    Programs.detect_ball_main Examples.world = Ok w'
    ∧ Programs.ball_trajectory_video_main w'
      = Ok ((Programs.trajectory_path, plain),
            (Programs.overlay_path, overlay))
    ∧ length (frames plain) = 2%nat
    ∧ length (frames overlay) = 2%nat.
Proof.
  destruct (@ball_programs_in_sequence Bench.cv Examples.world
              [ {| frame := 1; timestamp_ms := 0 # 10; x := 9; y := 5 |};
                {| frame := 3; timestamp_ms := 667 # 10; x := 9; y := 5 |} ])
    as (w' & Hrun & Hrender & _).
  - vm_compute. reflexivity.
  - destruct Hrender as (plain & out & Hmain & _ & Hplain & Hout).
    + discriminate.
    + intros row Hrow. apply list_elem_of_In in Hrow. simpl in Hrow.
      destruct Hrow as [<-|[<-|[]]]; simpl; lia.
    + eexists w', plain, _. split; [exact Hrun|]. split; [exact Hmain|].
      split; [exact Hplain|exact Hout].
Defined.

(** ** The time stamps of the log *)

Section Timestamps.
Context {cv : OpenCV}.

(** Rows in increasing frame order that carry the rounded time stamp
    of their frame have time stamps that never decrease. *)
Lemma timestamps_sorted (rate : Q) (rows : list Row) :
  (0 < rate)%Q →
  StronglySorted Z.lt (frame <$> rows) →
  Forall (fun r =>
            timestamp_ms r
            = py_round1 (Reading.double_timestamp rate (frame r)))
         rows →
  StronglySorted Qle (timestamp_ms <$> rows).
Proof.
  intros Hrate. induction rows as [|r rows IH]; intros Hsorted Hstamp.
  - constructor.
  - rewrite fmap_cons in Hsorted.
    apply StronglySorted_inv in Hsorted as [Hsorted Hfirst].
    apply Forall_cons in Hstamp as [Hr Hstamp].
    rewrite fmap_cons. constructor; [by apply IH|].
    apply Forall_fmap, Forall_forall. intros r' Hr'. simpl.
    rewrite Forall_fmap, Forall_forall in Hfirst.
    rewrite Forall_forall in Hstamp.
    specialize (Hfirst r' Hr'). simpl in Hfirst.
    rewrite Hr, (Hstamp r' Hr').
    apply py_round1_mono, double_timestamp_mono; [done|lia].
Qed.

Lemma rows_of_timestamps (detect : Image → result (option Point)) (rate : Q)
    (imgs : list Image) :
  (0 < rate)%Q →
  let rows := Reading.rows_of detect rate 0 imgs in
  Forall (fun r =>
            (0 <= timestamp_ms r)%Q
            ∧ (timestamp_ms r - Reading.double_timestamp rate (frame r)
               <= 1 # 20)%Q
            ∧ (Reading.double_timestamp rate (frame r) - timestamp_ms r
               <= 1 # 20)%Q) rows
  ∧ StronglySorted Qle (timestamp_ms <$> rows).
Proof.
  intros Hrate rows. split.
  - eapply Forall_impl; [apply (rows_of_row detect rate imgs 0)|].
    intros r [Hk Hr]. simpl in Hr. rewrite Hr. split.
    + apply Qle_trans with (py_round1 0); [done|].
      apply py_round1_mono, double_timestamp_nonneg; [done|lia].
    + apply py_round1_near.
  - apply (timestamps_sorted rate); [done|apply rows_of_sorted|].
    eapply Forall_impl; [apply (rows_of_row detect rate imgs 0)|].
    by intros r [_ Hr].
Qed.

(** X17.  In the log of a video with a positive frame rate no time
    stamp is negative, every time stamp lies within 0.05 ms of the
    double product (frame index - 1) * (1000 / fps) it is rounded from,
    and the time stamps never decrease along the log. *)
Theorem timestamps_accurate_and_ordered :
  (∀ (w : World) (video_path : string) (rows : list Row),
     DetectBall.recorded_rows w video_path = Ok rows →
     let rate := CAP_PROP_FPS (VideoCapture w video_path) in
     (0 < rate)%Q →
     Forall (fun r =>
               (0 <= timestamp_ms r)%Q
               ∧ (timestamp_ms r - Reading.double_timestamp rate (frame r)
                  <= 1 # 20)%Q
               ∧ (Reading.double_timestamp rate (frame r) - timestamp_ms r
                  <= 1 # 20)%Q) rows
     ∧ StronglySorted Qle (timestamp_ms <$> rows))
  ∧ (∀ (self : UniversalTracker.ColorTracker) (w : World)
       (video_path color_name : string) (show_preview : bool)
       (rows : list Row),
     UniversalTracker.recorded_rows self w video_path color_name show_preview
     = Ok rows →
     let rate := CAP_PROP_FPS (VideoCapture w video_path) in
     (0 < rate)%Q →
     Forall (fun r =>
               (0 <= timestamp_ms r)%Q
               ∧ (timestamp_ms r - Reading.double_timestamp rate (frame r)
                  <= 1 # 20)%Q
               ∧ (Reading.double_timestamp rate (frame r) - timestamp_ms r
                  <= 1 # 20)%Q) rows
     ∧ StronglySorted Qle (timestamp_ms <$> rows)).
Proof.
  split.
  - intros w video_path rows Hrun rate Hrate.
    unfold DetectBall.recorded_rows in Hrun.
    apply read_loop_ok in Hrun; [|apply detect_yellow_ball_ok].
    subst rows. by apply rows_of_timestamps.
  - intros self w video_path color_name show_preview rows Hrun rate Hrate.
    unfold UniversalTracker.recorded_rows, getitem in Hrun.
    destruct (UniversalTracker.colors (UniversalTracker.config self)
                !! color_name); [|done].
    cbn [mbind result_bind] in Hrun.
    apply read_loop_ok in Hrun;
      [|intros img; apply detect_colored_object_ok].
    subst rows. by apply rows_of_timestamps.
Qed.

End Timestamps.

Lemma timestamps_accurate_and_ordered_witness :
  ∃ rows,
    DetectBall.recorded_rows Examples.world "clip.mp4" = Ok rows
    ∧ StronglySorted Qle (timestamp_ms <$> rows).
Proof.
  eexists. split; [vm_compute; reflexivity|].
  apply (proj1 (@timestamps_accurate_and_ordered Bench.cv) Examples.world
           "clip.mp4"%string).
  - vm_compute. reflexivity.
  - reflexivity.
Defined.

(** ** Further behaviour of the tracker's renderer and recorder *)

Section TrackerEdges.
Context {cv : OpenCV}.

(** X18.  Given the path of a source video that does not exist, the
    tracker's renderer does not fail on a log of at least one row: it
    renders on blank canvases sized from the extent of the log, at the
    configured frame rate, one frame per row, and still names the result
    <colour>_trajectory_overlay.mp4. *)
Theorem tracker_missing_source_falls_back
    (self : UniversalTracker.ColorTracker) (w : World)
    (csv_path color_name p : string)
    (custom_line_thickness custom_circle_size : option Z)
    (df : DataFrame) (color_config : UniversalTracker.ColorConfig) :
  read_csv w csv_path = Ok df →
  df ≠ [] →
  UniversalTracker.colors (UniversalTracker.config self) !! color_name
    = Some color_config →
  p ≠ EmptyString →
  video_files w !! p = None →
  ∃ out xmin xmax ymin ymax,
    UniversalTracker.create_trajectory_video self w csv_path color_name
      (Some p) None custom_line_thickness custom_circle_size
    = Ok ((color_name +:+ "_trajectory_overlay.mp4")%string,
          {| frames := out;
             CAP_PROP_FPS :=
               UniversalTracker.fps
                 (UniversalTracker.trajectory (UniversalTracker.config self));
             CAP_PROP_FRAME_WIDTH := xmax - xmin + 200;
             CAP_PROP_FRAME_HEIGHT := ymax - ymin + 200 |})
    ∧ Column.is_min (x <$> df) xmin ∧ Column.is_max (x <$> df) xmax
    ∧ Column.is_min (y <$> df) ymin ∧ Column.is_max (y <$> df) ymax
    ∧ length out = length df
    ∧ ∀ (i : nat) row,
        df !! i = Some row →
        out !! i
        = Some (Reading.overlay_frame df (xmax - xmin + 200)
                  (ymax - ymin + 200)
                  (UniversalTracker.track_color color_config)
                  (py_or custom_line_thickness
                     (UniversalTracker.line_thickness
                        (UniversalTracker.trajectory
                           (UniversalTracker.config self))))
                  (UniversalTracker.highlight_color color_config)
                  (py_or custom_circle_size
                     (UniversalTracker.highlight_circle_size
                        (UniversalTracker.trajectory
                           (UniversalTracker.config self))))
                  (np_zeros (ymax - ymin + 200) (xmax - xmin + 200)) i row).
Proof.
  intros Hcsv Hne Hcolor Hp Hfile.
  destruct (series_max_spec (x <$> df)) as (xmax & Hxmax & Hxmax');
    [by apply fmap_nonempty|].
  destruct (series_min_spec (x <$> df)) as (xmin & Hxmin & Hxmin');
    [by apply fmap_nonempty|].
  destruct (series_max_spec (y <$> df)) as (ymax & Hymax & Hymax');
    [by apply fmap_nonempty|].
  destruct (series_min_spec (y <$> df)) as (ymin & Hymin & Hymin');
    [by apply fmap_nonempty|].
  assert (Htruthy : truthy_path (Some p) = true).
  { unfold truthy_path.
    by rewrite (proj2 (String.eqb_neq p EmptyString) Hp). }
  assert (Hsrc : usable_source w (Some p) = None).
  { unfold usable_source, path_exists. rewrite Hfile.
    rewrite bool_decide_eq_false_2 by (by intros [? ?]).
    by rewrite andb_false_r. }
  unfold UniversalTracker.create_trajectory_video, getitem.
  rewrite Hcsv, Hcolor, Hsrc, Htruthy. cbn [mbind result_bind].
  rewrite Hxmax, Hxmin.
  cbn [mbind result_bind option_bind nan_sub py_int_nan].
  rewrite Hymax, Hymin.
  cbn [mbind result_bind option_bind nan_sub py_int_nan].
  match goal with
  | |- context [overlay_loop df ?wd ?ht ?tc ?lt ?hc ?cs ?cap _ _] =>
      destruct (overlay_loop_seq df wd ht tc lt hc cs (length df) 0%nat cap [])
        as (out & Hout & Hn & Hat); [simpl; lia|]
  end.
  rewrite Hout. cbn [mbind result_bind app].
  exists out, xmin, xmax, ymin, ymax. split; [done|].
  do 5 (split; [done|]).
  intros i row Hrow. apply (Hat i row); [|done].
  by apply lookup_lt_Some in Hrow.
Qed.

Lemma first_overlay_frame (df : DataFrame) (width height : Z)
    (track_color : Scalar3) (line_thickness : Z)
    (highlight_color : Scalar3) (circle_size : Z) (bg : Image) (row : Row) :
  df !! 0%nat = Some row →
  Reading.overlay_frame df width height track_color line_thickness
    highlight_color circle_size bg 0 row
  = if in_canvas width height (x row, y row)
    then circle bg (x row, y row) circle_size highlight_color (-1)
    else bg.
Proof.
  intros Hrow. destruct df as [|r df]; [done|]. injection Hrow as ->.
  unfold Reading.overlay_frame, Reading.points_by_position.
  cbn [take fmap list_fmap]. rewrite take_0. cbn [fmap list_fmap].
  rewrite filter_cons, filter_nil.
  by destruct (decide (in_canvas width height (x row, y row) = true)).
Qed.

(** X19.  The first output frame of the tracker's renderer over a
    source video carries no polyline: it is the first source frame (a
    blank canvas when the source has no frame) with the marker of the
    first row on it when that row lies inside the canvas, and nothing on
    it otherwise. *)
Theorem first_frame_has_no_polyline
    (self : UniversalTracker.ColorTracker) (w : World)
    (csv_path color_name : string) (ovp : option string) (p : string)
    (output_path : option string)
    (custom_line_thickness custom_circle_size : option Z)
    (df : DataFrame) (color_config : UniversalTracker.ColorConfig)
    (row : Row) :
  read_csv w csv_path = Ok df →
  UniversalTracker.colors (UniversalTracker.config self) !! color_name
    = Some color_config →
  usable_source w ovp = Some p →
  df !! 0%nat = Some row →
  let src := VideoCapture w p in
  let width := CAP_PROP_FRAME_WIDTH src in
  let height := CAP_PROP_FRAME_HEIGHT src in
  let bg := default (np_zeros height width) (frames src !! 0%nat) in
  ∃ path vid,
    UniversalTracker.create_trajectory_video self w csv_path color_name ovp
      output_path custom_line_thickness custom_circle_size = Ok (path, vid)
    ∧ frames vid !! 0%nat
      = Some (if in_canvas width height (x row, y row)
              then circle bg (x row, y row)
                     (py_or custom_circle_size
                        (UniversalTracker.highlight_circle_size
                           (UniversalTracker.trajectory
                              (UniversalTracker.config self))))
                     (UniversalTracker.highlight_color color_config) (-1)
              else bg).
Proof.
  intros Hcsv Hcolor Hsrc Hrow src width height bg.
  destruct (tracker_overlay_value self w csv_path color_name ovp p
              output_path custom_line_thickness custom_circle_size df
              color_config Hcsv Hcolor Hsrc)
    as (path & vid & Hrun & _ & Hat).
  exists path, vid. split; [done|].
  rewrite (Hat 0%nat row Hrow). f_equal.
  by rewrite first_overlay_frame.
Qed.

Lemma rows_of_all_detected (detect : Image → result (option Point))
    (rate : Q) :
  ∀ (imgs : list Image) (n : Z),
    Forall (fun img => ∃ p, detect img = Ok (Some p)) imgs →
    frame <$> Reading.rows_of detect rate n imgs
    = seqZ (n + 1) (Z.of_nat (length imgs)).
Proof.
  induction imgs as [|img imgs IH]; intros n Hall; [done|].
  apply Forall_cons in Hall as [[[px py] Himg] Hall].
  cbn [Reading.rows_of length]. unfold Reading.row_of. rewrite Himg.
  rewrite fmap_cons, (IH (n + 1) Hall). cbn [frame].
  rewrite (seqZ_cons (n + 1)) by lia. f_equal. f_equal; lia.
Qed.

(** X20.  When the tracker's recorder runs without preview on a video
    with a nonzero frame rate and the object is detected in every frame,
    the log has one row per frame, with the frame indices 1, 2, ..., N
    in this order. *)
Theorem every_frame_detected_gives_full_log
    (self : UniversalTracker.ColorTracker) (w : World)
    (video_path color_name : string) :
  let src := VideoCapture w video_path in
  ¬ (CAP_PROP_FPS src == 0)%Q →
  Forall (fun img =>
            ∃ p, UniversalTracker.detect_colored_object self img color_name
                 = Ok (Some p)) (frames src) →
  is_Some (UniversalTracker.colors (UniversalTracker.config self)
             !! color_name) →
  ∃ rows,
    UniversalTracker.recorded_rows self w video_path color_name false
    = Ok rows
    ∧ frame <$> rows = seqZ 1 (Z.of_nat (length (frames src)))
    ∧ length rows = length (frames src).
Proof.
  intros src Hrate Hall [color_config Hcolor].
  eexists. split.
  - unfold UniversalTracker.recorded_rows, getitem.
    rewrite Hcolor. cbn [mbind result_bind]. fold src.
    rewrite read_loop_value;
      [|done|intros img; apply detect_colored_object_ok].
    rewrite decoded_without_preview. cbn [app]. reflexivity.
  - assert (Hframes :
      frame <$> Reading.rows_of
                  (fun img =>
                     UniversalTracker.detect_colored_object self img
                       color_name) (CAP_PROP_FPS src) 0 (frames src)
      = seqZ 1 (Z.of_nat (length (frames src))))
      by (by apply rows_of_all_detected).
    split; [done|].
    apply (f_equal length) in Hframes.
    rewrite length_fmap, length_seqZ in Hframes. lia.
Qed.

End TrackerEdges.

Lemma tracker_missing_source_falls_back_witness :
  ∃ vid,
    UniversalTracker.create_trajectory_video Bench.default_tracker
      Examples.world "two.csv" "yellow" (Some "gone.mp4"%string) None None
      None = Ok ("yellow_trajectory_overlay.mp4"%string, vid)
    ∧ length (frames vid) = 2%nat.
Proof.
  destruct (@tracker_missing_source_falls_back Bench.cv Bench.default_tracker
              Examples.world "two.csv"%string "yellow"%string
              "gone.mp4"%string None None Bench.log_two_rows
              Bench.yellow_profile)
    as (out & xmin & xmax & ymin & ymax & Hrun & _ & _ & _ & _ & Hlen & _).
  - vm_compute. reflexivity.
  - discriminate.
  - vm_compute. reflexivity.
  - discriminate.
  - vm_compute. reflexivity.
  - eexists. split; [exact Hrun|exact Hlen].
Defined.

Lemma first_frame_has_no_polyline_witness :
  ∃ path vid,
    UniversalTracker.create_trajectory_video Bench.default_tracker
      Examples.world "two.csv" "yellow" (Some "clip.mp4"%string) None None
      None = Ok (path, vid)
    ∧ frames vid !! 0%nat
      = Some (circle Bench.frame_wide (3, 4) 8 (0, 255, 255) (-1)).
Proof.
  destruct (@first_frame_has_no_polyline Bench.cv Bench.default_tracker
              Examples.world "two.csv"%string "yellow"%string
              (Some "clip.mp4"%string) "clip.mp4"%string None None None
              Bench.log_two_rows Bench.yellow_profile
              {| frame := 1; timestamp_ms := 0; x := 3; y := 4 |})
    as (path & vid & Hrun & Hfirst).
  - vm_compute. reflexivity.
  - vm_compute. reflexivity.
  - vm_compute. reflexivity.
  - reflexivity.
  - exists path, vid. split; [exact Hrun|]. rewrite Hfirst. reflexivity.
Defined.

Lemma every_frame_detected_gives_full_log_witness :
  ∃ rows,
    UniversalTracker.recorded_rows Examples.sharp_tracker Examples.world
      "steady.mp4" "yellow" false = Ok rows
    ∧ frame <$> rows = [1; 2].
Proof.
  assert (Hfound :
    UniversalTracker.detect_colored_object Examples.sharp_tracker
      Bench.frame_wide "yellow" = Ok (Some (9, 5)))
    by (vm_compute; reflexivity).
  destruct (@every_frame_detected_gives_full_log Bench.cv
              Examples.sharp_tracker Examples.world "steady.mp4"%string
              "yellow"%string)
    as (rows & Hrun & Hframes & _).
  - vm_compute. discriminate.
  - apply Forall_cons. split; [by exists (9, 5)|].
    apply Forall_cons. split; [by exists (9, 5)|]. constructor.
  - exists Bench.yellow_profile. vm_compute. reflexivity.
  - exists rows. split; [exact Hrun|]. exact Hframes.
Defined.
